(** * HQAstroCam: the camera session, its settings model and the file endpoints

    A shallow embedding of [app/camera.py] and of the video and file
    handlers of [app/main.py], with the properties the specification
    states about them.

    Conventions of the embedding.
    - A Python value is a [PyVal]; a Python [float] is a binary64 number,
      Rocq's primitive [float].
    - A [dict] with string keys is a [gmap string _]; [d.items()] is
      [map_to_list d], [d.update(e)] is [e ∪ d] and [d[k] = v] is
      [<[k:=v]> d].  No result below depends on the iteration order.
    - A call that may raise returns a [Result]; a method of a camera object
      is a function from the object's fields to a [Result] and the fields
      after the call (also after a raise: what was assigned before a raise
      stays assigned).
    - [with self._lock] serialises the methods; a method is modelled as one
      atomic step. *)

From Stdlib Require Import ZArith String Ascii List Bool Lia Sorted.
From Stdlib Require Import PrimFloat SpecFloat FloatOps.
From stdpp Require Import base option list gmap strings fin_maps.

#[local] Set Warnings "-register-all,-inexact-float".
Local Open Scope string_scope.
Local Open Scope list_scope.
Local Open Scope Z_scope.

(** ** Python values, exceptions and results *)

Inductive PyVal : Type :=
| PyNone
| PyBool (b : bool)
| PyInt (n : Z)
| PyFloat (x : float)
| PyStr (s : string)
| PyList (xs : list PyVal)
| PyTuple (xs : list PyVal)
| PyDict (kvs : list (string * PyVal)).

Inductive ExcClass : Type :=
| ValueError | TypeError | OverflowError | RuntimeError | OSError.

Record PyExc : Type := Exc { exc_class : ExcClass; exc_msg : string }.

Inductive Result (A : Type) : Type :=
| Ok (a : A)
| Raise (e : PyExc).
Arguments Ok {A} a.
Arguments Raise {A} e.

Definition rbind {A B : Type} (r : Result A) (k : A -> Result B) : Result B :=
  match r with
  | Ok a => k a
  | Raise e => Raise e
  end.

Notation "'let!' x ':=' r 'in' k" := (rbind r (fun x => k))
  (at level 10, x name, r at level 100, k at level 200).

(** ** The built-in conversions [bool(v)], [int(v)] and [float(v)] *)

(** What [int(s)] and [float(s)] give for a string [s] is the Python
    runtime's parser; [None] stands for the [ValueError] of a string that
    does not parse. *)
Record PyRuntime : Type := {
  str_to_int : string -> option Z;
  str_to_float : string -> option float;
}.

Definition py_bool (v : PyVal) : bool :=
  match v with
  | PyNone => false
  | PyBool b => b
  | PyInt n => negb (Z.eqb n 0)
  | PyFloat x => negb (PrimFloat.eqb x 0%float)
  | PyStr s => negb (String.eqb s "")
  | PyList xs | PyTuple xs => negb (Nat.eqb (length xs) 0)
  | PyDict kvs => negb (Nat.eqb (length kvs) 0)
  end.

(** [int(x)] of a float: truncation towards zero, [OverflowError] on an
    infinity and [ValueError] on a NaN. *)
Definition float_to_int (x : float) : Result Z :=
  match Prim2SF x with
  | S754_zero _ => Ok 0
  | S754_infinity _ =>
      Raise (Exc OverflowError "cannot convert float infinity to integer")
  | S754_nan => Raise (Exc ValueError "cannot convert float NaN to integer")
  | S754_finite s m e =>
      let a := Z.shiftl (Z.pos m) e in
      Ok (if s then - a else a)
  end.

(** [float(n)] of an int: the nearest binary64 number (ties to even),
    [OverflowError] when that is out of the format's range. *)
Definition int_to_float (n : Z) : Result float :=
  match binary_normalize prec emax n 0 false with
  | S754_infinity _ => Raise (Exc OverflowError "int too large to convert to float")
  | sf => Ok (SF2Prim sf)
  end.

Section Conversions.
Context (py : PyRuntime).

Definition py_int (v : PyVal) : Result Z :=
  match v with
  | PyBool b => Ok (if b then 1 else 0)
  | PyInt n => Ok n
  | PyFloat x => float_to_int x
  | PyStr s =>
      match str_to_int py s with
      | Some n => Ok n
      | None => Raise (Exc ValueError "invalid literal for int() with base 10")
      end
  | PyNone | PyList _ | PyTuple _ | PyDict _ =>
      Raise (Exc TypeError "int() argument must be a string, a bytes-like object or a real number")
  end.

Definition py_float (v : PyVal) : Result float :=
  match v with
  | PyBool b => Ok (if b then 1%float else 0%float)
  | PyInt n => int_to_float n
  | PyFloat x => Ok x
  | PyStr s =>
      match str_to_float py s with
      | Some x => Ok x
      | None => Raise (Exc ValueError "could not convert string to float")
      end
  | PyNone | PyList _ | PyTuple _ | PyDict _ =>
      Raise (Exc TypeError "float() argument must be a string or a real number")
  end.
End Conversions.

(** ** The control table, the defaults and the presets *)

Inductive ControlType : Type :=
| T_bool | T_int | T_float | T_tuple2 | T_select.

Record ControlMeta : Type := {
  ctl_label : string;
  ctl_type : ControlType;
  ctl_range : option (PyVal * PyVal * PyVal);   (* min, max, step *)
  ctl_hint : option string;
  ctl_options : list (Z * string);
}.

Definition meta_plain (label : string) (t : ControlType) : ControlMeta :=
  {| ctl_label := label; ctl_type := t; ctl_range := None;
     ctl_hint := None; ctl_options := [] |}.

Definition meta_range (label : string) (t : ControlType)
    (lo hi step : PyVal) (hint : option string) : ControlMeta :=
  {| ctl_label := label; ctl_type := t; ctl_range := Some (lo, hi, step);
     ctl_hint := hint; ctl_options := [] |}.

Definition meta_select (label : string) (opts : list (Z * string)) : ControlMeta :=
  {| ctl_label := label; ctl_type := T_select; ctl_range := None;
     ctl_hint := None; ctl_options := opts |}.

Definition CONTROL_META_items : list (string * ControlMeta) :=
  [ ("AeEnable", meta_plain "Auto Exposure" T_bool);
    ("AwbEnable", meta_plain "Auto White Balance" T_bool);
    ("ExposureTime",
       meta_range "Exposure Time (us)" T_int
         (PyInt 100) (PyInt 200000000) (PyInt 100) (Some "100 us - 200 s"));
    ("AnalogueGain",
       meta_range "Analogue Gain" T_float
         (PyFloat 1.0) (PyFloat 22.26) (PyFloat 0.1) None);
    ("ColourGains",
       meta_range "Colour Gains (R, B)" T_tuple2
         (PyFloat 0.0) (PyFloat 32.0) (PyFloat 0.1) None);
    ("Brightness",
       meta_range "Brightness" T_float
         (PyFloat (-1.0)) (PyFloat 1.0) (PyFloat 0.05) None);
    ("Contrast",
       meta_range "Contrast" T_float
         (PyFloat 0.0) (PyFloat 32.0) (PyFloat 0.1) None);
    ("Saturation",
       meta_range "Saturation" T_float
         (PyFloat 0.0) (PyFloat 32.0) (PyFloat 0.1) None);
    ("Sharpness",
       meta_range "Sharpness" T_float
         (PyFloat 0.0) (PyFloat 16.0) (PyFloat 0.1) None);
    ("NoiseReductionMode",
       meta_select "Noise Reduction"
         [(0, "Off"); (1, "Fast"); (2, "High Quality"); (3, "Minimal"); (4, "ZSL")]);
    ("AfMode",
       meta_select "AF Mode" [(0, "Manual"); (1, "Auto"); (2, "Continuous")]);
    ("LensPosition",
       meta_range "Lens Position (focus)" T_float
         (PyFloat 0.0) (PyFloat 32.0) (PyFloat 0.1)
         (Some "0 = infinity, higher = closer")) ].

Definition CONTROL_META : gmap string ControlMeta :=
  list_to_map CONTROL_META_items.

Definition colour_gains (r b : float) : PyVal := PyTuple [PyFloat r; PyFloat b].

Definition DEFAULT_SETTINGS_items : list (string * PyVal) :=
  [ ("AeEnable", PyBool false);
    ("AwbEnable", PyBool false);
    ("ExposureTime", PyInt 4000000);
    ("AnalogueGain", PyFloat 4.0);
    ("ColourGains", colour_gains 1.5 1.5);
    ("Brightness", PyFloat 0.0);
    ("Contrast", PyFloat 1.0);
    ("Saturation", PyFloat 1.0);
    ("Sharpness", PyFloat 1.0);
    ("NoiseReductionMode", PyInt 2) ].

Definition DEFAULT_SETTINGS : gmap string PyVal :=
  list_to_map DEFAULT_SETTINGS_items.

Record Preset : Type := {
  preset_label : string;
  preset_settings : gmap string PyVal;
}.

Definition preset_items (exposure : Z) (gain : float) (r b : float)
    (nr : Z) (contrast saturation : float) : list (string * PyVal) :=
  [ ("AeEnable", PyBool false);
    ("AwbEnable", PyBool false);
    ("ExposureTime", PyInt exposure);
    ("AnalogueGain", PyFloat gain);
    ("ColourGains", colour_gains r b);
    ("NoiseReductionMode", PyInt nr);
    ("Contrast", PyFloat contrast);
    ("Saturation", PyFloat saturation) ].

Definition mk_preset (label : string) (items : list (string * PyVal)) : Preset :=
  {| preset_label := label; preset_settings := list_to_map items |}.

Definition PRESETS_items : list (string * Preset) :=
  [ ("deep_sky",
       mk_preset "Deep Sky (Long Exposure)"
         (preset_items 30000000 8.0 1.5 1.5 2 1.0 1.2));
    ("planetary",
       mk_preset "Planetary / Moon (Short Exposure)"
         (preset_items 10000 2.0 1.5 1.5 1 1.2 1.0));
    ("lucky_imaging",
       mk_preset "Lucky Imaging (Video Burst)"
         (preset_items 100000 4.0 1.5 1.5 0 1.0 0.8));
    ("milky_way",
       mk_preset "Milky Way / Wide Field"
         (preset_items 15000000 16.0 1.8 1.4 2 1.1 1.3)) ].

Definition PRESETS : gmap string Preset := list_to_map PRESETS_items.

(** ** [_coerce_settings] *)

Section Coercion.
Context (py : PyRuntime).

(** [except (ValueError, TypeError)]: the classes the handler catches. *)
Definition caught (e : PyExc) : bool :=
  match exc_class e with
  | ValueError | TypeError => true
  | _ => false
  end.

(** The body of the [try] block for one item: the value assigned to
    [out[key]], if any.  For ["tuple2"] a value that is not a list or a
    tuple of length 2 assigns nothing and raises nothing. *)
Definition coerce_try (t : ControlType) (val : PyVal) : Result (option PyVal) :=
  match t with
  | T_bool => Ok (Some (PyBool (py_bool val)))
  | T_int => let! n := py_int py val in Ok (Some (PyInt n))
  | T_float => let! x := py_float py val in Ok (Some (PyFloat x))
  | T_select => let! n := py_int py val in Ok (Some (PyInt n))
  | T_tuple2 =>
      match val with
      | PyList [a; b] | PyTuple [a; b] =>
          let! x := py_float py a in
          let! y := py_float py b in
          Ok (Some (PyTuple [PyFloat x; PyFloat y]))
      | _ => Ok None
      end
  end.

(** The [for key, val in raw.items()] loop, [out] being the dict built so
    far.  A caught exception is logged and the loop goes on; any other
    exception leaves the function. *)
Fixpoint coerce_items (items : list (string * PyVal)) (out : gmap string PyVal)
    : Result (gmap string PyVal) :=
  match items with
  | [] => Ok out
  | (key, val) :: rest =>
      match CONTROL_META !! key with
      | None => coerce_items rest out
      | Some meta =>
          match coerce_try (ctl_type meta) val with
          | Ok (Some v) => coerce_items rest (<[key := v]> out)
          | Ok None => coerce_items rest out
          | Raise e => if caught e then coerce_items rest out else Raise e
          end
      end
  end.

Definition _coerce_settings (raw : gmap string PyVal) : Result (gmap string PyVal) :=
  coerce_items (map_to_list raw) ∅.

(** What one pass of the loop body does with an item. *)
Inductive Outcome : Type :=
| Stored (v : PyVal)
| Dropped
| Escapes (e : PyExc).

Definition coerce_entry (key : string) (val : PyVal) : Outcome :=
  match CONTROL_META !! key with
  | None => Dropped
  | Some meta =>
      match coerce_try (ctl_type meta) val with
      | Ok (Some v) => Stored v
      | Ok None => Dropped
      | Raise e => if caught e then Dropped else Escapes e
      end
  end.

Definition coerce_stored (key : string) (val : PyVal) : option PyVal :=
  match coerce_entry key val with
  | Stored v => Some v
  | _ => None
  end.

(** The declared type of a control, as a runtime type of the value. *)
Definition has_type (t : ControlType) (v : PyVal) : bool :=
  match t, v with
  | T_bool, PyBool _ => true
  | T_int, PyInt _ => true
  | T_select, PyInt _ => true
  | T_float, PyFloat _ => true
  | T_tuple2, PyTuple [PyFloat _; PyFloat _] => true
  | _, _ => false
  end.

(** The invariant of a settings dict: only keys of the control table,
    each with a value of the declared type. *)
Definition well_typed (s : gmap string PyVal) : Prop :=
  ∀ k v, s !! k = Some v →
    ∃ meta, CONTROL_META !! k = Some meta ∧ has_type (ctl_type meta) v = true.
End Coercion.



(** ** Methods of a stateful object: state passing with exceptions *)

Definition M (S A : Type) : Type := S -> Result A * S.

Definition ret {S A : Type} (a : A) : M S A := fun s => (Ok a, s).
Definition raise {S A : Type} (e : PyExc) : M S A := fun s => (Raise e, s).
Definition bind {S A B : Type} (m : M S A) (k : A -> M S B) : M S B :=
  fun s =>
    match m s with
    | (Ok a, s') => k a s'
    | (Raise e, s') => (Raise e, s')
    end.
Definition gets {S A : Type} (f : S -> A) : M S A := fun s => (Ok (f s), s).
Definition modify {S : Type} (f : S -> S) : M S unit := fun s => (Ok tt, f s).
(** [try: m  except Exception: pass] *)
Definition try_pass {S : Type} (m : M S unit) : M S unit :=
  fun s => (Ok tt, snd (m s)).

#[export] Instance M_ret {S : Type} : MRet (M S) := fun A => ret.
#[export] Instance M_bind {S : Type} : MBind (M S) := fun A B k m => bind m k.

(** ** File names *)

Definition bytes : Type := list Byte.byte.

Fixpoint ends_with (suffix s : string) : bool :=
  String.eqb s suffix ||
  match s with
  | EmptyString => false
  | String _ s' => ends_with suffix s'
  end.

(** [str(dir / name)] for a directory [dir] given by its string and a
    single-component relative [name]. *)
Definition path_join (dir name : string) : string :=
  if String.eqb dir "." then name
  else if ends_with "/" dir then dir +:+ name
  else dir +:+ "/" +:+ name.

Definition photo_name (timestamp ext : string) : string :=
  "photo_" +:+ timestamp +:+ ext.
Definition video_name (timestamp : string) : string :=
  "video_" +:+ timestamp +:+ ".mp4".

(** ** The frame buffer *)

Module StreamingOutput.
Record t : Type := { frame : option bytes }.

Definition init : t := {| frame := None |}.

(** [write(buf)]: replaces the slot and wakes the waiters. *)
Definition write (buf : bytes) (self : t) : Z * t :=
  (Z.of_nat (length buf), {| frame := Some buf |}).

(** [wait_for_frame(timeout)].  [during] lists the buffers the producer
    writes between the call and the moment the waiter holds the lock
    again: none when the wait times out. *)
Definition wait_for_frame (during : list bytes) (self : t) : option bytes * t :=
  let self' := fold_left (fun o buf => snd (write buf o)) during self in
  (frame self', self').
End StreamingOutput.

(** ** The camera library, as the session uses it *)

Inductive Encoder : Type :=
| MJPEGEncoder
| H264Encoder (bitrate : Z).

Inductive Output : Type :=
| FileOutput_streaming_output            (* FileOutput(self._streaming_output) *)
| FfmpegOutput (path : option string).

Record VideoCfg : Type := {
  vc_main : (Z * Z) * option string;
  vc_lores : option ((Z * Z) * string);
  vc_controls : option (gmap string PyVal);
}.

Record StillCfg : Type := {
  sc_main : Z * Z;
  sc_raw : option (Z * Z);
}.

Inductive HwCall : Type :=
| Create_video_configuration (cfg : VideoCfg)
| Configure (cfg : VideoCfg)
| Start_recording (enc : Encoder) (out : Output) (name : option string)
| Stop_recording
| Create_still_configuration (cfg : StillCfg)
| Switch_mode (cfg : StillCfg)
| Start
| Stop
| Capture_file (path : string) (raw : option string)
| Set_controls (controls : gmap string PyVal).

(** A camera library: a handle, what each call does to it, and whether the
    call raises.  Nothing is assumed about it. *)
Record Driver : Type := {
  cam : Type;
  hw_call : HwCall -> M cam unit;
  sensor_resolution : cam -> Z * Z;
}.

(** ** The public interface of a camera *)

Inductive Request : Type :=
| Get_frame (during : list bytes)
| Get_settings
| Apply_settings (new : gmap string PyVal)
| Apply_preset (preset_name : string)
| Capture_photo (timestamp : string) (capture_raw : bool)
| Start_video (timestamp : string) (fps : Z)
| Stop_video
| Is_recording
| Close.

Inductive Reply : Type :=
| Reply_none
| Reply_frame (f : option bytes)
| Reply_settings (d : gmap string PyVal)
| Reply_files (files : list string)
| Reply_path (p : string)
| Reply_opt_path (p : option string)
| Reply_bool (b : bool).

(** ** [RealCamera] *)

Module RealCamera.
Section WithDriver.
Context (py : PyRuntime) (D : Driver).

Record t : Type := {
  capture_dir : string;
  _streaming_output : option StreamingOutput.t;
  _recording : bool;
  _recording_path : option string;
  _settings : gmap string PyVal;
  _cam : cam D;
  (** ghost: the calls made on [_cam] so far, oldest first *)
  calls : list HwCall;
}.

Definition PREVIEW_SIZE : Z * Z := (1280, 720).
Definition CAPTURE_SIZE : Z * Z := (4056, 3040).
Definition VIDEO_SIZE : Z * Z := (1920, 1080).

Definition set_streaming_output (o : option StreamingOutput.t) (s : t) : t :=
  {| capture_dir := capture_dir s; _streaming_output := o;
     _recording := _recording s; _recording_path := _recording_path s;
     _settings := _settings s; _cam := _cam s; calls := calls s |}.
Definition set_recording (b : bool) (s : t) : t :=
  {| capture_dir := capture_dir s; _streaming_output := _streaming_output s;
     _recording := b; _recording_path := _recording_path s;
     _settings := _settings s; _cam := _cam s; calls := calls s |}.
Definition set_recording_path (p : option string) (s : t) : t :=
  {| capture_dir := capture_dir s; _streaming_output := _streaming_output s;
     _recording := _recording s; _recording_path := p;
     _settings := _settings s; _cam := _cam s; calls := calls s |}.
Definition set_settings (d : gmap string PyVal) (s : t) : t :=
  {| capture_dir := capture_dir s; _streaming_output := _streaming_output s;
     _recording := _recording s; _recording_path := _recording_path s;
     _settings := d; _cam := _cam s; calls := calls s |}.

(** [self._cam.<call>(...)]: the call is recorded, the handle moves on, and
    an exception of the library leaves the method. *)
Definition hw (c : HwCall) : M t unit :=
  fun s =>
    let '(r, cam') := hw_call D c (_cam s) in
    (r, {| capture_dir := capture_dir s; _streaming_output := _streaming_output s;
           _recording := _recording s; _recording_path := _recording_path s;
           _settings := _settings s; _cam := cam'; calls := calls s ++ [c] |}).

Definition _configure_preview : M t unit :=
  settings ← gets _settings;
  let cfg := {| vc_main := (PREVIEW_SIZE, Some "RGB888");
                vc_lores := Some ((640, 360), "YUV420");
                vc_controls := Some settings |} in
  hw (Create_video_configuration cfg);;
  hw (Configure cfg);;
  modify (set_streaming_output (Some StreamingOutput.init));;
  hw (Start_recording MJPEGEncoder FileOutput_streaming_output (Some "lores")).

(** [__init__], once [capture_dir.mkdir] and [Picamera2()] have returned
    ([cam0] is the new handle). *)
Definition init (dir : string) (cam0 : cam D) : Result unit * t :=
  (_configure_preview ;; hw Start)
    {| capture_dir := dir; _streaming_output := None; _recording := false;
       _recording_path := None; _settings := DEFAULT_SETTINGS;
       _cam := cam0; calls := [] |}.

(** The encoder thread delivers a preview frame. *)
Definition deliver_frame (buf : bytes) (s : t) : t :=
  set_streaming_output
    (option_map (fun o => snd (StreamingOutput.write buf o)) (_streaming_output s)) s.

Definition get_frame (during : list bytes) : M t (option bytes) :=
  fun s =>
    match _streaming_output s with
    | Some o =>
        let '(f, o') := StreamingOutput.wait_for_frame during o in
        (Ok f, set_streaming_output (Some o') s)
    | None => (Ok None, s)
    end.

Definition get_settings : M t (gmap string PyVal) := gets _settings.

Definition apply_settings (new : gmap string PyVal) : M t (gmap string PyVal) :=
  match _coerce_settings py new with
  | Raise e => raise e
  | Ok coerced =>
      modify (fun s => set_settings (coerced ∪ _settings s) s);;
      hw (Set_controls coerced);;
      gets _settings
  end.

Definition apply_preset (preset_name : string) : M t (gmap string PyVal) :=
  match PRESETS !! preset_name with
  | None => raise (Exc ValueError ("Unknown preset: " +:+ preset_name))
  | Some p => apply_settings (preset_settings p)
  end.

Definition _start_recording_internal : M t unit :=
  let vid_cfg := {| vc_main := (VIDEO_SIZE, None); vc_lores := None;
                    vc_controls := None |} in
  hw (Create_video_configuration vid_cfg);;
  hw (Configure vid_cfg);;
  path ← gets _recording_path;
  hw (Start_recording (H264Encoder 10000000) (FfmpegOutput path) None);;
  modify (set_recording true).

(** [timestamp] is what [time.strftime("%Y%m%d_%H%M%S")] returns. *)
Definition capture_photo (timestamp : string) (capture_raw : bool)
    : M t (list string) :=
  was_recording ← gets _recording;
  hw Stop_recording;;
  resolution ← gets (fun s => sensor_resolution D (_cam s));
  let still_cfg := {| sc_main := CAPTURE_SIZE;
                      sc_raw := if capture_raw then Some resolution else None |} in
  hw (Create_still_configuration still_cfg);;
  hw (Switch_mode still_cfg);;
  hw Start;;
  dir ← gets capture_dir;
  let jpeg_path := path_join dir (photo_name timestamp ".jpg") in
  files ← (if capture_raw return M t (list string) then
             let raw_path := path_join dir (photo_name timestamp ".dng") in
             hw (Capture_file jpeg_path (Some raw_path));;
             ret [raw_path]
           else
             hw (Capture_file jpeg_path None);;
             ret []);
  let files := jpeg_path :: files in
  _configure_preview;;
  hw Start;;
  (if (was_recording : bool) return M t unit
   then _start_recording_internal else ret tt);;
  ret files.

Definition start_video (timestamp : string) (fps : Z) : M t string :=
  dir ← gets capture_dir;
  let path := path_join dir (video_name timestamp) in
  recording ← gets _recording;
  if (recording : bool) then raise (Exc RuntimeError "Already recording")
  else
    modify (set_recording_path (Some path));;
    _start_recording_internal;;
    ret path.

Definition stop_video : M t (option string) :=
  recording ← gets _recording;
  if negb recording then ret None
  else
    hw Stop_recording;;
    modify (set_recording false);;
    path ← gets _recording_path;
    modify (set_recording_path None);;
    _configure_preview;;
    ret path.

Definition is_recording (s : t) : bool := _recording s.

Definition close : M t unit :=
  try_pass (hw Stop_recording);;
  try_pass (hw Stop).

Definition handle (req : Request) : M t Reply :=
  match req with
  | Get_frame during => f ← get_frame during; ret (Reply_frame f)
  | Get_settings => d ← get_settings; ret (Reply_settings d)
  | Apply_settings new => d ← apply_settings new; ret (Reply_settings d)
  | Apply_preset n => d ← apply_preset n; ret (Reply_settings d)
  | Capture_photo ts raw => l ← capture_photo ts raw; ret (Reply_files l)
  | Start_video ts fps => p ← start_video ts fps; ret (Reply_path p)
  | Stop_video => p ← stop_video; ret (Reply_opt_path p)
  | Is_recording => b ← gets is_recording; ret (Reply_bool b)
  | Close => close;; ret Reply_none
  end.

(** The states a session goes through: it is constructed, then serves
    requests (whether they return or raise) while the encoder thread
    delivers frames. *)
Inductive reachable : t -> Prop :=
| reach_init dir cam0 s0 :
    init dir cam0 = (Ok tt, s0) → reachable s0
| reach_handle req s :
    reachable s → reachable (snd (handle req s))
| reach_frame buf s :
    reachable s → reachable (deliver_frame buf s).
End WithDriver.
End RealCamera.

(** ** [MockCamera] *)

(** The file operations of the mock camera, and an operating system that
    performs them: nothing is assumed about it either. *)
Inductive OsCall : Type :=
| Write_file (path : string) (data : bytes)    (* open(path, "wb").write(data) *)
| Touch (path : string).                        (* Path(path).touch() *)

Record OS : Type := {
  disk : Type;
  os_call : OsCall -> M disk unit;
}.

Module MockCamera.
Section WithOS.
Context (py : PyRuntime) (O : OS).

Record t : Type := {
  capture_dir : string;
  _settings : gmap string PyVal;
  _recording : bool;
  _recording_path : option string;
  _running : bool;
  _current_frame : option bytes;
  _disk : disk O;
  (** ghost: the file operations made so far, oldest first *)
  writes : list OsCall;
}.

Definition set_settings (d : gmap string PyVal) (s : t) : t :=
  {| capture_dir := capture_dir s; _settings := d; _recording := _recording s;
     _recording_path := _recording_path s; _running := _running s;
     _current_frame := _current_frame s; _disk := _disk s; writes := writes s |}.
Definition set_recording (b : bool) (s : t) : t :=
  {| capture_dir := capture_dir s; _settings := _settings s; _recording := b;
     _recording_path := _recording_path s; _running := _running s;
     _current_frame := _current_frame s; _disk := _disk s; writes := writes s |}.
Definition set_recording_path (p : option string) (s : t) : t :=
  {| capture_dir := capture_dir s; _settings := _settings s;
     _recording := _recording s; _recording_path := p; _running := _running s;
     _current_frame := _current_frame s; _disk := _disk s; writes := writes s |}.
Definition set_running (b : bool) (s : t) : t :=
  {| capture_dir := capture_dir s; _settings := _settings s;
     _recording := _recording s; _recording_path := _recording_path s;
     _running := b; _current_frame := _current_frame s; _disk := _disk s;
     writes := writes s |}.
Definition set_current_frame (f : option bytes) (s : t) : t :=
  {| capture_dir := capture_dir s; _settings := _settings s;
     _recording := _recording s; _recording_path := _recording_path s;
     _running := _running s; _current_frame := f; _disk := _disk s;
     writes := writes s |}.

Definition os (c : OsCall) : M t unit :=
  fun s =>
    let '(r, disk') := os_call O c (_disk s) in
    (r, {| capture_dir := capture_dir s; _settings := _settings s;
           _recording := _recording s; _recording_path := _recording_path s;
           _running := _running s; _current_frame := _current_frame s;
           _disk := disk'; writes := writes s ++ [c] |}).

(** [__init__], once [capture_dir.mkdir] has returned. *)
Definition init (dir : string) (disk0 : disk O) : t :=
  {| capture_dir := dir; _settings := DEFAULT_SETTINGS; _recording := false;
     _recording_path := None; _running := true; _current_frame := None;
     _disk := disk0; writes := [] |}.

(** One round of [_generate_frames]: the thread stores a rendered frame.
    (When the thread's imports fail it stores none, ever.) *)
Definition generate_frame (buf : bytes) (s : t) : t :=
  set_current_frame (Some buf) s.

(** [get_frame()]; [during] as for [StreamingOutput.wait_for_frame]. *)
Definition get_frame (during : list bytes) : M t (option bytes) :=
  modify (fun s => fold_left (fun s buf => generate_frame buf s) during s);;
  gets _current_frame.

Definition get_settings : M t (gmap string PyVal) := gets _settings.

Definition apply_settings (new : gmap string PyVal) : M t (gmap string PyVal) :=
  match _coerce_settings py new with
  | Raise e => raise e
  | Ok coerced =>
      modify (fun s => set_settings (coerced ∪ _settings s) s);;
      gets _settings
  end.

Definition apply_preset (preset_name : string) : M t (gmap string PyVal) :=
  match PRESETS !! preset_name with
  | None => raise (Exc ValueError ("Unknown preset: " +:+ preset_name))
  | Some p => apply_settings (preset_settings p)
  end.

(** [if frame:] for [bytes | None]. *)
Definition frame_truthy (frame : option bytes) : option bytes :=
  match frame with
  | Some (b :: bs) => Some (b :: bs)
  | _ => None
  end.

Definition DNG_PLACEHOLDER : bytes := list_byte_of_string "DNG_PLACEHOLDER_DEMO".

Definition capture_photo (timestamp : string) (capture_raw : bool)
    : M t (list string) :=
  frame ← gets _current_frame;
  dir ← gets capture_dir;
  files ← (match frame_truthy frame return M t (list string) with
           | Some data =>
               let jpeg_path := path_join dir (photo_name timestamp ".jpg") in
               os (Write_file jpeg_path data);;
               ret [jpeg_path]
           | None => ret []
           end);
  if capture_raw then
    let raw_path := path_join dir (photo_name timestamp ".dng") in
    os (Write_file raw_path DNG_PLACEHOLDER);;
    ret (app files [raw_path])
  else ret files.

Definition start_video (timestamp : string) (fps : Z) : M t string :=
  recording ← gets _recording;
  if (recording : bool) then raise (Exc RuntimeError "Already recording")
  else
    dir ← gets capture_dir;
    let path := path_join dir (video_name timestamp) in
    modify (set_recording true);;
    modify (set_recording_path (Some path));;
    os (Touch path);;
    ret path.

Definition stop_video : M t (option string) :=
  recording ← gets _recording;
  if negb recording then ret None
  else
    modify (set_recording false);;
    path ← gets _recording_path;
    modify (set_recording_path None);;
    ret path.

Definition is_recording (s : t) : bool := _recording s.

Definition close : M t unit := modify (set_running false).

Definition handle (req : Request) : M t Reply :=
  match req with
  | Get_frame during => f ← get_frame during; ret (Reply_frame f)
  | Get_settings => d ← get_settings; ret (Reply_settings d)
  | Apply_settings new => d ← apply_settings new; ret (Reply_settings d)
  | Apply_preset n => d ← apply_preset n; ret (Reply_settings d)
  | Capture_photo ts raw => l ← capture_photo ts raw; ret (Reply_files l)
  | Start_video ts fps => p ← start_video ts fps; ret (Reply_path p)
  | Stop_video => p ← stop_video; ret (Reply_opt_path p)
  | Is_recording => b ← gets is_recording; ret (Reply_bool b)
  | Close => close;; ret Reply_none
  end.

Inductive reachable : t -> Prop :=
| reach_init dir disk0 : reachable (init dir disk0)
| reach_handle req s :
    reachable s → reachable (snd (handle req s))
| reach_frame buf s :
    reachable s → reachable (generate_frame buf s).
End WithOS.
End MockCamera.

(** ** Paths, as [pathlib] sees them *)

Inductive Root : Type :=
| Relative      (* no leading slash *)
| Slash         (* "/" *)
| Slash2.       (* exactly two leading slashes, which POSIX keeps apart *)

Record Path : Type := { root : Root; parts : list string }.

(** The components of a string between slashes, oldest first; [cur] is the
    component being read, reversed. *)
Fixpoint split_slash (s : string) (cur : string) : list string :=
  match s with
  | EmptyString => [cur]
  | String c s' =>
      if Ascii.eqb c "/" then cur :: split_slash s' EmptyString
      else split_slash s' (cur +:+ String c EmptyString)
  end.

Definition is_component (c : string) : bool :=
  negb (String.eqb c "" || String.eqb c ".").

Definition root_of (s : string) : Root :=
  match s with
  | String "/" (String "/" (String "/" _)) => Slash
  | String "/" (String "/" _) => Slash2
  | String "/" _ => Slash
  | _ => Relative
  end.

(** [Path(s)]: empty components and ["."] are dropped, [".."] is kept. *)
Definition Path_of (s : string) : Path :=
  {| root := root_of s; parts := List.filter is_component (split_slash s "") |}.

(** [p / s] *)
Definition joinpath (p : Path) (s : string) : Path :=
  let q := Path_of s in
  match root q with
  | Relative => {| root := root p; parts := parts p ++ parts q |}
  | _ => q
  end.

(** [p.name] *)
Definition name (p : Path) : string := List.last (parts p) "".

Definition root_eqb (a b : Root) : bool :=
  match a, b with
  | Relative, Relative | Slash, Slash | Slash2, Slash2 => true
  | _, _ => false
  end.

Fixpoint strip_prefix (pre l : list string) : option (list string) :=
  match pre, l with
  | [], _ => Some l
  | a :: pre', b :: l' => if String.eqb a b then strip_prefix pre' l' else None
  | _ :: _, [] => None
  end.

(** [p.relative_to(other)]: [None] stands for its [ValueError]. *)
Definition relative_to (p other : Path) : option Path :=
  if root_eqb (root p) (root other) then
    match strip_prefix (parts other) (parts p) with
    | Some rest => Some {| root := Relative; parts := rest |}
    | None => None
    end
  else None.

(** ** The HTTP handlers for video stop and for stored files *)

Inductive Response : Type :=
| JSONResponse (body : list (string * PyVal))
| FileResponse (path : Path) (filename : string) (media_type : string)
| HTTPException (status_code : Z) (detail : string)
| Uncaught (e : PyExc).      (* the framework answers 500 *)


(** [POST /api/video/stop], given what [camera.stop_video()] did. *)
Definition stop_video_handler (r : Result (option string)) : Response :=
  match r with
  | Raise exc => HTTPException 500 (exc_msg exc)
  | Ok None => HTTPException 400 "Not recording"
  | Ok (Some path) =>
      JSONResponse [("file", PyStr (name (Path_of path))); ("recording", PyBool false)]
  end.

(** What the file handlers ask of the file system, and its answers. *)
Record FileSystem : Type := {
  resolve : Path -> Result Path;
  exists_ : Path -> bool;
  is_file : Path -> bool;
  unlink : Path -> Result unit;
}.

Inductive FsOp : Type :=
| Op_resolve (p : Path)
| Op_exists (p : Path)
| Op_is_file (p : Path)
| Op_unlink (p : Path)
| Op_serve (p : Path).

Section Files.
Context (CAPTURES_DIR : Path) (guess_type : string -> option string)
        (fs : FileSystem).

(** The [try] block [path.resolve().relative_to(CAPTURES_DIR.resolve())]:
    its outcome and the file-system operations it made. *)
Definition traversal_check (path : Path) : Result unit * list FsOp :=
  match resolve fs path with
  | Raise e => (Raise e, [Op_resolve path])
  | Ok rp =>
      match resolve fs CAPTURES_DIR with
      | Raise e => (Raise e, [Op_resolve path; Op_resolve CAPTURES_DIR])
      | Ok rc =>
          (match relative_to rp rc with
           | Some _ => Ok tt
           | None => Raise (Exc ValueError "is not in the subpath of")
           end, [Op_resolve path; Op_resolve CAPTURES_DIR])
      end
  end.

(** [not path.exists() or not path.is_file()] *)
Definition missing (path : Path) : bool * list FsOp :=
  if negb (exists_ fs path) then (true, [Op_exists path])
  else (negb (is_file fs path), [Op_exists path; Op_is_file path]).

Definition media_type_of (filename : string) : string :=
  match guess_type filename with
  | Some "" | None => "application/octet-stream"
  | Some ty => ty
  end.

Definition download_file (filename : string) : Response * list FsOp :=
  let path := joinpath CAPTURES_DIR filename in
  match traversal_check path with
  | (Raise e, ops) =>
      match exc_class e with
      | ValueError => (HTTPException 403 "Forbidden", ops)
      | _ => (Uncaught e, ops)
      end
  | (Ok _, ops) =>
      let '(gone, ops') := missing path in
      if gone then (HTTPException 404 "File not found", (ops ++ ops')%list)
      else (FileResponse path filename (media_type_of filename),
            (ops ++ ops' ++ [Op_serve path])%list)
  end.

Definition delete_file (filename : string) : Response * list FsOp :=
  let path := joinpath CAPTURES_DIR filename in
  match traversal_check path with
  | (Raise e, ops) =>
      match exc_class e with
      | ValueError => (HTTPException 403 "Forbidden", ops)
      | _ => (Uncaught e, ops)
      end
  | (Ok _, ops) =>
      let '(gone, ops') := missing path in
      if gone then (HTTPException 404 "File not found", (ops ++ ops')%list)
      else
        match unlink fs path with
        | Raise e => (Uncaught e, (ops ++ ops' ++ [Op_unlink path])%list)
        | Ok _ =>
            (JSONResponse [("deleted", PyStr filename)],
             (ops ++ ops' ++ [Op_unlink path])%list)
        end
  end.
End Files.


(** ** The session object behind [camera], and [create_camera] *)

Section Factory.
Context (py : PyRuntime) (D : Driver) (O : OS).

Inductive Camera : Type :=
| Real (s : RealCamera.t D)
| Mock (s : MockCamera.t O).

(** [picamera2] is what [Picamera2()] does: a handle, or an exception. *)
Definition create_camera (PICAMERA2_AVAILABLE : bool) (capture_dir : string)
    (picamera2 : Result (cam D)) (disk0 : disk O) : Camera :=
  let mock := Mock (MockCamera.init O capture_dir disk0) in
  if PICAMERA2_AVAILABLE then
    match picamera2 with
    | Ok cam0 =>
        match RealCamera.init D capture_dir cam0 with
        | (Ok _, s) => Real s
        | (Raise _, _) => mock
        end
    | Raise _ => mock
    end
  else mock.

(** [camera.<method>(...)]: the call goes to the implementation the
    factory chose. *)
Definition on_camera {A : Type} (real : M (RealCamera.t D) A)
    (mock : M (MockCamera.t O) A) : M Camera A :=
  fun c =>
    match c with
    | Real s => let '(r, s') := real s in (r, Real s')
    | Mock s => let '(r, s') := mock s in (r, Mock s')
    end.

Definition camera_get_frame (during : list bytes) : M Camera (option bytes) :=
  on_camera (RealCamera.get_frame D during) (MockCamera.get_frame O during).
Definition camera_apply_settings (new : gmap string PyVal)
    : M Camera (gmap string PyVal) :=
  on_camera (RealCamera.apply_settings py D new) (MockCamera.apply_settings py O new).
Definition camera_apply_preset (preset_name : string)
    : M Camera (gmap string PyVal) :=
  on_camera (RealCamera.apply_preset py D preset_name)
            (MockCamera.apply_preset py O preset_name).
Definition camera_capture_photo (timestamp : string) (capture_raw : bool)
    : M Camera (list string) :=
  on_camera (RealCamera.capture_photo D timestamp capture_raw)
            (MockCamera.capture_photo O timestamp capture_raw).
Definition camera_start_video (timestamp : string) (fps : Z) : M Camera string :=
  on_camera (RealCamera.start_video D timestamp fps)
            (MockCamera.start_video O timestamp fps).
Definition camera_stop_video : M Camera (option string) :=
  on_camera (RealCamera.stop_video D) (MockCamera.stop_video O).
Definition camera_handle (req : Request) : M Camera Reply :=
  on_camera (RealCamera.handle py D req) (MockCamera.handle py O req).

Definition camera_is_recording (c : Camera) : bool :=
  match c with
  | Real s => RealCamera.is_recording D s
  | Mock s => MockCamera.is_recording O s
  end.
Definition camera_recording_path (c : Camera) : option string :=
  match c with
  | Real s => RealCamera._recording_path D s
  | Mock s => MockCamera._recording_path O s
  end.
Definition camera_settings (c : Camera) : gmap string PyVal :=
  match c with
  | Real s => RealCamera._settings D s
  | Mock s => MockCamera._settings O s
  end.
Definition camera_capture_dir (c : Camera) : string :=
  match c with
  | Real s => RealCamera.capture_dir D s
  | Mock s => MockCamera.capture_dir O s
  end.

(** What happens to a session: a request is served, or the producer
    thread stores a preview frame. *)
Inductive Event : Type :=
| Ev_request (req : Request)
| Ev_frame (buf : bytes).

Definition camera_step (c : Camera) (ev : Event) : Camera :=
  match ev with
  | Ev_request req => snd (camera_handle req c)
  | Ev_frame buf =>
      match c with
      | Real s => Real (RealCamera.deliver_frame D buf s)
      | Mock s => Mock (MockCamera.generate_frame O buf s)
      end
  end.

Definition camera_run (evs : list Event) (c : Camera) : Camera :=
  fold_left camera_step evs c.

(** [POST /api/video/stop] on the session object. *)
Definition stop_video_endpoint (c : Camera) : Response * Camera :=
  let '(r, c') := camera_stop_video c in (stop_video_handler r, c').
End Factory.

(** * The vocabulary of the properties *)

(** [wp m Q s]: running [m] from [s] ends with a result and a state that
    satisfy [Q]. *)
Definition wp {S A : Type} (m : M S A) (Q : Result A → S → Prop) (s : S) : Prop :=
  Q (fst (m s)) (snd (m s)).

(** A library none of whose calls raises. *)
Definition reliable (D : Driver) : Prop :=
  ∀ c h, fst (hw_call D c h) = Ok tt.

(** An operating system none of whose file operations raises. *)
Definition reliable_os (O : OS) : Prop :=
  ∀ c d, fst (os_call O c d) = Ok tt.

(** The fields of the session that the interface shows. *)
Definition same_session {D : Driver} (s s' : RealCamera.t D) : Prop :=
  RealCamera.capture_dir D s' = RealCamera.capture_dir D s ∧
  RealCamera._settings D s' = RealCamera._settings D s ∧
  RealCamera._recording D s' = RealCamera._recording D s ∧
  RealCamera._recording_path D s' = RealCamera._recording_path D s.

Definition h264_to (path : option string) : HwCall :=
  Start_recording (H264Encoder 10000000) (FfmpegOutput path) None.

Definition photo_files (dir timestamp : string) (capture_raw : bool) : list string :=
  path_join dir (photo_name timestamp ".jpg") ::
  (if capture_raw then [path_join dir (photo_name timestamp ".dng")] else []).

(** The invariant of the session: the settings are well typed and a
    recording has an output path. *)
Definition session_ok {D : Driver} (s : RealCamera.t D) : Prop :=
  well_typed (RealCamera._settings D s) ∧
  (RealCamera._recording D s = true → is_Some (RealCamera._recording_path D s)).

Definition same_session_mock {O : OS} (s s' : MockCamera.t O) : Prop :=
  MockCamera.capture_dir O s' = MockCamera.capture_dir O s ∧
  MockCamera._settings O s' = MockCamera._settings O s ∧
  MockCamera._recording O s' = MockCamera._recording O s ∧
  MockCamera._recording_path O s' = MockCamera._recording_path O s.

(** The files [capture_photo] names: a JPEG only when a non-empty frame
    is at hand. *)
Definition mock_photo_files (dir timestamp : string) (frame : option bytes)
    (capture_raw : bool) : list string :=
  match MockCamera.frame_truthy frame with
  | Some _ => [path_join dir (photo_name timestamp ".jpg")]
  | None => []
  end ++
  (if capture_raw then [path_join dir (photo_name timestamp ".dng")] else []).

Definition session_ok_mock {O : OS} (s : MockCamera.t O) : Prop :=
  well_typed (MockCamera._settings O s) ∧
  (MockCamera._recording O s = true → is_Some (MockCamera._recording_path O s)).

(** The two sessions show the same fields at the interface. *)
Definition agree (D : Driver) (O : OS) (r : RealCamera.t D) (m : MockCamera.t O) : Prop :=
  RealCamera.capture_dir D r = MockCamera.capture_dir O m ∧
  RealCamera._settings D r = MockCamera._settings O m ∧
  RealCamera._recording D r = MockCamera._recording O m ∧
  RealCamera._recording_path D r = MockCamera._recording_path O m.

(** The requests on which the two replies can be compared: the preview
    frames of the two come from different sources, and the mock camera
    writes a JPEG only when it holds a non-empty preview frame. *)
Definition comparable (O : OS) (req : Request) (m : MockCamera.t O) : bool :=
  match req with
  | Get_frame _ => false
  | Capture_photo _ _ =>
      match MockCamera.frame_truthy (MockCamera._current_frame O m) with
      | Some _ => true
      | None => false
      end
  | _ => true
  end.

(** The implementation resumed the interrupted recording to [path]: the
    last call made on the camera library starts the H264 encoder on an
    [FfmpegOutput(path)].  (The mock camera never interrupts a recording.) *)
Definition resumed_to {D : Driver} {O : OS} (path : option string) (c : Camera D O) : Prop :=
  match c with
  | Real _ _ s => ∃ earlier, RealCamera.calls D s = earlier ++ [h264_to path]
  | Mock _ _ _ => True
  end.

(** The library calls of the session do not raise (the mock camera makes
    none). *)
Definition hardware_ok {D : Driver} {O : OS} (c : Camera D O) : Prop :=
  match c with
  | Real _ _ _ => reliable D
  | Mock _ _ _ => True
  end.

(** The invariant of the session object, whichever implementation it is. *)
Definition camera_ok {D : Driver} {O : OS} (c : Camera D O) : Prop :=
  well_typed (camera_settings D O c) ∧
  (camera_is_recording D O c = true → is_Some (camera_recording_path D O c)).


(** The implementation has an image to write: the real camera captures
    one; the mock camera needs a non-empty preview frame. *)
Definition has_frame {D : Driver} {O : OS} (c : Camera D O) : bool :=
  match c with
  | Real _ _ _ => true
  | Mock _ _ s =>
      match MockCamera.frame_truthy (MockCamera._current_frame O s) with
      | Some _ => true
      | None => false
      end
  end.

(** The resolved [path] is, or is not, below the resolved captures
    directory. *)
Definition outside (CAPTURES_DIR : Path) (fs : FileSystem) (path : Path) : Prop :=
  ∃ rp rc, resolve fs path = Ok rp ∧ resolve fs CAPTURES_DIR = Ok rc ∧
           relative_to rp rc = None.

Definition inside (CAPTURES_DIR : Path) (fs : FileSystem) (path : Path) : Prop :=
  ∃ rp rc, resolve fs path = Ok rp ∧ resolve fs CAPTURES_DIR = Ok rc ∧
           is_Some (relative_to rp rc).

Definition touches (p : Path) (op : FsOp) : Prop :=
  op = Op_exists p ∨ op = Op_is_file p ∨ op = Op_unlink p ∨ op = Op_serve p.

(** ** A concrete environment for the examples *)

(** A runtime that parses plain decimal literals: an optional sign and
    digits for [int], and digits with an optional fraction for [float]. *)
Definition digit_value (c : ascii) : option Z :=
  let n := Z.of_nat (nat_of_ascii c) in
  if (48 <=? n) && (n <=? 57) then Some (n - 48) else None.

Fixpoint digits_value (s : string) (acc : Z) : option Z :=
  match s with
  | EmptyString => Some acc
  | String c s' =>
      match digit_value c with
      | Some d => digits_value s' (10 * acc + d)
      | None => None
      end
  end.

Definition unsigned_literal (s : string) : option Z :=
  match s with
  | EmptyString => None
  | _ => digits_value s 0
  end.

Definition int_literal (s : string) : option Z :=
  match s with
  | String "-" s' => Z.opp <$> unsigned_literal s'
  | String "+" s' => unsigned_literal s'
  | _ => unsigned_literal s
  end.

Fixpoint split_dot (s : string) (whole : string) : string * option string :=
  match s with
  | EmptyString => (whole, None)
  | String c s' =>
      if Ascii.eqb c "." then (whole, Some s')
      else split_dot s' (whole +:+ String c EmptyString)
  end.

Definition float_literal (s : string) : option float :=
  match split_dot s "" with
  | (whole, None) =>
      n ← unsigned_literal whole;
      Some (SF2Prim (binary_normalize prec emax n 0 false))
  | (whole, Some frac) =>
      n ← unsigned_literal (whole +:+ frac);
      let num := binary_normalize prec emax n 0 false in
      let den := binary_normalize prec emax (10 ^ Z.of_nat (String.length frac)) 0 false in
      Some (SF2Prim (SFdiv prec emax num den))
  end.

Definition py_demo : PyRuntime :=
  {| str_to_int := int_literal; str_to_float := float_literal |}.

(** A camera library and an operating system that accept every call. *)
Definition D_ideal : Driver :=
  {| cam := unit;
     hw_call := fun _ h => (Ok tt, h);
     sensor_resolution := fun _ => (4056, 3040) |}.

Definition O_ideal : OS :=
  {| disk := unit; os_call := fun _ d => (Ok tt, d) |}.

(** A camera library whose [stop_recording] raises. *)
Definition D_stuck : Driver :=
  {| cam := unit;
     hw_call := fun c h =>
       match c with
       | Stop_recording => (Raise (Exc RuntimeError "encoder not running"), h)
       | _ => (Ok tt, h)
       end;
     sensor_resolution := fun _ => (4056, 3040) |}.

(** A session that is recording to [path]. *)
Definition recording_session (D : Driver) (path : string) (h : cam D) : RealCamera.t D :=
  {| RealCamera.capture_dir := "/captures";
     RealCamera._streaming_output := Some StreamingOutput.init;
     RealCamera._recording := true;
     RealCamera._recording_path := Some path;
     RealCamera._settings := DEFAULT_SETTINGS;
     RealCamera._cam := h; RealCamera.calls := [] |}.

Definition recording_mock (O : OS) (path : string) (d : disk O) : MockCamera.t O :=
  {| MockCamera.capture_dir := "/captures";
     MockCamera._settings := DEFAULT_SETTINGS;
     MockCamera._recording := true;
     MockCamera._recording_path := Some path;
     MockCamera._running := true;
     MockCamera._current_frame := None;
     MockCamera._disk := d; MockCamera.writes := [] |}.


(** A file system without links in which every path is a regular file. *)
Fixpoint collapse (ps acc : list string) : list string :=
  match ps with
  | [] => rev acc
  | p :: ps' =>
      if String.eqb p ".." then collapse ps' (tl acc) else collapse ps' (p :: acc)
  end.

Definition fs_plain : FileSystem :=
  {| resolve := fun p => Ok {| root := Slash; parts := collapse (parts p) [] |};
     exists_ := fun _ => true;
     is_file := fun _ => true;
     unlink := fun _ => Ok tt |}.

Definition captures_default : Path := Path_of "/var/lib/astrocam/captures".

(** ** Which values make a conversion raise [OverflowError] *)

(** [int(v)] raises [OverflowError]: [v] is an infinite float. *)
Definition int_overflows (v : PyVal) : bool :=
  match v with
  | PyFloat x =>
      match Prim2SF x with
      | S754_infinity _ => true
      | _ => false
      end
  | _ => false
  end.

(** [float(v)] raises [OverflowError]: [v] is an int beyond the binary64
    range. *)
Definition float_overflows (v : PyVal) : bool :=
  match v with
  | PyInt n =>
      match binary_normalize prec emax n 0 false with
      | S754_infinity _ => true
      | _ => false
      end
  | _ => false
  end.

Definition float_converts (py : PyRuntime) (v : PyVal) : bool :=
  match py_float py v with
  | Ok _ => true
  | Raise _ => false
  end.

(** The value makes the [try] block of [_coerce_settings] raise an
    exception its handler does not catch. *)
Definition escapes (py : PyRuntime) (t : ControlType) (v : PyVal) : bool :=
  match t with
  | T_bool => false
  | T_int | T_select => int_overflows v
  | T_float => float_overflows v
  | T_tuple2 =>
      match v with
      | PyList [a; b] | PyTuple [a; b] =>
          float_overflows a || (float_converts py a && float_overflows b)
      | _ => false
      end
  end.

(** ** The calls a method makes on the camera library *)

Definition preview_cfg (settings : gmap string PyVal) : VideoCfg :=
  {| vc_main := (RealCamera.PREVIEW_SIZE, Some "RGB888");
     vc_lores := Some ((640, 360), "YUV420");
     vc_controls := Some settings |}.

(** [_configure_preview()] *)
Definition preview_calls (settings : gmap string PyVal) : list HwCall :=
  [ Create_video_configuration (preview_cfg settings);
    Configure (preview_cfg settings);
    Start_recording MJPEGEncoder FileOutput_streaming_output (Some "lores") ].

Definition video_cfg : VideoCfg :=
  {| vc_main := (RealCamera.VIDEO_SIZE, None); vc_lores := None; vc_controls := None |}.

(** [_start_recording_internal()] *)
Definition recording_calls (path : option string) : list HwCall :=
  [ Create_video_configuration video_cfg; Configure video_cfg; h264_to path ].

Definition still_cfg (capture_raw : bool) (resolution : Z * Z) : StillCfg :=
  {| sc_main := RealCamera.CAPTURE_SIZE;
     sc_raw := if capture_raw then Some resolution else None |}.

(** [capture_photo(capture_raw)] in a session with the given fields, the
    sensor reporting [resolution]. *)
Definition capture_calls (dir timestamp : string) (capture_raw : bool)
    (resolution : Z * Z) (settings : gmap string PyVal)
    (recording : bool) (path : option string) : list HwCall :=
  [ Stop_recording;
    Create_still_configuration (still_cfg capture_raw resolution);
    Switch_mode (still_cfg capture_raw resolution);
    Start;
    Capture_file (path_join dir (photo_name timestamp ".jpg"))
      (if capture_raw then Some (path_join dir (photo_name timestamp ".dng")) else None) ]
  ++ preview_calls settings ++ [Start]
  ++ (if recording then recording_calls path else []).

(** The calls of the session's environment do not raise: the camera library
    for the real camera, the file system for the mock camera. *)
Definition env_ok {D : Driver} {O : OS} (c : Camera D O) : Prop :=
  match c with
  | Real _ _ _ => reliable D
  | Mock _ _ _ => reliable_os O
  end.

(** ** The HTTP handlers for settings, presets, capture and video start *)



(** [POST /api/capture] *)
Definition capture_photo_handler (r : Result (list string)) : Response :=
  match r with
  | Raise exc => HTTPException 500 (exc_msg exc)
  | Ok files =>
      JSONResponse [("files", PyList (map (λ f, PyStr (name (Path_of f))) files))]
  end.

(** [POST /api/video/start] *)
Definition start_video_handler (r : Result string) : Response :=
  match r with
  | Raise exc => HTTPException 500 (exc_msg exc)
  | Ok path =>
      JSONResponse [("file", PyStr (name (Path_of path))); ("recording", PyBool true)]
  end.

Section Endpoints.
Context (py : PyRuntime) (D : Driver) (O : OS).



Definition capture_photo_endpoint (timestamp : string) (raw : bool)
    (c : Camera D O) : Response * Camera D O :=
  let '(r, c') := camera_capture_photo D O timestamp raw c in
  (capture_photo_handler r, c').

Definition start_video_endpoint (timestamp : string) (fps : Z) (c : Camera D O)
    : Response * Camera D O :=
  let '(r, c') := camera_start_video D O timestamp fps c in
  (start_video_handler r, c').
End Endpoints.

(** The string has no slash: it is one component of a path. *)
Fixpoint no_slash (s : string) : bool :=
  match s with
  | EmptyString => true
  | String c s' => negb (Ascii.eqb c "/") && no_slash s'
  end.

(** The file names a capture answers with. *)
Definition photo_names (timestamp : string) (raw : bool) : list PyVal :=
  PyStr (photo_name timestamp ".jpg") ::
  (if raw then [PyStr (photo_name timestamp ".dng")] else []).

(** ** [network.py] *)

(** [s.split(sep)] for a one-character separator; [cur] is the part being
    read. *)
Fixpoint str_split (sep : ascii) (s : string) (cur : string) : list string :=
  match s with
  | EmptyString => [cur]
  | String c s' =>
      if Ascii.eqb c sep then cur :: str_split sep s' EmptyString
      else str_split sep s' (cur +:+ String c EmptyString)
  end.

(** [needle in s] *)
Fixpoint contains (needle s : string) : bool :=
  String.prefix needle s ||
  match s with
  | EmptyString => false
  | String _ s' => contains needle s'
  end.

(** What the runtime does on text: [str.strip], [str.splitlines],
    [str.isdigit] and the first group of
    [re.search(r"inet (\d+\.\d+\.\d+\.\d+)", s)]. *)
Record TextRuntime : Type := {
  strip : string -> string;
  splitlines : string -> list string;
  isdigit : string -> bool;
  search_inet : string -> option string;
}.

(** What [subprocess.run(cmd, capture_output=True, text=True, timeout=...)]
    did. *)
Inductive ProcOutcome : Type :=
| Completed (returncode : Z) (stdout stderr : string)
| FileNotFoundError
| TimeoutExpired
| OtherException (msg : string).

(** The machine the commands run on. *)
Record Host : Type := {
  host : Type;
  subprocess_run : list string -> Z -> host -> ProcOutcome * host;
}.

(** The sort of [list.sort(key=..., reverse=True)]: descending by key, and
    elements of equal key stay in the order they had. *)
Fixpoint insert_desc {A : Type} (key : A -> Z) (x : A) (l : list A) : list A :=
  match l with
  | [] => [x]
  | y :: l' => if key x <? key y then y :: insert_desc key x l' else x :: y :: l'
  end.

Definition sort_desc {A : Type} (key : A -> Z) (l : list A) : list A :=
  foldr (insert_desc key) [] l.

(** [d.get(k, default)] on a dict given by its items. *)
Fixpoint dict_get (k : string) (d : list (string * PyVal)) (default : PyVal) : PyVal :=
  match d with
  | [] => default
  | (k', v) :: d' => if String.eqb k' k then v else dict_get k d' default
  end.

(** What a network endpoint answers: [detail] is any JSON value. *)
Inductive NetResponse : Type :=
| Net_JSONResponse (body : list (string * PyVal))
| Net_HTTPException (status_code : Z) (detail : PyVal).

Module Network.
Section WithHost.
Context (py : PyRuntime) (tr : TextRuntime) (H : Host).
Context (HOTSPOT_SSID HOTSPOT_PASSWORD WIFI_INTERFACE ETH_INTERFACE : string).

Record t : Type := {
  _host : host H;
  (** ghost: the commands run so far with their timeouts, oldest first *)
  cmds : list (list string * Z);
}.

Definition _run (cmd : list string) (timeout : Z) : M t (Z * string * string) :=
  fun s =>
    let '(o, h') := subprocess_run H cmd timeout (_host s) in
    (Ok (match o with
         | Completed returncode stdout stderr =>
             (returncode, strip tr stdout, strip tr stderr)
         | FileNotFoundError => (-1, "", "Command not found: " +:+ hd "" cmd)
         | TimeoutExpired => (-2, "", "Command timed out")
         | OtherException msg => (-3, "", msg)
         end),
     {| _host := h'; cmds := cmds s ++ [(cmd, timeout)] |}).

Definition _nmcli (args : list string) (timeout : Z) : M t (Z * string * string) :=
  _run ("nmcli" :: args) timeout.

Record Interface : Type := {
  device : string;
  type_ : string;
  state : string;
  connection : string;
}.

(** The body of the loop over [out.splitlines()]. *)
Definition parse_interface (line : string) : option Interface :=
  match str_split ":" line "" with
  | p0 :: p1 :: p2 :: p3 :: _ =>
      Some {| device := p0; type_ := p1; state := p2; connection := p3 |}
  | _ => None
  end.

Record Flags : Type := {
  mode : string;
  wifi_connected : bool;
  eth_connected : bool;
  hotspot_active : bool;
}.

(** The body of the loop over [interfaces]. *)
Definition status_step (f : Flags) (iface : Interface) : Flags :=
  let f1 :=
    if String.eqb (device iface) WIFI_INTERFACE then
      if String.eqb (state iface) "connected" then
        if contains "Hotspot" (connection iface)
           || String.eqb (connection iface) HOTSPOT_SSID
        then {| mode := "hotspot"; wifi_connected := wifi_connected f;
                eth_connected := eth_connected f; hotspot_active := true |}
        else {| mode := "wifi"; wifi_connected := true;
                eth_connected := eth_connected f;
                hotspot_active := hotspot_active f |}
      else f
    else f in
  if String.eqb (device iface) ETH_INTERFACE && String.eqb (state iface) "connected"
  then {| mode := "ethernet"; wifi_connected := wifi_connected f1;
          eth_connected := true; hotspot_active := hotspot_active f1 |}
  else f1.

Definition status_flags (interfaces : list Interface) : Flags :=
  let f := fold_left status_step interfaces
             {| mode := "unknown"; wifi_connected := false;
                eth_connected := false; hotspot_active := false |} in
  if negb (hotspot_active f) && negb (wifi_connected f) && negb (eth_connected f)
  then {| mode := "offline"; wifi_connected := wifi_connected f;
          eth_connected := eth_connected f; hotspot_active := hotspot_active f |}
  else f.

Record Status : Type := {
  st_mode : string;
  st_interfaces : list Interface;
  st_wifi_connected : bool;
  st_eth_connected : bool;
  st_hotspot_active : bool;
  st_ip_address : option string;
  st_hostname : string;
  st_hotspot_ssid : string;
}.

Definition get_status : M t Status :=
  '(rc, out, _) ← _nmcli ["-t"; "-f"; "DEVICE,TYPE,STATE,CONNECTION"; "dev"] 15;
  let interfaces :=
    if Z.eqb rc 0 then omap parse_interface (splitlines tr out) else [] in
  let f := status_flags interfaces in
  let ip_iface := if eth_connected f then ETH_INTERFACE else WIFI_INTERFACE in
  '(rc2, ip_out, _) ← _run ["ip"; "-4"; "addr"; "show"; ip_iface] 10;
  let ip_address := if Z.eqb rc2 0 then search_inet tr ip_out else None in
  '(rc3, hostname, _) ← _run ["hostname"] 10;
  let hostname := if Z.eqb rc3 0 then hostname else "hqastrocam" in
  ret {| st_mode := mode f; st_interfaces := interfaces;
         st_wifi_connected := wifi_connected f;
         st_eth_connected := eth_connected f;
         st_hotspot_active := hotspot_active f;
         st_ip_address := ip_address; st_hostname := hostname;
         st_hotspot_ssid := HOTSPOT_SSID |}.

Definition enable_hotspot : M t (list (string * PyVal)) :=
  _nmcli ["connection"; "delete"; "Hotspot"] 5;;
  '(rc, _, err) ← _nmcli ["dev"; "wifi"; "hotspot"; "ifname"; WIFI_INTERFACE;
                           "ssid"; HOTSPOT_SSID; "password"; HOTSPOT_PASSWORD] 20;
  if negb (Z.eqb rc 0) then
    ret [("success", PyBool false); ("error", PyStr err)]
  else
    ret [("success", PyBool true); ("ssid", PyStr HOTSPOT_SSID);
         ("password", PyStr HOTSPOT_PASSWORD)].

Definition disable_hotspot : M t (list (string * PyVal)) :=
  '(rc, out, err) ← _nmcli ["connection"; "down"; HOTSPOT_SSID] 15;
  '(rc, _, err) ← (if negb (Z.eqb rc 0)
                   then _nmcli ["connection"; "down"; "Hotspot"] 15
                   else ret (rc, out, err));
  if negb (Z.eqb rc 0) then
    ret [("success", PyBool false); ("error", PyStr err)]
  else ret [("success", PyBool true)].

Record WifiNetwork : Type := {
  ssid : string;
  signal : Z;
  security : string;
  in_use : bool;
}.

(** The loop over [out.splitlines()] of [scan_wifi]; [int(...)] can
    raise. *)
Fixpoint scan_lines (lines : list string) (networks : list WifiNetwork)
    (seen : gset string) : Result (list WifiNetwork) :=
  match lines with
  | [] => Ok networks
  | line :: rest =>
      match str_split ":" line "" with
      | p0 :: p1 :: p2 :: p3 :: _ =>
          if String.eqb p0 "" || bool_decide (p0 ∈ seen)
          then scan_lines rest networks seen
          else
            let! sig := (if isdigit tr p1 then py_int py (PyStr p1) else Ok 0) in
            scan_lines rest
              (networks ++ [{| ssid := p0; signal := sig; security := p2;
                               in_use := String.eqb p3 "*" |}])
              ({[ p0 ]} ∪ seen)
      | _ => scan_lines rest networks seen
      end
  end.

Definition scan_wifi : M t (list WifiNetwork) :=
  _nmcli ["dev"; "wifi"; "rescan"; "ifname"; WIFI_INTERFACE] 5;;
  '(rc, out, _) ← _nmcli ["-t"; "-f"; "SSID,SIGNAL,SECURITY,IN-USE";
                           "dev"; "wifi"; "list"; "ifname"; WIFI_INTERFACE] 15;
  if Z.eqb rc 0 then
    match scan_lines (splitlines tr out) [] ∅ with
    | Ok networks => ret (sort_desc signal networks)
    | Raise e => raise e
    end
  else ret [].

Definition connect_wifi (ssid password : string) : M t (list (string * PyVal)) :=
  '(rc, _, err) ← _nmcli ["dev"; "wifi"; "connect"; ssid; "password"; password;
                           "ifname"; WIFI_INTERFACE] 30;
  if negb (Z.eqb rc 0) then
    ret [("success", PyBool false); ("error", PyStr err)]
  else ret [("success", PyBool true); ("ssid", PyStr ssid)].

Definition disconnect_wifi : M t (list (string * PyVal)) :=
  '(rc, _, err) ← _nmcli ["dev"; "disconnect"; WIFI_INTERFACE] 15;
  if negb (Z.eqb rc 0) then
    ret [("success", PyBool false); ("error", PyStr err)]
  else ret [("success", PyBool true)].

(** [POST /api/network/hotspot], [/connect] and [/disconnect] of [main.py],
    given the operation of this module they call. *)
Definition network_handler (result : list (string * PyVal)) : NetResponse :=
  if negb (py_bool (dict_get "success" result PyNone)) then
    Net_HTTPException 500 (dict_get "error" result (PyStr "Unknown error"))
  else Net_JSONResponse result.

Definition network_endpoint (op : M t (list (string * PyVal)))
    : t -> Result NetResponse * t :=
  fun s =>
    match op s with
    | (Ok result, s') => (Ok (network_handler result), s')
    | (Raise e, s') => (Raise e, s')
    end.
End WithHost.
End Network.

(** *** The vocabulary of the properties of [network.py] *)

(** The triple [_run] makes of what [subprocess.run] did. *)
Definition run_result (tr : TextRuntime) (cmd : list string) (o : ProcOutcome)
    : Z * string * string :=
  match o with
  | Completed returncode stdout stderr =>
      (returncode, strip tr stdout, strip tr stderr)
  | FileNotFoundError => (-1, "", "Command not found: " +:+ hd "" cmd)
  | TimeoutExpired => (-2, "", "Command timed out")
  | OtherException msg => (-3, "", msg)
  end.

(** The process ran and ended with code 0. *)
Definition succeeded (o : ProcOutcome) : bool :=
  match o with
  | Completed 0 _ _ => true
  | _ => false
  end.

(** The line of the listing is the wireless (the wired) interface, and
    connected; its connection has the name of a hotspot. *)
Definition wifi_line (WIFI_INTERFACE : string) (iface : Network.Interface) : bool :=
  String.eqb (Network.device iface) WIFI_INTERFACE &&
  String.eqb (Network.state iface) "connected".
Definition hotspot_name (HOTSPOT_SSID : string) (iface : Network.Interface) : bool :=
  contains "Hotspot" (Network.connection iface) ||
  String.eqb (Network.connection iface) HOTSPOT_SSID.
Definition eth_line (ETH_INTERFACE : string) (iface : Network.Interface) : bool :=
  String.eqb (Network.device iface) ETH_INTERFACE &&
  String.eqb (Network.state iface) "connected".

(** The invariant of the loop over the interfaces: the mode names a flag
    that is set. *)
Definition mode_inv (f : Network.Flags) : Prop :=
  (Network.mode f = "unknown" ∧ Network.wifi_connected f = false ∧
   Network.eth_connected f = false ∧ Network.hotspot_active f = false) ∨
  (Network.mode f = "hotspot" ∧ Network.hotspot_active f = true) ∨
  (Network.mode f = "wifi" ∧ Network.wifi_connected f = true) ∨
  (Network.mode f = "ethernet" ∧ Network.eth_connected f = true).

(** The first field of a line of the listing that has four fields or
    more. *)
Definition line_ssid (line : string) : option string :=
  match str_split ":" line "" with
  | p0 :: _ :: _ :: _ :: _ => Some p0
  | _ => None
  end.

(** The entry [n] is what [scan_wifi] makes of [line]. *)
Definition network_of_line (py : PyRuntime) (tr : TextRuntime) (line : string)
    (n : Network.WifiNetwork) : Prop :=
  ∃ p1 p3 rest,
    str_split ":" line "" =
      Network.ssid n :: p1 :: Network.security n :: p3 :: rest ∧
    Network.in_use n = String.eqb p3 "*" ∧
    (if isdigit tr p1 then str_to_int py p1 = Some (Network.signal n)
     else Network.signal n = 0).


(** The order of a list sorted by [key], largest first. *)
Definition desc {A : Type} (key : A → Z) (a b : A) : Prop := key b ≤ key a.

(** What an endpoint answers for an operation whose last command ended
    with [o]: the JSON body [body], or 500 with the command's error
    text. *)
Definition net_answer (tr : TextRuntime) (cmd : list string) (o : ProcOutcome)
    (body : list (string * PyVal)) : NetResponse :=
  if succeeded o then Net_JSONResponse (("success", PyBool true) :: body)
  else Net_HTTPException 500 (PyStr (snd (run_result tr cmd o))).

(** ** Further environments for the examples *)

(** A session that is not recording. *)
Definition idle_session (D : Driver) (h : cam D) : RealCamera.t D :=
  {| RealCamera.capture_dir := "/captures";
     RealCamera._streaming_output := Some StreamingOutput.init;
     RealCamera._recording := false;
     RealCamera._recording_path := None;
     RealCamera._settings := DEFAULT_SETTINGS;
     RealCamera._cam := h; RealCamera.calls := [] |}.

(** A camera library that refuses new controls and cannot start the H264
    encoder. *)
Definition D_refusing : Driver :=
  {| cam := unit;
     hw_call := fun c h =>
       match c with
       | Set_controls _ => (Raise (Exc RuntimeError "control rejected"), h)
       | Start_recording (H264Encoder _) _ _ =>
           (Raise (Exc RuntimeError "encoder failed to start"), h)
       | _ => (Ok tt, h)
       end;
     sensor_resolution := fun _ => (4056, 3040) |}.

(** An operating system whose disk is full. *)
Definition O_full : OS :=
  {| disk := unit;
     os_call := fun _ d => (Raise (Exc OSError "No space left on device"), d) |}.

(** The text operations on ASCII text with line feeds. *)
Definition is_space (c : ascii) : bool :=
  let n := Z.of_nat (nat_of_ascii c) in
  Z.eqb n 32 || ((9 <=? n) && (n <=? 13)) || ((28 <=? n) && (n <=? 31)).

Fixpoint lstrip (s : string) : string :=
  match s with
  | EmptyString => EmptyString
  | String c s' => if is_space c then lstrip s' else s
  end.

Fixpoint rstrip (s : string) : string :=
  match s with
  | EmptyString => EmptyString
  | String c s' =>
      match rstrip s' with
      | EmptyString => if is_space c then EmptyString else String c EmptyString
      | r => String c r
      end
  end.

Definition nl : string := String (ascii_of_nat 10) EmptyString.

Fixpoint split_lf (s : string) (cur : string) : list string :=
  match s with
  | EmptyString => match cur with EmptyString => [] | _ => [cur] end
  | String c s' =>
      if Ascii.eqb c (ascii_of_nat 10) then cur :: split_lf s' EmptyString
      else split_lf s' (cur +:+ String c EmptyString)
  end.

Fixpoint all_digits (s : string) : bool :=
  match s with
  | EmptyString => true
  | String c s' =>
      match digit_value c with
      | Some _ => all_digits s'
      | None => false
      end
  end.

Definition is_digits (s : string) : bool :=
  match s with
  | EmptyString => false
  | _ => all_digits s
  end.

(** The digits at the start of [s], and the rest. *)
Fixpoint take_digits (s : string) : string * string :=
  match s with
  | EmptyString => (EmptyString, EmptyString)
  | String c s' =>
      match digit_value c with
      | Some _ => let '(d, r) := take_digits s' in (String c d, r)
      | None => (EmptyString, s)
      end
  end.

(** A match of [\d+\.\d+\.\d+\.\d+] at the start of [s]. *)
Definition match_ipv4 (s : string) : option string :=
  match take_digits s with
  | (EmptyString, _) => None
  | (a, String "." r1) =>
      match take_digits r1 with
      | (EmptyString, _) => None
      | (b, String "." r2) =>
          match take_digits r2 with
          | (EmptyString, _) => None
          | (c, String "." r3) =>
              match take_digits r3 with
              | (EmptyString, _) => None
              | (d, _) => Some (a +:+ "." +:+ b +:+ "." +:+ c +:+ "." +:+ d)
              end
          | _ => None
          end
      | _ => None
      end
  | _ => None
  end.

Fixpoint find_inet (s : string) : option string :=
  match s with
  | EmptyString => None
  | String c s' =>
      match (if String.prefix "inet " s
             then match_ipv4 (String.substring 5 (String.length s - 5) s)
             else None) with
      | Some ip => Some ip
      | None => find_inet s'
      end
  end.

Definition tr_demo : TextRuntime :=
  {| strip := fun s => rstrip (lstrip s);
     splitlines := fun s => split_lf s "";
     isdigit := is_digits;
     search_inet := find_inet |}.

(** A machine with a wired and a wireless connection, three networks in
    reach, and no network called Nowhere. *)
Definition H_demo : Host :=
  {| host := unit;
     subprocess_run := fun cmd _ h =>
       (match cmd with
        | ["nmcli"; "-t"; "-f"; "DEVICE,TYPE,STATE,CONNECTION"; "dev"] =>
            Completed 0
              ("eth0:ethernet:connected:Wired connection 1" +:+ nl +:+
               "wlan0:wifi:connected:HomeNet" +:+ nl +:+
               "lo:loopback:unmanaged:" +:+ nl) ""
        | ["ip"; "-4"; "addr"; "show"; "eth0"] =>
            Completed 0
              ("2: eth0: <BROADCAST,MULTICAST,UP,LOWER_UP> mtu 1500" +:+ nl +:+
               "    inet 192.168.1.20/24 brd 192.168.1.255 scope global eth0" +:+ nl)
              ""
        | ["hostname"] => Completed 0 ("astro" +:+ nl) ""
        | "nmcli" :: "-t" :: "-f" :: "SSID,SIGNAL,SECURITY,IN-USE" :: _ =>
            Completed 0
              ("Cafe:45::" +:+ nl +:+
               "HomeNet:70:WPA2:*" +:+ nl +:+
               "HomeNet:90:WPA2:" +:+ nl +:+
               ":30:WPA2:" +:+ nl +:+
               "Attic:weak:WPA2:" +:+ nl +:+
               "Shed:70:WPA1 WPA2:" +:+ nl) ""
        | "nmcli" :: "dev" :: "wifi" :: "connect" :: "Nowhere" :: _ =>
            Completed 10 "" ("Error: No network with SSID 'Nowhere' found." +:+ nl)
        | "nmcli" :: "connection" :: "down" :: _ => TimeoutExpired
        | "nmcli" :: _ => Completed 0 "" ""
        | _ => FileNotFoundError
        end, h) |}.

Definition net_start (H : Host) (h : host H) : Network.t H :=
  {| Network._host := h; Network.cmds := [] |}.

(** * Proofs *)

(** ** Properties of [_coerce_settings] *)

Section CoercionFacts.
Context (py : PyRuntime).

Lemma coerce_items_cons key val rest out :
  coerce_items py ((key, val) :: rest) out =
  match coerce_entry py key val with
  | Stored v => coerce_items py rest (<[key := v]> out)
  | Dropped => coerce_items py rest out
  | Escapes e => Raise e
  end.
Proof.
  unfold coerce_entry. simpl.
  destruct (CONTROL_META !! key) as [meta|]; [|done].
  destruct (coerce_try py (ctl_type meta) val) as [[v|]|e]; try done.
  by destruct (caught e).
Qed.

(** A key the loop does not visit keeps what [out] had for it. *)
Lemma coerce_items_other items : ∀ out out' k,
  k ∉ items.*1 →
  coerce_items py items out = Ok out' →
  out' !! k = out !! k.
Proof.
  induction items as [|[key val] rest IH]; intros out out' k Hk Hrun.
  - simpl in Hrun. by inversion Hrun.
  - rewrite coerce_items_cons in Hrun.
    rewrite fmap_cons, not_elem_of_cons in Hk. destruct Hk as [Hne Hk].
    simpl in Hne.
    destruct (coerce_entry py key val) as [v| |e]; [| |done].
    + rewrite (IH _ _ _ Hk Hrun). by rewrite lookup_insert_ne.
    + by apply IH.
Qed.

(** A visited key ends with the value the loop body stored for it, and
    with what [out] had when the body stored nothing. *)
Lemma coerce_items_visited items : ∀ out out' k v,
  NoDup items.*1 →
  (k, v) ∈ items →
  coerce_items py items out = Ok out' →
  out' !! k =
    match coerce_entry py k v with
    | Stored w => Some w
    | _ => out !! k
    end.
Proof.
  induction items as [|[key val] rest IH]; intros out out' k v Hnd Hin Hrun.
  - by apply elem_of_nil in Hin.
  - rewrite coerce_items_cons in Hrun.
    rewrite fmap_cons, NoDup_cons in Hnd. destruct Hnd as [Hfresh Hnd].
    simpl in Hfresh.
    apply elem_of_cons in Hin as [Heq|Hin].
    + inversion Heq; subst key val.
      destruct (coerce_entry py k v) as [w| |e]; [| |done].
      * rewrite (coerce_items_other _ _ _ _ Hfresh Hrun).
        by rewrite lookup_insert_eq.
      * apply (coerce_items_other _ _ _ _ Hfresh Hrun).
    + assert (k ≠ key) as Hne.
      { intros ->. apply Hfresh. apply list_elem_of_fmap. by exists (key, v). }
      destruct (coerce_entry py key val) as [w| |e]; [| |done].
      * rewrite (IH _ _ _ _ Hnd Hin Hrun).
        destruct (coerce_entry py k v); try done; by rewrite lookup_insert_ne.
      * by apply (IH _ _ _ _ Hnd Hin Hrun).
Qed.

(** The loop raises only what some item's body lets escape. *)
Lemma coerce_items_raise items : ∀ out e,
  coerce_items py items out = Raise e →
  ∃ k v, (k, v) ∈ items ∧ coerce_entry py k v = Escapes e.
Proof.
  induction items as [|[key val] rest IH]; intros out e Hrun.
  - done.
  - rewrite coerce_items_cons in Hrun.
    destruct (coerce_entry py key val) as [w| |e'] eqn:Hent.
    + destruct (IH _ _ Hrun) as (k & v & Hin & Hesc).
      exists k, v. split; [by apply list_elem_of_further | done].
    + destruct (IH _ _ Hrun) as (k & v & Hin & Hesc).
      exists k, v. split; [by apply list_elem_of_further | done].
    + inversion Hrun; subst e'. exists key, val.
      split; [apply list_elem_of_here | done].
Qed.

(** The loop returns when no item's body lets an exception escape. *)
Lemma coerce_items_returns items : ∀ out,
  (∀ k v, (k, v) ∈ items → ∀ e, coerce_entry py k v ≠ Escapes e) →
  ∃ out', coerce_items py items out = Ok out'.
Proof.
  induction items as [|[key val] rest IH]; intros out Hsafe.
  - by exists out.
  - rewrite coerce_items_cons.
    assert (∀ k v, (k, v) ∈ rest → ∀ e, coerce_entry py k v ≠ Escapes e) as Hrest.
    { intros k v Hin. apply Hsafe. by apply list_elem_of_further. }
    destruct (coerce_entry py key val) as [w| |e] eqn:Hent.
    + by apply IH.
    + by apply IH.
    + exfalso. by apply (Hsafe key val (list_elem_of_here _ _) e).
Qed.

(** The result of [_coerce_settings], key by key. *)
Lemma coerce_settings_lookup raw out k :
  _coerce_settings py raw = Ok out →
  out !! k = raw !! k ≫= coerce_stored py k.
Proof.
  unfold _coerce_settings. intros Hrun.
  destruct (raw !! k) as [v|] eqn:Hk; simpl.
  - apply elem_of_map_to_list in Hk.
    rewrite (coerce_items_visited _ _ _ _ _ (NoDup_fst_map_to_list raw) Hk Hrun).
    unfold coerce_stored. by destruct (coerce_entry py k v).
  - rewrite (coerce_items_other (map_to_list raw) ∅ out k); try done.
    intros Hin. apply list_elem_of_fmap in Hin as [[k' v] [-> Hin]].
    apply elem_of_map_to_list in Hin. simpl in *. congruence.
Qed.

Lemma coerce_settings_raise raw e :
  _coerce_settings py raw = Raise e →
  ∃ k v, raw !! k = Some v ∧ coerce_entry py k v = Escapes e.
Proof.
  intros Hrun. apply coerce_items_raise in Hrun as (k & v & Hin & Hesc).
  exists k, v. split; [by apply elem_of_map_to_list | done].
Qed.

Lemma coerce_settings_returns raw :
  (∀ k v, raw !! k = Some v → ∀ e, coerce_entry py k v ≠ Escapes e) →
  ∃ out, _coerce_settings py raw = Ok out.
Proof.
  intros Hsafe. apply coerce_items_returns.
  intros k v Hin. apply Hsafe. by apply elem_of_map_to_list.
Qed.

(** What the [try] block assigns has the declared type. *)
Lemma coerce_try_has_type t val v :
  coerce_try py t val = Ok (Some v) → has_type t v = true.
Proof.
  destruct t; simpl.
  - by intros [= <-].
  - destruct (py_int py val); simpl; [by intros [= <-] | done].
  - destruct (py_float py val); simpl; [by intros [= <-] | done].
  - destruct val as [| | | | |[|a [|b [|]]]|[|a [|b [|]]]|]; try done;
      destruct (py_float py a); simpl; try done;
      destruct (py_float py b); simpl; try done; by intros [= <-].
  - destruct (py_int py val); simpl; [by intros [= <-] | done].
Qed.

(** A value of the declared type is assigned as it is. *)
Lemma coerce_try_valid t v :
  has_type t v = true → coerce_try py t v = Ok (Some v).
Proof.
  destruct t, v as [| | | | | |[|[] [|[] [|]]]|]; simpl; try done.
Qed.

Lemma coerce_stored_typed k val v :
  coerce_stored py k val = Some v →
  ∃ meta, CONTROL_META !! k = Some meta ∧ has_type (ctl_type meta) v = true.
Proof.
  unfold coerce_stored, coerce_entry.
  destruct (CONTROL_META !! k) as [meta|]; [|done].
  destruct (coerce_try py (ctl_type meta) val) as [[w|]|e] eqn:Htry.
  - intros [= <-]. exists meta. split; [done|]. by eapply coerce_try_has_type.
  - done.
  - by destruct (caught e).
Qed.

Lemma coerce_stored_valid k meta v :
  CONTROL_META !! k = Some meta →
  has_type (ctl_type meta) v = true →
  coerce_stored py k v = Some v.
Proof.
  intros Hmeta Hty. unfold coerce_stored, coerce_entry.
  rewrite Hmeta. by rewrite (coerce_try_valid _ _ Hty).
Qed.

(** Every output of [_coerce_settings] satisfies the settings invariant. *)
Lemma coerce_settings_well_typed raw out :
  _coerce_settings py raw = Ok out → well_typed out.
Proof.
  intros Hrun k v Hk.
  rewrite (coerce_settings_lookup _ _ k Hrun) in Hk.
  destruct (raw !! k) as [val|]; [|done].
  by apply coerce_stored_typed in Hk.
Qed.

Lemma well_typed_update coerced settings :
  well_typed coerced → well_typed settings → well_typed (coerced ∪ settings).
Proof.
  intros Hc Hs k v Hk.
  apply lookup_union_Some_raw in Hk as [Hk|[_ Hk]]; eauto.
Qed.

(** On a dict that satisfies the invariant [_coerce_settings] is the
    identity. *)
Lemma coerce_settings_valid raw :
  well_typed raw → _coerce_settings py raw = Ok raw.
Proof.
  intros Hraw.
  destruct (_coerce_settings py raw) as [out|e] eqn:Hrun.
  - f_equal. apply map_eq. intros k.
    rewrite (coerce_settings_lookup _ _ k Hrun).
    destruct (raw !! k) as [v|] eqn:Hk; [|done]. simpl.
    destruct (Hraw k v Hk) as (meta & Hmeta & Hty).
    by apply coerce_stored_valid with meta.
  - apply coerce_settings_raise in Hrun as (k & v & Hk & Hesc).
    destruct (Hraw k v Hk) as (meta & Hmeta & Hty).
    pose proof (coerce_stored_valid k meta v Hmeta Hty) as Hst.
    unfold coerce_stored in Hst. by rewrite Hesc in Hst.
Qed.
End CoercionFacts.

(** [DEFAULT_SETTINGS] and every preset satisfy the settings invariant. *)

Lemma well_typed_items items :
  forallb (λ kv, match CONTROL_META !! kv.1 with
                 | Some meta => has_type (ctl_type meta) kv.2
                 | None => false
                 end) items = true →
  well_typed (list_to_map items).
Proof.
  intros Hall k v Hk.
  apply elem_of_list_to_map_2 in Hk.
  rewrite forallb_forall in Hall.
  apply list_elem_of_In in Hk. specialize (Hall _ Hk). simpl in Hall.
  destruct (CONTROL_META !! k) as [meta|]; [|done]. by exists meta.
Qed.

Lemma DEFAULT_SETTINGS_well_typed : well_typed DEFAULT_SETTINGS.
Proof. apply well_typed_items. vm_compute; reflexivity. Qed.

Lemma PRESETS_well_typed name p :
  PRESETS !! name = Some p → well_typed (preset_settings p).
Proof.
  intros Hp. apply elem_of_list_to_map_2 in Hp.
  unfold PRESETS_items in Hp.
  repeat (apply elem_of_cons in Hp as [[= -> ->]|Hp];
          [unfold mk_preset; cbn [preset_settings];
           apply well_typed_items; vm_compute; reflexivity|]).
  by apply elem_of_nil in Hp.
Qed.

(** ** Reasoning about methods: the postcondition of a run *)

Section WP.
Context {S : Type}.

Lemma wp_run {A : Type} (m : M S A) Q s r s' :
  wp m Q s → m s = (r, s') → Q r s'.
Proof. unfold wp. intros HQ Hrun. by rewrite Hrun in HQ. Qed.

Lemma wp_ret {A : Type} (a : A) (Q : Result A → S → Prop) s :
  Q (Ok a) s → wp (ret a) Q s.
Proof. done. Qed.

Lemma wp_raise {A : Type} e (Q : Result A → S → Prop) s :
  Q (Raise e) s → wp (raise e) Q s.
Proof. done. Qed.

Lemma wp_gets {A : Type} (f : S → A) (Q : Result A → S → Prop) s :
  Q (Ok (f s)) s → wp (gets f) Q s.
Proof. done. Qed.

Lemma wp_modify (f : S → S) (Q : Result unit → S → Prop) s :
  Q (Ok tt) (f s) → wp (modify f) Q s.
Proof. done. Qed.

Lemma wp_bind {A B : Type} (m : M S A) (k : A → M S B) (Q : Result B → S → Prop) s :
  wp m (λ r s1, match r with
                | Ok a => wp (k a) Q s1
                | Raise e => Q (Raise e) s1
                end) s →
  wp (m ≫= k) Q s.
Proof.
  cbv [wp mbind M_bind bind].
  by destruct (m s) as [[a|e] s1].
Qed.

Lemma wp_try_pass (m : M S unit) (Q : Result unit → S → Prop) s :
  wp m (λ _ s1, Q (Ok tt) s1) s → wp (try_pass m) Q s.
Proof. done. Qed.

Lemma wp_mono {A : Type} (m : M S A) (Q Q' : Result A → S → Prop) s :
  (∀ r s', Q r s' → Q' r s') → wp m Q s → wp m Q' s.
Proof. unfold wp. auto. Qed.
End WP.

(** ** [RealCamera]: what a method leaves of the session *)

Section RealCameraFacts.
Context (py : PyRuntime) (D : Driver).
Import RealCamera.

Lemma wp_hw c (Q : Result unit → t D → Prop) s :
  (∀ r cam',
     Q r {| capture_dir := capture_dir D s;
            _streaming_output := _streaming_output D s;
            _recording := _recording D s;
            _recording_path := _recording_path D s;
            _settings := _settings D s; _cam := cam';
            calls := calls D s ++ [c] |}) →
  wp (hw D c) Q s.
Proof.
  intros HQ. unfold wp, hw.
  destruct (hw_call D c (_cam D s)) as [r cam']. apply HQ.
Qed.

Lemma wp_configure_preview s :
  wp (_configure_preview D) (λ _ s', same_session s s') s.
Proof.
  unfold _configure_preview.
  apply wp_bind, wp_gets.
  apply wp_bind, wp_hw. intros [[]|e] cam1; [|done].
  apply wp_bind, wp_hw. intros [[]|e] cam2; [|done].
  apply wp_bind, wp_modify.
  apply wp_hw. by intros r cam3.
Qed.

Lemma wp_start_recording_internal s :
  wp (_start_recording_internal D)
     (λ r s',
        capture_dir D s' = capture_dir D s ∧
        _settings D s' = _settings D s ∧
        _recording_path D s' = _recording_path D s ∧
        match r with
        | Ok _ =>
            _recording D s' = true ∧
            ∃ earlier, calls D s' = earlier ++ [h264_to (_recording_path D s)]
        | Raise _ => _recording D s' = _recording D s
        end) s.
Proof.
  unfold _start_recording_internal.
  apply wp_bind, wp_hw. intros [[]|e] cam1; [|done].
  apply wp_bind, wp_hw. intros [[]|e] cam2; [|done].
  apply wp_bind, wp_gets.
  apply wp_bind, wp_hw. intros [[]|e] cam3; [|done].
  apply wp_modify. simpl. repeat split; eauto.
Qed.

(** [capture_photo]: whatever the library does, the session fields are as
    before; when the method returns, it returns the photo's files and, if
    a recording was on, its last call restarted the recording to the same
    path. *)
Lemma wp_capture_photo timestamp capture_raw s :
  wp (capture_photo D timestamp capture_raw)
     (λ r s',
        same_session s s' ∧
        match r with
        | Ok files =>
            files = photo_files (capture_dir D s) timestamp capture_raw ∧
            (_recording D s = true →
             ∃ earlier, calls D s' = earlier ++ [h264_to (_recording_path D s)])
        | Raise _ => True
        end) s.
Proof.
  unfold capture_photo.
  apply wp_bind, wp_gets.
  apply wp_bind, wp_hw. intros [[]|e] cam1; [|done].
  apply wp_bind, wp_gets.
  apply wp_bind, wp_hw. intros [[]|e] cam2; [|done].
  apply wp_bind, wp_hw. intros [[]|e] cam3; [|done].
  apply wp_bind, wp_hw. intros [[]|e] cam4; [|done].
  apply wp_bind, wp_gets.
  apply wp_bind.
  assert (∀ files s5,
    same_session s s5 →
    wp (_configure_preview D;;
        hw D Start;;
        (if _recording D s return M (t D) unit
         then _start_recording_internal D else ret tt);;
        ret (path_join (capture_dir D s) (photo_name timestamp ".jpg") :: files))
       (λ r s',
          same_session s s' ∧
          match r with
          | Ok out =>
              out = path_join (capture_dir D s) (photo_name timestamp ".jpg") :: files ∧
              (_recording D s = true →
               ∃ earlier, calls D s' = earlier ++ [h264_to (_recording_path D s)])
          | Raise _ => True
          end) s5) as Hrest.
  { intros files s5 (Hd5 & Hs5 & Hr5 & Hp5).
    apply wp_bind.
    eapply wp_mono; [|apply wp_configure_preview].
    intros r6 s6 (Hd6 & Hs6 & Hr6 & Hp6).
    assert (same_session s s6) as Hs by (unfold same_session; split_and!; congruence).
    destruct r6 as [[]|e]; [|done].
    apply wp_bind, wp_hw. intros [[]|e] cam7; [|done].
    destruct (_recording D s) eqn:Hwas.
    - apply wp_bind.
      eapply wp_mono; [|apply wp_start_recording_internal].
      simpl. intros r8 s8 (Hd8 & Hs8 & Hp8 & H8).
      destruct r8 as [[]|e].
      + destruct H8 as [Hr8 [earlier Hcalls]].
        apply wp_ret. unfold same_session.
        split_and!; try congruence.
        intros _. exists earlier. rewrite Hcalls. do 3 f_equal. congruence.
      + unfold same_session. split_and!; first [done | congruence].
    - apply wp_bind, wp_ret, wp_ret.
      unfold same_session. simpl. split_and!; first [done | congruence]. }
  simpl. destruct capture_raw.
  - apply wp_bind, wp_hw. intros [[]|e] cam5; [|done].
    apply wp_ret. by apply Hrest.
  - apply wp_bind, wp_hw. intros [[]|e] cam5; [|done].
    apply wp_ret. by apply Hrest.
Qed.

Lemma wp_hw_reliable c (Q : Result unit → t D → Prop) s :
  reliable D →
  (∀ cam',
     Q (Ok tt) {| capture_dir := capture_dir D s;
                  _streaming_output := _streaming_output D s;
                  _recording := _recording D s;
                  _recording_path := _recording_path D s;
                  _settings := _settings D s; _cam := cam';
                  calls := calls D s ++ [c] |}) →
  wp (hw D c) Q s.
Proof.
  intros Hrel HQ. unfold wp, hw.
  specialize (Hrel c (_cam D s)).
  destruct (hw_call D c (_cam D s)) as [r cam']. simpl in *. subst r. apply HQ.
Qed.

Lemma wp_configure_preview_reliable s :
  reliable D →
  wp (_configure_preview D) (λ r s', r = Ok tt ∧ same_session s s') s.
Proof.
  intros Hrel. unfold _configure_preview.
  apply wp_bind, wp_gets.
  apply wp_bind, wp_hw_reliable; [done|]. intros cam1.
  apply wp_bind, wp_hw_reliable; [done|]. intros cam2.
  apply wp_bind, wp_modify.
  apply wp_hw_reliable; [done|]. by intros cam3.
Qed.

Lemma wp_start_recording_internal_reliable s :
  reliable D →
  wp (_start_recording_internal D)
     (λ r s',
        r = Ok tt ∧
        capture_dir D s' = capture_dir D s ∧
        _settings D s' = _settings D s ∧
        _recording_path D s' = _recording_path D s ∧
        _recording D s' = true) s.
Proof.
  intros Hrel. unfold _start_recording_internal.
  apply wp_bind, wp_hw_reliable; [done|]. intros cam1.
  apply wp_bind, wp_hw_reliable; [done|]. intros cam2.
  apply wp_bind, wp_gets.
  apply wp_bind, wp_hw_reliable; [done|]. intros cam3.
  by apply wp_modify.
Qed.

(** [stop_video] without a recording changes nothing. *)
Lemma stop_video_idle s :
  _recording D s = false → stop_video D s = (Ok None, s).
Proof.
  intros Hidle. cbv [stop_video mbind M_bind bind gets]. by rewrite Hidle.
Qed.

(** [stop_video] during a recording, whatever the library does. *)
Lemma wp_stop_video_recording s :
  _recording D s = true →
  wp (stop_video D)
     (λ r s',
        capture_dir D s' = capture_dir D s ∧
        _settings D s' = _settings D s ∧
        match r with
        | Ok path =>
            path = _recording_path D s ∧
            _recording D s' = false ∧ _recording_path D s' = None
        | Raise _ =>
            (_recording D s' = true ∧
             _recording_path D s' = _recording_path D s) ∨
            (_recording D s' = false ∧ _recording_path D s' = None)
        end) s.
Proof.
  intros Hrec. unfold stop_video.
  apply wp_bind, wp_gets. rewrite Hrec. simpl.
  apply wp_bind, wp_hw. intros [[]|e] cam1; [|simpl; by auto].
  apply wp_bind, wp_modify.
  apply wp_bind, wp_gets.
  apply wp_bind, wp_modify.
  apply wp_bind.
  eapply wp_mono; [|apply wp_configure_preview].
  simpl. intros r s1 (Hd & Hs & Hr & Hp). simpl in *.
  destruct r as [[]|e].
  - apply wp_ret. by split_and!.
  - split_and!; [done|done|]. right. by split.
Qed.

(** [stop_video] during a recording, on a library that does not raise. *)
Lemma wp_stop_video_reliable s :
  reliable D →
  _recording D s = true →
  wp (stop_video D)
     (λ r s',
        r = Ok (_recording_path D s) ∧
        capture_dir D s' = capture_dir D s ∧
        _settings D s' = _settings D s ∧
        _recording D s' = false ∧ _recording_path D s' = None) s.
Proof.
  intros Hrel Hrec. unfold stop_video.
  apply wp_bind, wp_gets. rewrite Hrec. simpl.
  apply wp_bind, wp_hw_reliable; [done|]. intros cam1.
  apply wp_bind, wp_modify.
  apply wp_bind, wp_gets.
  apply wp_bind, wp_modify.
  apply wp_bind.
  eapply wp_mono; [|by apply wp_configure_preview_reliable].
  simpl. intros r s1 (-> & Hd & Hs & Hr & Hp). simpl in *.
  apply wp_ret. by split_and!.
Qed.

(** [start_video] during a recording changes nothing. *)
Lemma start_video_recording timestamp fps s :
  _recording D s = true →
  start_video D timestamp fps s = (Raise (Exc RuntimeError "Already recording"), s).
Proof.
  intros Hrec. cbv [start_video mbind M_bind bind gets raise]. by rewrite Hrec.
Qed.

Lemma wp_start_video timestamp fps s :
  wp (start_video D timestamp fps)
     (λ r s',
        capture_dir D s' = capture_dir D s ∧
        _settings D s' = _settings D s ∧
        ((_recording D s' = _recording D s ∧
          _recording_path D s' = _recording_path D s) ∨
         is_Some (_recording_path D s')) ∧
        match r with
        | Ok path =>
            path = path_join (capture_dir D s) (video_name timestamp) ∧
            _recording D s = false ∧
            _recording D s' = true ∧ _recording_path D s' = Some path
        | Raise _ => True
        end) s.
Proof.
  unfold start_video.
  apply wp_bind, wp_gets.
  apply wp_bind, wp_gets.
  destruct (_recording D s) eqn:Hrec.
  - apply wp_raise. split_and!; auto.
  - apply wp_bind, wp_modify.
    apply wp_bind.
    eapply wp_mono; [|apply wp_start_recording_internal].
    simpl. intros r s1 (Hd & Hs & Hp & H1).
    destruct r as [[]|e].
    + destruct H1 as [Hr1 _]. apply wp_ret. split_and!; eauto.
    + split_and!; eauto.
Qed.

Lemma wp_apply_settings new s :
  wp (apply_settings py D new)
     (λ r s',
        capture_dir D s' = capture_dir D s ∧
        _recording D s' = _recording D s ∧
        _recording_path D s' = _recording_path D s ∧
        match _coerce_settings py new with
        | Ok coerced =>
            _settings D s' = coerced ∪ _settings D s ∧
            ∀ d, r = Ok d → d = coerced ∪ _settings D s
        | Raise e => r = Raise e ∧ _settings D s' = _settings D s
        end) s.
Proof.
  unfold apply_settings.
  destruct (_coerce_settings py new) as [coerced|e].
  - apply wp_bind, wp_modify.
    apply wp_bind, wp_hw. intros [[]|e] cam1.
    + apply wp_gets. simpl. split_and!; try done. by intros d [= <-].
    + simpl. by split_and!.
  - by apply wp_raise.
Qed.

Lemma wp_apply_preset name s :
  wp (apply_preset py D name)
     (λ r s',
        capture_dir D s' = capture_dir D s ∧
        _recording D s' = _recording D s ∧
        _recording_path D s' = _recording_path D s ∧
        match PRESETS !! name with
        | None =>
            r = Raise (Exc ValueError ("Unknown preset: " +:+ name)) ∧
            _settings D s' = _settings D s
        | Some p =>
            _settings D s' = preset_settings p ∪ _settings D s ∧
            ∀ d, r = Ok d → d = preset_settings p ∪ _settings D s
        end) s.
Proof.
  unfold apply_preset.
  destruct (PRESETS !! name) as [p|] eqn:Hp.
  - eapply wp_mono; [|apply wp_apply_settings].
    simpl. intros r s' (Hd & Hr & Hpath & Hset).
    rewrite (coerce_settings_valid py _ (PRESETS_well_typed _ _ Hp)) in Hset.
    destruct Hset. by split_and!.
  - by apply wp_raise.
Qed.

Lemma wp_get_frame during s :
  wp (get_frame D during) (λ _ s', same_session s s') s.
Proof.
  unfold wp, get_frame.
  destruct (_streaming_output D s) as [o|]; [|done].
  by destruct (StreamingOutput.wait_for_frame during o).
Qed.

Lemma wp_close s :
  wp (close D) (λ r s', r = Ok tt ∧ same_session s s') s.
Proof.
  unfold close.
  apply wp_bind, wp_try_pass, wp_hw. intros r1 cam1.
  apply wp_try_pass, wp_hw. by intros r2 cam2.
Qed.

Lemma session_ok_same s s' :
  session_ok s →
  _settings D s' = _settings D s →
  _recording D s' = _recording D s →
  _recording_path D s' = _recording_path D s →
  session_ok s'.
Proof. intros [Hty Hpath] Hs Hr Hp. split; [by rewrite Hs | by rewrite Hr, Hp]. Qed.

Lemma handle_session_ok req s :
  session_ok s → session_ok (snd (handle py D req s)).
Proof.
  intros Hok. pose proof Hok as [Hty Hpath].
  change (wp (handle py D req) (λ _ s', @session_ok D s') s).
  destruct req; unfold handle.
  - apply wp_bind. eapply wp_mono; [|apply wp_get_frame].
    intros r s' (Hd & Hs & Hr & Hp).
    assert (session_ok s') by (by apply (session_ok_same s)).
    by destruct r.
  - by apply wp_bind, wp_gets, wp_ret.
  - apply wp_bind. eapply wp_mono; [|apply wp_apply_settings].
    simpl. intros r s' (Hd & Hr & Hp & Hset).
    assert (session_ok s').
    { split; [|by rewrite Hr, Hp].
      destruct (_coerce_settings py new) as [coerced|e] eqn:Hco.
      - destruct Hset as [-> _]. apply well_typed_update; [|done].
        by eapply coerce_settings_well_typed.
      - destruct Hset as [_ ->]. done. }
    by destruct r.
  - apply wp_bind. eapply wp_mono; [|apply wp_apply_preset].
    simpl. intros r s' (Hd & Hr & Hp & Hset).
    assert (session_ok s').
    { split; [|by rewrite Hr, Hp].
      destruct (PRESETS !! preset_name) as [p|] eqn:Hpre.
      - destruct Hset as [-> _]. apply well_typed_update; [|done].
        by eapply PRESETS_well_typed.
      - destruct Hset as [_ ->]. done. }
    by destruct r.
  - apply wp_bind. eapply wp_mono; [|apply wp_capture_photo].
    simpl. intros r s' ((Hd & Hs & Hr & Hp) & _).
    assert (session_ok s') by (by apply (session_ok_same s)).
    by destruct r.
  - apply wp_bind. eapply wp_mono; [|apply wp_start_video].
    simpl. intros r s' (Hd & Hs & Hp & Hres).
    assert (session_ok s').
    { split; [by rewrite Hs|]. intros Hr'.
      destruct Hp as [[Hr Hp]|Hp]; [|done]. rewrite Hp. apply Hpath. congruence. }
    by destruct r.
  - apply wp_bind.
    destruct (_recording D s) eqn:Hrec.
    + eapply wp_mono; [|by apply wp_stop_video_recording].
      simpl. intros r s' (Hd & Hs & Hres).
      assert (session_ok s').
      { split; [by rewrite Hs|]. intros Hr'.
        destruct r as [path|e].
        - destruct Hres as (_ & Hr & _). congruence.
        - destruct Hres as [[_ Hp]|[Hr _]]; [|congruence].
          rewrite Hp. by apply Hpath. }
      by destruct r.
    + unfold wp. rewrite (stop_video_idle s Hrec). exact Hok.
  - by apply wp_bind, wp_gets, wp_ret.
  - apply wp_bind. eapply wp_mono; [|apply wp_close].
    intros r s' (-> & Hd & Hs & Hr & Hp).
    apply wp_ret. by apply (session_ok_same s).
Qed.

Lemma init_session_ok dir cam0 : session_ok (snd (init D dir cam0)).
Proof.
  change (wp (_configure_preview D;; hw D Start) (λ _ s', @session_ok D s')
            {| capture_dir := dir; _streaming_output := None;
               _recording := false; _recording_path := None;
               _settings := DEFAULT_SETTINGS; _cam := cam0; calls := [] |}).
  apply wp_bind. eapply wp_mono; [|apply wp_configure_preview].
  simpl. intros r s' (Hd & Hs & Hr & Hp). simpl in *.
  assert (session_ok s') as Hok.
  { split; [rewrite Hs; apply DEFAULT_SETTINGS_well_typed | by rewrite Hr]. }
  destruct r as [[]|e]; [|done].
  apply wp_hw. by intros r cam1.
Qed.

Lemma reachable_session_ok s : reachable py D s → session_ok s.
Proof.
  induction 1 as [dir cam0 s0 Hinit|req s _ IH|buf s _ IH].
  - pose proof (init_session_ok dir cam0) as Hok. by rewrite Hinit in Hok.
  - by apply handle_session_ok.
  - done.
Qed.
End RealCameraFacts.

(** ** [MockCamera]: what a method leaves of the session *)

Section MockCameraFacts.
Context (py : PyRuntime) (O : OS).
Import MockCamera.

Lemma wp_os c (Q : Result unit → t O → Prop) s :
  (∀ r disk',
     Q r {| capture_dir := capture_dir O s; _settings := _settings O s;
            _recording := _recording O s;
            _recording_path := _recording_path O s;
            _running := _running O s;
            _current_frame := _current_frame O s;
            _disk := disk'; writes := writes O s ++ [c] |}) →
  wp (os O c) Q s.
Proof.
  intros HQ. unfold wp, os.
  destruct (os_call O c (_disk O s)) as [r disk']. apply HQ.
Qed.

Lemma wp_os_reliable c (Q : Result unit → t O → Prop) s :
  reliable_os O →
  (∀ disk',
     Q (Ok tt) {| capture_dir := capture_dir O s; _settings := _settings O s;
                  _recording := _recording O s;
                  _recording_path := _recording_path O s;
                  _running := _running O s;
                  _current_frame := _current_frame O s;
                  _disk := disk'; writes := writes O s ++ [c] |}) →
  wp (os O c) Q s.
Proof.
  intros Hrel HQ. unfold wp, os.
  specialize (Hrel c (_disk O s)).
  destruct (os_call O c (_disk O s)) as [r disk']. simpl in *. subst r. apply HQ.
Qed.

Lemma wp_capture_photo_mock timestamp capture_raw s :
  wp (capture_photo O timestamp capture_raw)
     (λ r s',
        same_session_mock s s' ∧
        ∀ files, r = Ok files →
          files = mock_photo_files (capture_dir O s) timestamp
                    (_current_frame O s) capture_raw) s.
Proof.
  unfold capture_photo, mock_photo_files.
  apply wp_bind, wp_gets.
  apply wp_bind, wp_gets.
  apply wp_bind.
  destruct (frame_truthy (_current_frame O s)) as [data|].
  - apply wp_bind, wp_os. intros [[]|e] disk1; [|done].
    apply wp_ret.
    destruct capture_raw.
    + apply wp_bind, wp_os. intros [[]|e] disk2; [|done].
      apply wp_ret. split; [done|]. by intros files [= <-].
    + apply wp_ret. split; [done|]. by intros files [= <-].
  - apply wp_ret.
    destruct capture_raw.
    + apply wp_bind, wp_os. intros [[]|e] disk2; [|done].
      apply wp_ret. split; [done|]. by intros files [= <-].
    + apply wp_ret. split; [done|]. by intros files [= <-].
Qed.

Lemma wp_capture_photo_mock_reliable timestamp capture_raw s :
  reliable_os O →
  wp (capture_photo O timestamp capture_raw)
     (λ r s',
        same_session_mock s s' ∧
        r = Ok (mock_photo_files (capture_dir O s) timestamp
                  (_current_frame O s) capture_raw)) s.
Proof.
  intros Hrel. unfold capture_photo, mock_photo_files.
  apply wp_bind, wp_gets.
  apply wp_bind, wp_gets.
  apply wp_bind.
  destruct (frame_truthy (_current_frame O s)) as [data|].
  - apply wp_bind, wp_os_reliable; [done|]. intros disk1.
    apply wp_ret.
    destruct capture_raw.
    + apply wp_bind, wp_os_reliable; [done|]. intros disk2. by apply wp_ret.
    + by apply wp_ret.
  - apply wp_ret.
    destruct capture_raw.
    + apply wp_bind, wp_os_reliable; [done|]. intros disk2. by apply wp_ret.
    + by apply wp_ret.
Qed.

Lemma start_video_recording_mock timestamp fps s :
  _recording O s = true →
  start_video O timestamp fps s = (Raise (Exc RuntimeError "Already recording"), s).
Proof.
  intros Hrec. cbv [start_video mbind M_bind bind gets raise]. by rewrite Hrec.
Qed.

Lemma wp_start_video_mock timestamp fps s :
  _recording O s = false →
  wp (start_video O timestamp fps)
     (λ r s',
        capture_dir O s' = capture_dir O s ∧
        _settings O s' = _settings O s ∧
        _recording O s' = true ∧
        _recording_path O s' =
          Some (path_join (capture_dir O s) (video_name timestamp)) ∧
        ∀ path, r = Ok path →
          path = path_join (capture_dir O s) (video_name timestamp)) s.
Proof.
  intros Hidle. unfold start_video.
  apply wp_bind, wp_gets. rewrite Hidle.
  apply wp_bind, wp_gets.
  apply wp_bind, wp_modify.
  apply wp_bind, wp_modify.
  apply wp_bind, wp_os. intros [[]|e] disk1.
  - apply wp_ret. split_and!; try done. by intros path [= <-].
  - by split_and!.
Qed.

Lemma stop_video_idle_mock s :
  _recording O s = false → stop_video O s = (Ok None, s).
Proof.
  intros Hidle. cbv [stop_video mbind M_bind bind gets]. by rewrite Hidle.
Qed.

Lemma stop_video_recording_mock s :
  _recording O s = true →
  stop_video O s =
    (Ok (_recording_path O s), set_recording_path O None (set_recording O false s)).
Proof.
  intros Hrec. cbv [stop_video mbind M_bind bind gets modify ret]. by rewrite Hrec.
Qed.

Lemma apply_settings_mock new s :
  apply_settings py O new s =
    match _coerce_settings py new with
    | Ok coerced =>
        (Ok (coerced ∪ _settings O s), set_settings O (coerced ∪ _settings O s) s)
    | Raise e => (Raise e, s)
    end.
Proof. unfold apply_settings. by destruct (_coerce_settings py new). Qed.

Lemma apply_preset_mock name s :
  apply_preset py O name s =
    match PRESETS !! name with
    | Some p =>
        (Ok (preset_settings p ∪ _settings O s),
         set_settings O (preset_settings p ∪ _settings O s) s)
    | None => (Raise (Exc ValueError ("Unknown preset: " +:+ name)), s)
    end.
Proof.
  unfold apply_preset. destruct (PRESETS !! name) as [p|] eqn:Hp; [|done].
  rewrite apply_settings_mock.
  by rewrite (coerce_settings_valid py _ (PRESETS_well_typed _ _ Hp)).
Qed.

Lemma get_frame_mock_fields during s :
  same_session_mock s (snd (get_frame O during s)).
Proof.
  unfold get_frame. cbv [mbind M_bind bind modify gets]. simpl.
  revert s. induction during as [|buf during IH]; intros s; [done|].
  simpl. destruct (IH (generate_frame O buf s)) as (Hd & Hs & Hr & Hp).
  by split_and!.
Qed.

Lemma session_ok_mock_same (s s' : t O) :
  session_ok_mock s → same_session_mock s s' → session_ok_mock s'.
Proof.
  intros [Hty Hpath] (Hd & Hs & Hr & Hp).
  split; [by rewrite Hs | by rewrite Hr, Hp].
Qed.

Lemma handle_session_ok_mock req s :
  session_ok_mock s → session_ok_mock (snd (handle py O req s)).
Proof.
  intros Hok. pose proof Hok as [Hty Hpath].
  change (wp (handle py O req) (λ _ s', @session_ok_mock O s') s).
  destruct req; unfold handle.
  - apply wp_bind. unfold wp at 1.
    pose proof (get_frame_mock_fields during s) as Hsame.
    destruct (get_frame O during s) as [[f|e] s']; simpl in *;
      [apply wp_ret|]; by apply (session_ok_mock_same s).
  - by apply wp_bind, wp_gets, wp_ret.
  - apply wp_bind. unfold wp at 1. rewrite apply_settings_mock.
    destruct (_coerce_settings py new) as [coerced|e] eqn:Hco; simpl; [|done].
    apply wp_ret. split; [|done]. simpl.
    apply well_typed_update; [|done]. by eapply coerce_settings_well_typed.
  - apply wp_bind. unfold wp at 1. rewrite apply_preset_mock.
    destruct (PRESETS !! preset_name) as [p|] eqn:Hp; simpl; [|done].
    apply wp_ret. split; [|done]. simpl.
    apply well_typed_update; [|done]. by eapply PRESETS_well_typed.
  - apply wp_bind. eapply wp_mono; [|apply wp_capture_photo_mock].
    simpl. intros r s' [Hsame _].
    assert (session_ok_mock s') by (by apply (session_ok_mock_same s)).
    by destruct r.
  - apply wp_bind.
    destruct (_recording O s) eqn:Hrec.
    + unfold wp at 1. by rewrite start_video_recording_mock.
    + eapply wp_mono; [|by apply wp_start_video_mock].
      simpl. intros r s' (Hd & Hs & Hr & Hp & _).
      assert (session_ok_mock s').
      { split; [by rewrite Hs|]. intros _. rewrite Hp. by eexists. }
      by destruct r.
  - apply wp_bind. unfold wp at 1.
    destruct (_recording O s) eqn:Hrec.
    + rewrite (stop_video_recording_mock s Hrec). simpl.
      apply wp_ret. split; [done|]. simpl. done.
    + rewrite (stop_video_idle_mock s Hrec). simpl. by apply wp_ret.
  - by apply wp_bind, wp_gets, wp_ret.
  - by apply wp_bind, wp_modify, wp_ret.
Qed.

Lemma reachable_session_ok_mock s : reachable py O s → session_ok_mock s.
Proof.
  induction 1 as [dir disk0|req s _ IH|buf s _ IH].
  - split; [apply DEFAULT_SETTINGS_well_typed | done].
  - by apply handle_session_ok_mock.
  - done.
Qed.
End MockCameraFacts.

(** ** The concrete environment *)

Lemma D_ideal_reliable : reliable D_ideal.
Proof. by intros c h. Qed.

Lemma O_ideal_reliable : reliable_os O_ideal.
Proof. by intros c d. Qed.

(** The tests of [tests/test_camera.py] on [_coerce_settings]. *)
Example test_bool_coerce_from_int :
  _coerce_settings py_demo {[ "AeEnable" := PyInt 1 ]} = Ok {[ "AeEnable" := PyBool true ]}.
Proof. vm_compute; reflexivity. Qed.

Example test_float_coerce :
  _coerce_settings py_demo {[ "AnalogueGain" := PyStr "2.5" ]}
  = Ok {[ "AnalogueGain" := PyFloat 2.5 ]}.
Proof. vm_compute; reflexivity. Qed.

Example test_select_coerce :
  _coerce_settings py_demo {[ "NoiseReductionMode" := PyStr "2" ]}
  = Ok {[ "NoiseReductionMode" := PyInt 2 ]}.
Proof. vm_compute; reflexivity. Qed.

Example test_tuple2_valid :
  _coerce_settings py_demo {[ "ColourGains" := PyList [PyFloat 1.5; PyFloat 1.8] ]}
  = Ok {[ "ColourGains" := colour_gains 1.5 1.8 ]}.
Proof. vm_compute; reflexivity. Qed.

Example test_tuple2_wrong_length_ignored :
  _coerce_settings py_demo {[ "ColourGains" := PyList [PyFloat 1.5] ]} = Ok ∅.
Proof. vm_compute; reflexivity. Qed.

Example test_unknown_key_ignored :
  _coerce_settings py_demo {[ "UnknownKey" := PyInt 99 ]} = Ok ∅.
Proof. vm_compute; reflexivity. Qed.

Example test_invalid_float_ignored :
  _coerce_settings py_demo {[ "AnalogueGain" := PyStr "not-a-number" ]} = Ok ∅.
Proof. vm_compute; reflexivity. Qed.

(** * The properties of the specification *)

(** ** [_coerce_settings] *)

(** What holds of [_coerce_settings] on every input: when it returns, the
    output holds exactly the known keys whose value was coerced, each with
    the coerced value; it raises only an exception that is neither a
    [ValueError] nor a [TypeError], let through by some item. *)
Lemma coerce_settings_spec (py : PyRuntime) (raw : gmap string PyVal) :
  match _coerce_settings py raw with
  | Ok out => ∀ k, out !! k = raw !! k ≫= coerce_stored py k
  | Raise e =>
      caught e = false ∧
      ∃ k v, raw !! k = Some v ∧ coerce_entry py k v = Escapes e
  end.
Proof.
  destruct (_coerce_settings py raw) as [out|e] eqn:Hrun.
  - intros k. by apply coerce_settings_lookup.
  - destruct (coerce_settings_raise _ _ _ Hrun) as (k & v & Hk & Hesc).
    split; [|by eauto].
    unfold coerce_entry in Hesc.
    destruct (CONTROL_META !! k) as [meta|]; [|done].
    destruct (coerce_try py (ctl_type meta) v) as [[w|]|e']; try done.
    destruct (caught e') eqn:Hc; [done|]. by injection Hesc as ->.
Qed.

(** C4 (the code departs from the claim).  [_coerce_settings] is not total:
    [float()] of an int beyond the binary64 range and [int()] of an infinite
    float raise [OverflowError], which [except (ValueError, TypeError)] does
    not catch, so the exception leaves [_coerce_settings]. *)
Theorem coerce_settings_overflow_escapes (py : PyRuntime) :
  _coerce_settings py {[ "AnalogueGain" := PyInt (10 ^ 400) ]}
    = Raise (Exc OverflowError "int too large to convert to float") ∧
  _coerce_settings py {[ "ExposureTime" := PyFloat infinity ]}
    = Raise (Exc OverflowError "cannot convert float infinity to integer") ∧
  _coerce_settings py {[ "ColourGains" := PyList [PyFloat 1.5; PyInt (10 ^ 400)] ]}
    = Raise (Exc OverflowError "int too large to convert to float").
Proof. split_and!; vm_compute; reflexivity. Qed.

(** C6.  A known key with a value of its declared type goes through
    [_coerce_settings] unchanged: alone, the pair is returned as it is;
    in any input it is in the output whenever there is one; and a dict of
    such pairs, in particular every output of [_coerce_settings], is
    returned as it is (idempotence). *)
Theorem coerce_settings_identity_on_valid (py : PyRuntime)
    (k : string) (meta : ControlMeta) (v : PyVal) :
  CONTROL_META !! k = Some meta →
  has_type (ctl_type meta) v = true →
  _coerce_settings py {[ k := v ]} = Ok {[ k := v ]} ∧
  (∀ raw out, raw !! k = Some v → _coerce_settings py raw = Ok out →
              out !! k = Some v) ∧
  (∀ raw, well_typed raw → _coerce_settings py raw = Ok raw) ∧
  (∀ raw out, _coerce_settings py raw = Ok out → _coerce_settings py out = Ok out).
Proof.
  intros Hmeta Hty. split_and!.
  - apply coerce_settings_valid. intros k' v' Hk'.
    apply lookup_singleton_Some in Hk' as [<- <-]. by exists meta.
  - intros raw out Hk Hrun.
    rewrite (coerce_settings_lookup py raw out k Hrun), Hk. simpl.
    by apply coerce_stored_valid with meta.
  - apply coerce_settings_valid.
  - intros raw out Hrun. apply coerce_settings_valid.
    by apply (coerce_settings_well_typed py raw).
Qed.

Lemma coerce_settings_identity_on_valid_witness :
  _coerce_settings py_demo {[ "ColourGains" := colour_gains 1.5 1.5 ]}
    = Ok {[ "ColourGains" := colour_gains 1.5 1.5 ]}.
Proof.
  refine (proj1 (coerce_settings_identity_on_valid py_demo "ColourGains"
            (meta_range "Colour Gains (R, B)" T_tuple2
               (PyFloat 0.0) (PyFloat 32.0) (PyFloat 0.1) None)
            (colour_gains 1.5 1.5) _ _)).
  - vm_compute. reflexivity.
  - reflexivity.
Defined.

(** ** The settings of a session *)

Section SessionClaims.
Context (py : PyRuntime) (D : Driver) (O : OS).

Lemma camera_step_ok c ev :
  camera_ok c → camera_ok (camera_step py D O c ev).
Proof.
  unfold camera_ok.
  intros Hok. destruct ev as [req|buf], c as [s|s]; simpl.
  - pose proof (handle_session_ok py D req s Hok) as Hok'.
    by destruct (RealCamera.handle py D req s).
  - pose proof (handle_session_ok_mock py O req s Hok) as Hok'.
    by destruct (MockCamera.handle py O req s).
  - done.
  - done.
Qed.

Lemma create_camera_ok available dir picamera2 disk0 :
  camera_ok (create_camera D O available dir picamera2 disk0).
Proof.
  assert (∀ d, camera_ok (Mock D O (MockCamera.init O dir d))) as Hmock.
  { intros d. split; [apply DEFAULT_SETTINGS_well_typed | done]. }
  unfold create_camera.
  destruct available; [|done].
  destruct picamera2 as [cam0|e]; [|done].
  pose proof (init_session_ok D dir cam0) as Hok.
  by destruct (RealCamera.init D dir cam0) as [[[]|e] s].
Qed.

Lemma camera_run_ok evs : ∀ c, camera_ok c → camera_ok (camera_run py D O evs c).
Proof.
  unfold camera_run.
  induction evs as [|ev evs IH]; intros c Hok; [done|].
  simpl. apply IH. by apply camera_step_ok.
Qed.

(** In a session the factory created, a recording has an output path. *)
Lemma recording_has_path available dir picamera2 disk0 (evs : list Event) c :
  c = camera_run py D O evs (create_camera D O available dir picamera2 disk0) →
  camera_is_recording D O c = true →
  ∃ path, camera_recording_path D O c = Some path.
Proof.
  intros -> Hrec.
  by apply (camera_run_ok evs _ (create_camera_ok available dir picamera2 disk0)).
Qed.

(** C5.  From the session the factory creates (its settings are
    [DEFAULT_SETTINGS]), after any sequence of requests and preview
    frames, and so after any sequence of [apply_settings] and
    [apply_preset], whether they return or raise, every stored key is a
    key of [CONTROL_META] and its value has the declared type. *)
Theorem settings_stay_well_typed available dir picamera2 disk0 (evs : list Event) :
  camera_settings D O (create_camera D O available dir picamera2 disk0)
    = DEFAULT_SETTINGS ∧
  well_typed
    (camera_settings D O
       (camera_run py D O evs (create_camera D O available dir picamera2 disk0))).
Proof.
  split.
  - unfold create_camera.
    destruct available; [|done].
    destruct picamera2 as [cam0|e]; [|done].
    assert (RealCamera._settings D (snd (RealCamera.init D dir cam0)) = DEFAULT_SETTINGS)
      as Hset.
    { change (wp (RealCamera._configure_preview D;; RealCamera.hw D Start)
                (λ _ s', RealCamera._settings D s' = DEFAULT_SETTINGS)
                {| RealCamera.capture_dir := dir;
                   RealCamera._streaming_output := None;
                   RealCamera._recording := false;
                   RealCamera._recording_path := None;
                   RealCamera._settings := DEFAULT_SETTINGS;
                   RealCamera._cam := cam0; RealCamera.calls := [] |}).
      apply wp_bind. eapply wp_mono; [|apply wp_configure_preview].
      simpl. intros r s' (Hd & Hs & Hr & Hp). simpl in *.
      destruct r as [[]|e]; [|done].
      apply wp_hw. by intros r cam1. }
    by destruct (RealCamera.init D dir cam0) as [[[]|e] s].
  - apply (camera_run_ok evs _ (create_camera_ok available dir picamera2 disk0)).
Qed.
End SessionClaims.

(** ** The state machine of a session *)

(** C1.  A [capture_photo] that returns leaves [is_recording] and
    [_recording_path] as they were; when a recording was on, the recording
    was resumed to the path it had before the call. *)
Theorem capture_photo_round_trip (D : Driver) (O : OS)
    (timestamp : string) (capture_raw : bool) (c c' : Camera D O) (files : list string) :
  camera_capture_photo D O timestamp capture_raw c = (Ok files, c') →
  camera_is_recording D O c' = camera_is_recording D O c ∧
  camera_recording_path D O c' = camera_recording_path D O c ∧
  (camera_is_recording D O c = true → resumed_to (camera_recording_path D O c) c').
Proof.
  destruct c as [s|s]; simpl.
  - pose proof (wp_capture_photo D timestamp capture_raw s) as Hwp.
    unfold wp in Hwp.
    destruct (RealCamera.capture_photo D timestamp capture_raw s) as [r s'].
    intros [= -> <-]. simpl in *.
    destruct Hwp as [(Hd & Hs & Hr & Hp) [_ Hcalls]].
    by split_and!.
  - pose proof (wp_capture_photo_mock O timestamp capture_raw s) as Hwp.
    unfold wp in Hwp.
    destruct (MockCamera.capture_photo O timestamp capture_raw s) as [r s'].
    intros [= -> <-]. simpl in *.
    destruct Hwp as [(Hd & Hs & Hr & Hp) _].
    by split_and!.
Qed.

Lemma capture_photo_round_trip_witness :
  camera_is_recording D_ideal O_ideal
    (snd (camera_capture_photo D_ideal O_ideal "20240101_120000" false
            (Real D_ideal O_ideal
               (recording_session D_ideal "/captures/video_20240101_115900.mp4" tt))))
  = true ∧
  camera_recording_path D_ideal O_ideal
    (snd (camera_capture_photo D_ideal O_ideal "20240101_120000" false
            (Real D_ideal O_ideal
               (recording_session D_ideal "/captures/video_20240101_115900.mp4" tt))))
  = Some "/captures/video_20240101_115900.mp4".
Proof.
  assert (camera_capture_photo D_ideal O_ideal "20240101_120000" false
            (Real D_ideal O_ideal
               (recording_session D_ideal "/captures/video_20240101_115900.mp4" tt))
          = (Ok ["/captures/photo_20240101_120000.jpg"],
             snd (camera_capture_photo D_ideal O_ideal "20240101_120000" false
                    (Real D_ideal O_ideal
                       (recording_session D_ideal
                          "/captures/video_20240101_115900.mp4" tt))))) as Hrun.
  { vm_compute. reflexivity. }
  destruct (capture_photo_round_trip D_ideal O_ideal _ _ _ _ _ Hrun) as (Hr & Hp & _).
  split; [exact Hr | exact Hp].
Defined.

(** C2.  [start_video] during a recording raises
    [RuntimeError("Already recording")] and leaves the session, and so
    [is_recording] and [_recording_path], as it was; no call reaches the
    camera library or the file system. *)
Theorem start_video_while_recording (D : Driver) (O : OS)
    (timestamp : string) (fps : Z) (c : Camera D O) :
  camera_is_recording D O c = true →
  camera_start_video D O timestamp fps c
    = (Raise (Exc RuntimeError "Already recording"), c).
Proof.
  destruct c as [s|s]; simpl; intros Hrec.
  - by rewrite (start_video_recording D timestamp fps s Hrec).
  - by rewrite (start_video_recording_mock O timestamp fps s Hrec).
Qed.

Lemma start_video_while_recording_witness :
  camera_start_video D_ideal O_ideal "20240101_120000" 25
    (Real D_ideal O_ideal
       (recording_session D_ideal "/captures/video_20240101_115900.mp4" tt))
  = (Raise (Exc RuntimeError "Already recording"),
     Real D_ideal O_ideal
       (recording_session D_ideal "/captures/video_20240101_115900.mp4" tt)).
Proof.
  exact (start_video_while_recording D_ideal O_ideal "20240101_120000" 25
           (Real D_ideal O_ideal
              (recording_session D_ideal "/captures/video_20240101_115900.mp4" tt))
           eq_refl).
Defined.

(** C3.  Without a recording [stop_video] returns [None], raises nothing
    and leaves the session as it was, so [is_recording] stays false, and
    the handler of [POST /api/video/stop] answers 400.  During a recording
    [stop_video] returns the recording's path and leaves [is_recording]
    false: whenever it returns, and it does return when the calls it makes
    on the camera library do not raise. *)
Theorem stop_video_sentinel (D : Driver) (O : OS) (c : Camera D O) :
  (camera_is_recording D O c = false →
     camera_stop_video D O c = (Ok None, c) ∧
     stop_video_endpoint D O c = (HTTPException 400 "Not recording", c)) ∧
  (camera_is_recording D O c = true → hardware_ok c →
     ∃ c', camera_stop_video D O c = (Ok (camera_recording_path D O c), c') ∧
           camera_is_recording D O c' = false) ∧
  (camera_is_recording D O c = true →
     ∀ path c', camera_stop_video D O c = (Ok path, c') →
       path = camera_recording_path D O c ∧ camera_is_recording D O c' = false).
Proof.
  split_and!.
  - intros Hidle. unfold stop_video_endpoint.
    destruct c as [s|s]; simpl in *.
    + by rewrite (stop_video_idle D s Hidle).
    + by rewrite (stop_video_idle_mock O s Hidle).
  - intros Hrec Hhw. destruct c as [s|s]; simpl in *.
    + pose proof (wp_stop_video_reliable D s Hhw Hrec) as Hwp. unfold wp in Hwp.
      destruct (RealCamera.stop_video D s) as [r s']. simpl in Hwp.
      destruct Hwp as (-> & _ & _ & Hr & _). by exists (Real D O s').
    + rewrite (stop_video_recording_mock O s Hrec). by eexists.
  - intros Hrec path c'. destruct c as [s|s]; simpl in *.
    + pose proof (wp_stop_video_recording D s Hrec) as Hwp. unfold wp in Hwp.
      destruct (RealCamera.stop_video D s) as [r s']. simpl in Hwp.
      intros [= -> <-]. by destruct Hwp as (_ & _ & -> & Hr & _).
    + rewrite (stop_video_recording_mock O s Hrec). by intros [= <- <-].
Qed.

Lemma stop_video_sentinel_witness :
  fst (camera_stop_video D_ideal O_ideal
         (Real D_ideal O_ideal
            (recording_session D_ideal "/captures/video_20240101_115900.mp4" tt)))
  = Ok (Some "/captures/video_20240101_115900.mp4").
Proof.
  destruct (proj1 (proj2 (stop_video_sentinel D_ideal O_ideal
              (Real D_ideal O_ideal
                 (recording_session D_ideal "/captures/video_20240101_115900.mp4" tt))))
              eq_refl D_ideal_reliable) as (c' & Hrun & _).
  rewrite Hrun. reflexivity.
Defined.

(** When the library's [stop_recording] raises, the exception leaves
    [stop_video], the session is still recording and the handler answers
    500. *)
Example stop_video_library_failure :
  fst (stop_video_endpoint D_stuck O_ideal
         (Real D_stuck O_ideal
            (recording_session D_stuck "/captures/video_20240101_115900.mp4" tt)))
    = HTTPException 500 "encoder not running" ∧
  camera_is_recording D_stuck O_ideal
    (snd (stop_video_endpoint D_stuck O_ideal
            (Real D_stuck O_ideal
               (recording_session D_stuck "/captures/video_20240101_115900.mp4" tt))))
    = true.
Proof. vm_compute. repeat split. Qed.

(** ** The files of a photo *)







(** ** The frame buffer *)





(** ** Stored files *)

Section FileClaims.
Context (CAPTURES_DIR : Path) (guess_type : string → option string)
        (fs : FileSystem).

Lemma traversal_check_outside path :
  outside CAPTURES_DIR fs path →
  ∃ e, exc_class e = ValueError ∧
       traversal_check CAPTURES_DIR fs path
         = (Raise e, [Op_resolve path; Op_resolve CAPTURES_DIR]).
Proof.
  intros (rp & rc & Hp & Hc & Hrel). unfold traversal_check.
  rewrite Hp, Hc, Hrel. eexists. split; [|reflexivity]. reflexivity.
Qed.

Lemma traversal_check_passed path ops :
  traversal_check CAPTURES_DIR fs path = (Ok tt, ops) → inside CAPTURES_DIR fs path.
Proof.
  unfold traversal_check.
  destruct (resolve fs path) as [rp|e] eqn:Hp; [|done].
  destruct (resolve fs CAPTURES_DIR) as [rc|e] eqn:Hc; [|done].
  destruct (relative_to rp rc) as [rel|] eqn:Hrel; [|done].
  intros _. exists rp, rc. by split_and!.
Qed.

Lemma touches_inj p q op : touches p op → touches q op → p = q.
Proof.
  intros [-> | [-> | [-> | ->]]] [Hq | [Hq | [Hq | Hq]]]; by inversion Hq.
Qed.

Lemma traversal_check_ops path r ops op :
  traversal_check CAPTURES_DIR fs path = (r, ops) →
  op ∈ ops → ∃ q, op = Op_resolve q.
Proof.
  unfold traversal_check.
  destruct (resolve fs path); [destruct (resolve fs CAPTURES_DIR)|];
    intros [= _ <-] Hop;
    repeat (apply elem_of_cons in Hop as [-> | Hop]; [by eexists|]);
    by apply elem_of_nil in Hop.
Qed.

Lemma missing_ops path gone ops op :
  missing fs path = (gone, ops) → op ∈ ops → touches path op.
Proof.
  unfold missing, touches.
  destruct (negb (exists_ fs path)); intros [= _ <-] Hop;
    repeat (apply elem_of_cons in Hop as [-> | Hop]; [by auto|]);
    by apply elem_of_nil in Hop.
Qed.

(** Every operation of the handlers resolves a path, or acts on the
    requested path after that path was found inside the captures
    directory. *)
Lemma download_file_ops filename op :
  op ∈ snd (download_file CAPTURES_DIR guess_type fs filename) →
  (∃ q, op = Op_resolve q) ∨
  (touches (joinpath CAPTURES_DIR filename) op ∧
   inside CAPTURES_DIR fs (joinpath CAPTURES_DIR filename)).
Proof.
  unfold download_file.
  destruct (traversal_check CAPTURES_DIR fs (joinpath CAPTURES_DIR filename))
    as [[[]|e] ops] eqn:Hchk.
  - destruct (missing fs (joinpath CAPTURES_DIR filename)) as [gone ops'] eqn:Hmiss.
    pose proof (traversal_check_passed _ _ Hchk) as Hin.
    destruct gone; simpl; intros Hop;
      repeat (apply elem_of_app in Hop as [Hop|Hop]).
    + left. by eapply traversal_check_ops.
    + right. split; [by eapply missing_ops | done].
    + left. by eapply traversal_check_ops.
    + right. split; [by eapply missing_ops | done].
    + apply list_elem_of_singleton in Hop as ->.
      right. split; [unfold touches; by auto | done].
  - intros Hop. left.
    destruct (exc_class e); simpl in Hop; by eapply traversal_check_ops.
Qed.

Lemma delete_file_ops filename op :
  op ∈ snd (delete_file CAPTURES_DIR fs filename) →
  (∃ q, op = Op_resolve q) ∨
  (touches (joinpath CAPTURES_DIR filename) op ∧
   inside CAPTURES_DIR fs (joinpath CAPTURES_DIR filename)).
Proof.
  unfold delete_file.
  destruct (traversal_check CAPTURES_DIR fs (joinpath CAPTURES_DIR filename))
    as [[[]|e] ops] eqn:Hchk.
  - destruct (missing fs (joinpath CAPTURES_DIR filename)) as [gone ops'] eqn:Hmiss.
    pose proof (traversal_check_passed _ _ Hchk) as Hin.
    destruct gone; [|destruct (unlink fs (joinpath CAPTURES_DIR filename))];
      simpl; intros Hop;
      repeat (apply elem_of_app in Hop as [Hop|Hop]);
      first [ left; by eapply traversal_check_ops
            | right; split; [by eapply missing_ops | done]
            | apply list_elem_of_singleton in Hop as ->;
              right; split; [unfold touches; by auto | done] ].
  - intros Hop. left.
    destruct (exc_class e); simpl in Hop; by eapply traversal_check_ops.
Qed.

(** C10.  A file name whose resolved path is outside the resolved captures
    directory gets 403 from both handlers, which by then have only
    resolved the two paths: no existence check, no read, no deletion,
    whatever the file system holds.  And whatever the name, a path the
    handlers check, serve or delete is inside the captures directory. *)
Theorem traversal_rejected (filename : string) :
  (outside CAPTURES_DIR fs (joinpath CAPTURES_DIR filename) →
     download_file CAPTURES_DIR guess_type fs filename
       = (HTTPException 403 "Forbidden",
          [Op_resolve (joinpath CAPTURES_DIR filename); Op_resolve CAPTURES_DIR]) ∧
     delete_file CAPTURES_DIR fs filename
       = (HTTPException 403 "Forbidden",
          [Op_resolve (joinpath CAPTURES_DIR filename); Op_resolve CAPTURES_DIR])) ∧
  (∀ p op,
     touches p op →
     op ∈ snd (download_file CAPTURES_DIR guess_type fs filename) ∨
     op ∈ snd (delete_file CAPTURES_DIR fs filename) →
     inside CAPTURES_DIR fs p).
Proof.
  split.
  - intros Hout.
    destruct (traversal_check_outside _ Hout) as (e & Hcls & Hchk).
    unfold download_file, delete_file. by rewrite Hchk, Hcls.
  - intros p op Htouch [Hop|Hop].
    + apply download_file_ops in Hop as [[q ->]|[Hpath Hin]].
      * by destruct Htouch as [|[|[|]]].
      * by rewrite (touches_inj _ _ _ Htouch Hpath).
    + apply delete_file_ops in Hop as [[q ->]|[Hpath Hin]].
      * by destruct Htouch as [|[|[|]]].
      * by rewrite (touches_inj _ _ _ Htouch Hpath).
Qed.
End FileClaims.

Lemma traversal_rejected_witness :
  download_file captures_default (fun _ => None) fs_plain "../../../../etc/passwd"
    = (HTTPException 403 "Forbidden",
       [Op_resolve (joinpath captures_default "../../../../etc/passwd");
        Op_resolve captures_default]) ∧
  delete_file captures_default fs_plain "../../../../etc/passwd"
    = (HTTPException 403 "Forbidden",
       [Op_resolve (joinpath captures_default "../../../../etc/passwd");
        Op_resolve captures_default]).
Proof.
  apply (proj1 (traversal_rejected captures_default (fun _ => None) fs_plain
                  "../../../../etc/passwd")).
  exists {| root := Slash; parts := ["etc"; "passwd"] |},
         {| root := Slash; parts := ["var"; "lib"; "astrocam"; "captures"] |}.
  split_and!; vm_compute; reflexivity.
Defined.

(** ** The mock camera against the real one *)

Section Simulation.
Context (py : PyRuntime) (D : Driver) (O : OS).

Lemma run_reply {S A : Type} (m : M S A) (f : A → Reply) (s : S) :
  (x ← m; ret (f x)) s =
  (match fst (m s) with Ok a => Ok (f a) | Raise e => Raise e end, snd (m s)).
Proof. cbv [mbind M_bind bind ret]. by destruct (m s) as [[a|e] s']. Qed.

Lemma wp_capture_photo_reliable timestamp capture_raw s :
  reliable D →
  wp (RealCamera.capture_photo D timestamp capture_raw)
     (λ r s',
        same_session s s' ∧
        r = Ok (photo_files (RealCamera.capture_dir D s) timestamp capture_raw)) s.
Proof.
  intros Hrel. unfold RealCamera.capture_photo.
  apply wp_bind, wp_gets.
  apply wp_bind, wp_hw_reliable; [done|]. intros cam1.
  apply wp_bind, wp_gets.
  apply wp_bind, wp_hw_reliable; [done|]. intros cam2.
  apply wp_bind, wp_hw_reliable; [done|]. intros cam3.
  apply wp_bind, wp_hw_reliable; [done|]. intros cam4.
  apply wp_bind, wp_gets.
  apply wp_bind.
  assert (∀ files s5,
    same_session s s5 →
    wp (RealCamera._configure_preview D;;
        RealCamera.hw D Start;;
        (if RealCamera._recording D s return M (RealCamera.t D) unit
         then RealCamera._start_recording_internal D else ret tt);;
        ret (path_join (RealCamera.capture_dir D s) (photo_name timestamp ".jpg")
               :: files))
       (λ r s',
          same_session s s' ∧
          r = Ok (path_join (RealCamera.capture_dir D s) (photo_name timestamp ".jpg")
                    :: files)) s5) as Hrest.
  { intros files s5 (Hd5 & Hs5 & Hr5 & Hp5).
    apply wp_bind.
    eapply wp_mono; [|by apply wp_configure_preview_reliable].
    intros r6 s6 (-> & Hd6 & Hs6 & Hr6 & Hp6).
    apply wp_bind, wp_hw_reliable; [done|]. intros cam7.
    destruct (RealCamera._recording D s) eqn:Hwas.
    - apply wp_bind.
      eapply wp_mono; [|by apply wp_start_recording_internal_reliable].
      simpl. intros r8 s8 (-> & Hd8 & Hs8 & Hp8 & Hr8).
      apply wp_ret. unfold same_session. split_and!; congruence.
    - apply wp_bind, wp_ret, wp_ret.
      unfold same_session. simpl. split_and!; congruence. }
  simpl. destruct capture_raw.
  - apply wp_bind, wp_hw_reliable; [done|]. intros cam5.
    apply wp_ret. by apply Hrest.
  - apply wp_bind, wp_hw_reliable; [done|]. intros cam5.
    apply wp_ret. by apply Hrest.
Qed.

Lemma wp_start_video_reliable timestamp fps s :
  reliable D →
  RealCamera._recording D s = false →
  wp (RealCamera.start_video D timestamp fps)
     (λ r s',
        r = Ok (path_join (RealCamera.capture_dir D s) (video_name timestamp)) ∧
        RealCamera.capture_dir D s' = RealCamera.capture_dir D s ∧
        RealCamera._settings D s' = RealCamera._settings D s ∧
        RealCamera._recording D s' = true ∧
        RealCamera._recording_path D s' =
          Some (path_join (RealCamera.capture_dir D s) (video_name timestamp))) s.
Proof.
  intros Hrel Hidle. unfold RealCamera.start_video.
  apply wp_bind, wp_gets.
  apply wp_bind, wp_gets. rewrite Hidle.
  apply wp_bind, wp_modify.
  apply wp_bind.
  eapply wp_mono; [|by apply wp_start_recording_internal_reliable].
  simpl. intros r s1 (-> & Hd & Hs & Hp & Hr).
  apply wp_ret. by split_and!.
Qed.

Lemma wp_apply_settings_reliable new s :
  reliable D →
  wp (RealCamera.apply_settings py D new)
     (λ r s',
        RealCamera.capture_dir D s' = RealCamera.capture_dir D s ∧
        RealCamera._recording D s' = RealCamera._recording D s ∧
        RealCamera._recording_path D s' = RealCamera._recording_path D s ∧
        match _coerce_settings py new with
        | Ok coerced =>
            r = Ok (coerced ∪ RealCamera._settings D s) ∧
            RealCamera._settings D s' = coerced ∪ RealCamera._settings D s
        | Raise e => r = Raise e ∧ RealCamera._settings D s' = RealCamera._settings D s
        end) s.
Proof.
  intros Hrel. unfold RealCamera.apply_settings.
  destruct (_coerce_settings py new) as [coerced|e].
  - apply wp_bind, wp_modify.
    apply wp_bind, wp_hw_reliable; [done|]. intros cam1.
    by apply wp_gets.
  - by apply wp_raise.
Qed.
End Simulation.

Section MockVersusReal.
Context (py : PyRuntime) (D : Driver) (O : OS).

Lemma agree_same r r' m m' :
  agree D O r m → same_session r r' → same_session_mock m m' →
  agree D O r' m'.
Proof.
  intros (Hd & Hs & Hr & Hp) (Hd1 & Hs1 & Hr1 & Hp1) (Hd2 & Hs2 & Hr2 & Hp2).
  unfold agree. split_and!; congruence.
Qed.

(** C9, as the code has it.  On a camera library and an operating system
    whose calls do not raise, from sessions that show the same capture
    directory, settings, recording flag and recording path, the two
    implementations serve a request with the same reply, or the same
    exception, and show the same fields again afterwards, for
    [get_settings], [apply_settings], [apply_preset], [start_video],
    [stop_video], [is_recording] and [close], and for [capture_photo]
    when the mock camera holds a non-empty preview frame; [get_frame]
    returns a frame or [None] in both and keeps the fields. *)
Theorem mock_matches_real (req : Request) (r : RealCamera.t D) (m : MockCamera.t O) :
  reliable D → reliable_os O → agree D O r m →
  agree D O (snd (RealCamera.handle py D req r)) (snd (MockCamera.handle py O req m)) ∧
  (comparable O req m = true →
     fst (RealCamera.handle py D req r) = fst (MockCamera.handle py O req m)) ∧
  (∀ during, req = Get_frame during →
     ∃ f f', fst (RealCamera.handle py D req r) = Ok (Reply_frame f) ∧
             fst (MockCamera.handle py O req m) = Ok (Reply_frame f')).
Proof.
  intros Hrel Hos Hag. pose proof Hag as (Hd & Hs & Hr & Hp).
  destruct req; unfold RealCamera.handle, MockCamera.handle;
    rewrite ?run_reply.
  - (* get_frame *)
    pose proof (wp_get_frame D during r) as HR. unfold wp in HR.
    pose proof (get_frame_mock_fields O during m) as HM.
    split_and!.
    + by eapply agree_same.
    + done.
    + intros during' _. simpl.
      unfold RealCamera.get_frame, MockCamera.get_frame.
      cbv [mbind M_bind bind modify gets]. simpl.
      destruct (RealCamera._streaming_output D r) as [o|]; [|by eauto].
      destruct (StreamingOutput.wait_for_frame during o). simpl. by eauto.
  - (* get_settings *)
    simpl. split_and!; [done| |done]. intros _. unfold RealCamera.get_settings,
      MockCamera.get_settings, gets. simpl. by rewrite Hs.
  - (* apply_settings *)
    pose proof (wp_apply_settings_reliable py D new r Hrel) as HR. unfold wp in HR.
    rewrite (apply_settings_mock py O new m).
    destruct (RealCamera.apply_settings py D new r) as [res r']. simpl in HR.
    destruct HR as (Hd' & Hr' & Hp' & Hres).
    destruct (_coerce_settings py new) as [coerced|e]; simpl;
      destruct Hres as [-> Hs']; (split_and!; [|by rewrite ?Hs|done]);
      unfold agree; simpl; split_and!; congruence.
  - (* apply_preset *)
    pose proof (wp_apply_settings_reliable py D) as HR.
    rewrite (apply_preset_mock py O preset_name m).
    unfold RealCamera.apply_preset.
    destruct (PRESETS !! preset_name) as [p|] eqn:Hpre; simpl; [|by split_and!].
    specialize (HR (preset_settings p) r Hrel). unfold wp in HR.
    rewrite (coerce_settings_valid py _ (PRESETS_well_typed _ _ Hpre)) in HR.
    destruct (RealCamera.apply_settings py D (preset_settings p) r) as [res r'].
    simpl in HR. destruct HR as (Hd' & Hr' & Hp' & -> & Hs'). simpl.
    split_and!; [|by rewrite ?Hs|done].
    unfold agree; simpl; split_and!; congruence.
  - (* capture_photo *)
    pose proof (wp_capture_photo_reliable D timestamp capture_raw r Hrel) as HR.
    pose proof (wp_capture_photo_mock_reliable O timestamp capture_raw m Hos) as HM.
    unfold wp in HR, HM.
    destruct (RealCamera.capture_photo D timestamp capture_raw r) as [res r'].
    destruct (MockCamera.capture_photo O timestamp capture_raw m) as [res' m'].
    simpl in *. destruct HR as [HR ->], HM as [HM ->]. simpl.
    split_and!; [by eapply agree_same| |done].
    unfold mock_photo_files, photo_files. rewrite Hd.
    by destruct (MockCamera.frame_truthy (MockCamera._current_frame O m)).
  - (* start_video *)
    destruct (RealCamera._recording D r) eqn:Hrec.
    + rewrite (start_video_recording D timestamp fps r Hrec).
      rewrite (start_video_recording_mock O timestamp fps m); [|congruence].
      by split_and!.
    + pose proof (wp_start_video_reliable D timestamp fps r Hrel Hrec) as HR.
      assert (MockCamera._recording O m = false) as Hrec' by congruence.
      pose proof (wp_start_video_mock O timestamp fps m Hrec') as HM.
      assert (fst (MockCamera.start_video O timestamp fps m)
              = Ok (path_join (MockCamera.capture_dir O m) (video_name timestamp)))
        as Hres.
      { unfold MockCamera.start_video. cbv [mbind M_bind bind gets modify ret].
        rewrite Hrec'. unfold MockCamera.os.
        specialize (Hos (Touch (path_join (MockCamera.capture_dir O m)
                                  (video_name timestamp)))
                        (MockCamera._disk O m)).
        simpl.
        destruct (os_call O _ (MockCamera._disk O m)) as [res d']. simpl in *.
        by subst res. }
      unfold wp in HR, HM.
      destruct (RealCamera.start_video D timestamp fps r) as [res r'].
      destruct (MockCamera.start_video O timestamp fps m) as [res' m'].
      simpl in *. subst res'.
      destruct HR as (-> & Hd1 & Hs1 & Hr1 & Hp1), HM as (Hd2 & Hs2 & Hr2 & Hp2 & _).
      simpl. split_and!; [|by rewrite Hd|done].
      unfold agree. split_and!; congruence.
  - (* stop_video *)
    destruct (RealCamera._recording D r) eqn:Hrec.
    + pose proof (wp_stop_video_reliable D r Hrel Hrec) as HR. unfold wp in HR.
      rewrite (stop_video_recording_mock O m); [|congruence].
      destruct (RealCamera.stop_video D r) as [res r']. simpl in *.
      destruct HR as (-> & Hd1 & Hs1 & Hr1 & Hp1). simpl.
      split_and!; [|by rewrite Hp|done].
      unfold agree; simpl; split_and!; congruence.
    + rewrite (stop_video_idle D r Hrec).
      rewrite (stop_video_idle_mock O m); [|congruence].
      by split_and!.
  - (* is_recording *)
    simpl. split_and!; [done| |done]. intros _.
    unfold RealCamera.is_recording, MockCamera.is_recording. by rewrite Hr.
  - (* close *)
    pose proof (wp_close D r) as HR. unfold wp in HR.
    destruct (RealCamera.close D r) as [res r']. simpl in *.
    destruct HR as (-> & HR). split_and!; [|done|done].
    by eapply agree_same.
Qed.
End MockVersusReal.

Lemma mock_matches_real_witness :
  fst (RealCamera.handle py_demo D_ideal (Start_video "20240101_120000" 25)
         (snd (RealCamera.init D_ideal "/captures" tt)))
  = fst (MockCamera.handle py_demo O_ideal (Start_video "20240101_120000" 25)
           (MockCamera.init O_ideal "/captures" tt)).
Proof.
  assert (agree D_ideal O_ideal (snd (RealCamera.init D_ideal "/captures" tt))
            (MockCamera.init O_ideal "/captures" tt)) as Hagree.
  { unfold agree. split_and!; reflexivity. }
  exact (proj1 (proj2 (mock_matches_real py_demo D_ideal O_ideal
                         (Start_video "20240101_120000" 25)
                         (snd (RealCamera.init D_ideal "/captures" tt))
                         (MockCamera.init O_ideal "/captures" tt)
                         D_ideal_reliable O_ideal_reliable Hagree)) eq_refl).
Defined.

(** C9 as stated fails.  On a camera library that never raises, the two
    sessions just constructed show the same fields, yet [capture_photo]
    returns the photo's path on the real camera and the empty list on the
    mock camera, which has no preview frame yet; and when the library's
    [stop_recording] raises, [stop_video] raises on the real camera and
    returns the path on the mock camera. *)
Lemma mock_differs_from_real :
  agree D_ideal O_ideal (snd (RealCamera.init D_ideal "/captures" tt))
    (MockCamera.init O_ideal "/captures" tt) ∧
  fst (RealCamera.handle py_demo D_ideal (Capture_photo "20240101_120000" false)
         (snd (RealCamera.init D_ideal "/captures" tt)))
    = Ok (Reply_files ["/captures/photo_20240101_120000.jpg"]) ∧
  fst (MockCamera.handle py_demo O_ideal (Capture_photo "20240101_120000" false)
         (MockCamera.init O_ideal "/captures" tt))
    = Ok (Reply_files []) ∧
  agree D_stuck O_ideal
    (recording_session D_stuck "/captures/video_20240101_115900.mp4" tt)
    (recording_mock O_ideal "/captures/video_20240101_115900.mp4" tt) ∧
  fst (RealCamera.handle py_demo D_stuck Stop_video
         (recording_session D_stuck "/captures/video_20240101_115900.mp4" tt))
    = Raise (Exc RuntimeError "encoder not running") ∧
  fst (MockCamera.handle py_demo O_ideal Stop_video
         (recording_mock O_ideal "/captures/video_20240101_115900.mp4" tt))
    = Ok (Reply_opt_path (Some "/captures/video_20240101_115900.mp4")).
Proof. unfold agree. split_and!; reflexivity. Qed.

(** * Further properties of the code *)

(** ** [_coerce_settings]: what it lets through and what it stores *)

Section CoercionMore.
Context (py : PyRuntime).

Lemma py_int_raises v e :
  py_int py v = Raise e →
  if int_overflows v then exc_class e = OverflowError else caught e = true.
Proof.
  destruct v; simpl; try by intros [= <-].
  - unfold float_to_int. destruct (Prim2SF x); try done; by intros [= <-].
  - destruct (str_to_int py s); [done|]. by intros [= <-].
Qed.

Lemma py_int_overflows v :
  int_overflows v = true → ∃ e, py_int py v = Raise e ∧ exc_class e = OverflowError.
Proof.
  destruct v; try done. simpl. unfold float_to_int.
  destruct (Prim2SF x); try done. intros _. by eexists.
Qed.

Lemma py_float_raises v e :
  py_float py v = Raise e →
  if float_overflows v then exc_class e = OverflowError else caught e = true.
Proof.
  destruct v; simpl; try by intros [= <-].
  - unfold int_to_float.
    destruct (binary_normalize prec emax n 0 false); try done; by intros [= <-].
  - destruct (str_to_float py s); [done|]. by intros [= <-].
Qed.

Lemma py_float_overflows v :
  float_overflows v = true → ∃ e, py_float py v = Raise e ∧ exc_class e = OverflowError.
Proof.
  destruct v; try done. simpl. unfold int_to_float.
  destruct (binary_normalize prec emax n 0 false); try done. intros _. by eexists.
Qed.

Lemma overflow_not_caught e : exc_class e = OverflowError → caught e = false.
Proof. unfold caught. by intros ->. Qed.

(** The [try] block lets an exception escape exactly on the values
    [escapes] describes, and the exception is an [OverflowError]. *)
Lemma coerce_try_escapes t v :
  match coerce_try py t v with
  | Ok _ => escapes py t v = false
  | Raise e =>
      if escapes py t v then exc_class e = OverflowError else caught e = true
  end.
Proof.
  assert (∀ a b,
    match (let! x := py_float py a in let! y := py_float py b in
           Ok (Some (PyTuple [PyFloat x; PyFloat y]))) with
    | Ok _ => float_overflows a || (float_converts py a && float_overflows b) = false
    | Raise e =>
        if float_overflows a || (float_converts py a && float_overflows b)
        then exc_class e = OverflowError else caught e = true
    end) as Hpair.
  { intros a b. unfold float_converts.
    destruct (py_float py a) as [x|e] eqn:Ha; simpl.
    - assert (float_overflows a = false) as ->.
      { destruct (float_overflows a) eqn:Hov; [|done].
        destruct (py_float_overflows a Hov) as (e & He & _). congruence. }
      simpl. destruct (py_float py b) as [y|e] eqn:Hb; simpl.
      + destruct (float_overflows b) eqn:Hov; [|done].
        destruct (py_float_overflows b Hov) as (e & He & _). congruence.
      + by apply py_float_raises.
    - pose proof (py_float_raises a e Ha) as H.
      by destruct (float_overflows a). }
  destruct t; simpl.
  - done.
  - destruct (py_int py v) as [n|e] eqn:Hv; simpl.
    + destruct (int_overflows v) eqn:Hov; [|done].
      destruct (py_int_overflows v Hov) as (e & He & _). congruence.
    + by apply py_int_raises.
  - destruct (py_float py v) as [x|e] eqn:Hv; simpl.
    + destruct (float_overflows v) eqn:Hov; [|done].
      destruct (py_float_overflows v Hov) as (e & He & _). congruence.
    + by apply py_float_raises.
  - destruct v as [| | | | |[|a [|b [|]]]|[|a [|b [|]]]|]; try done; apply Hpair.
  - destruct (py_int py v) as [n|e] eqn:Hv; simpl.
    + destruct (int_overflows v) eqn:Hov; [|done].
      destruct (py_int_overflows v Hov) as (e & He & _). congruence.
    + by apply py_int_raises.
Qed.

Lemma coerce_entry_escapes k v e :
  coerce_entry py k v = Escapes e →
  exc_class e = OverflowError ∧
  ∃ meta, CONTROL_META !! k = Some meta ∧ escapes py (ctl_type meta) v = true.
Proof.
  unfold coerce_entry.
  destruct (CONTROL_META !! k) as [meta|]; [|done].
  pose proof (coerce_try_escapes (ctl_type meta) v) as Hesc.
  destruct (coerce_try py (ctl_type meta) v) as [[w|]|e']; try done.
  destruct (caught e') eqn:Hc; [done|]. intros [= <-].
  destruct (escapes py (ctl_type meta) v) eqn:Hyes; [|congruence].
  split; [done|]. by exists meta.
Qed.

Lemma escapes_coerce_entry k v meta :
  CONTROL_META !! k = Some meta →
  escapes py (ctl_type meta) v = true →
  ∃ e, coerce_entry py k v = Escapes e.
Proof.
  intros Hmeta Hesc. unfold coerce_entry. rewrite Hmeta.
  pose proof (coerce_try_escapes (ctl_type meta) v) as H.
  rewrite Hesc in H.
  destruct (coerce_try py (ctl_type meta) v) as [w|e]; [done|].
  exists e. by rewrite (overflow_not_caught e H).
Qed.

Lemma coerce_items_ok_no_escape items : ∀ out out' k v,
  coerce_items py items out = Ok out' →
  (k, v) ∈ items →
  ∀ e, coerce_entry py k v ≠ Escapes e.
Proof.
  induction items as [|[key val] rest IH]; intros out out' k v Hrun Hin e.
  - by apply elem_of_nil in Hin.
  - rewrite coerce_items_cons in Hrun.
    apply elem_of_cons in Hin as [[= -> ->]|Hin].
    + by destruct (coerce_entry py key val).
    + destruct (coerce_entry py key val); [| |done]; by eapply IH.
Qed.

(** X1.  [_coerce_settings] raises exactly when the value given for some
    known key overflows in its conversion: an infinite float for an int or
    select control, an int beyond the range of float for a float control or
    for an element of a pair.  What it raises is then an [OverflowError];
    no other exception leaves it. *)
Theorem coerce_settings_raises_only_overflow (raw : gmap string PyVal) :
  ((∃ e, _coerce_settings py raw = Raise e) ↔
   ∃ k v meta, raw !! k = Some v ∧ CONTROL_META !! k = Some meta ∧
               escapes py (ctl_type meta) v = true) ∧
  (∀ e, _coerce_settings py raw = Raise e → exc_class e = OverflowError).
Proof.
  split; [split|].
  - intros [e Hrun].
    apply coerce_settings_raise in Hrun as (k & v & Hk & Hesc).
    apply coerce_entry_escapes in Hesc as (Hcls & meta & Hmeta & Hesc).
    by exists k, v, meta.
  - intros (k & v & meta & Hk & Hmeta & Hesc).
    destruct (escapes_coerce_entry k v meta Hmeta Hesc) as [e He].
    destruct (_coerce_settings py raw) as [out|e'] eqn:Hrun; [|by exists e'].
    exfalso. apply elem_of_map_to_list in Hk.
    by apply (coerce_items_ok_no_escape _ _ _ _ _ Hrun Hk e).
  - intros e Hrun.
    apply coerce_settings_raise in Hrun as (k & v & Hk & Hesc).
    by apply coerce_entry_escapes in Hesc as (Hcls & _).
Qed.

Lemma coerce_settings_known_key raw out k meta v :
  CONTROL_META !! k = Some meta →
  raw !! k = Some v →
  _coerce_settings py raw = Ok out →
  out !! k = match coerce_try py (ctl_type meta) v with
             | Ok stored => stored
             | Raise _ => None
             end.
Proof.
  intros Hmeta Hk Hrun.
  rewrite (coerce_settings_lookup py raw out k Hrun), Hk. simpl.
  unfold coerce_stored, coerce_entry. rewrite Hmeta.
  destruct (coerce_try py (ctl_type meta) v) as [[w|]|e]; try done.
  by destruct (caught e).
Qed.

(** X2.  When [_coerce_settings] returns, a given key of type bool is
    always in the result, with [bool(value)]: every non-empty string (also
    the string false) gives [True]; [None], the empty string, [0] and the
    empty list give [False]. *)
Theorem bool_controls_never_dropped raw out k meta v :
  CONTROL_META !! k = Some meta →
  ctl_type meta = T_bool →
  raw !! k = Some v →
  _coerce_settings py raw = Ok out →
  out !! k = Some (PyBool (py_bool v)) ∧
  (∀ s, v = PyStr s → s ≠ "" → out !! k = Some (PyBool true)) ∧
  (v = PyNone ∨ v = PyStr "" ∨ v = PyInt 0 ∨ v = PyList [] →
   out !! k = Some (PyBool false)).
Proof.
  intros Hmeta Hty Hk Hrun.
  rewrite (coerce_settings_known_key raw out k meta v Hmeta Hk Hrun), Hty. simpl.
  split_and!; [done| |].
  - intros s -> Hs. simpl. destruct (String.eqb_spec s ""); [done|done].
  - by intros [->|[->|[->| ->]]].
Qed.

(** X3.  When [_coerce_settings] returns, a given key of type tuple2 is
    stored only for a list or tuple of exactly two elements that both convert
    to float, as the tuple of the two floats; for every other value the key
    is absent from the result. *)
Theorem tuple2_controls_need_a_pair raw out k meta v :
  CONTROL_META !! k = Some meta →
  ctl_type meta = T_tuple2 →
  raw !! k = Some v →
  _coerce_settings py raw = Ok out →
  out !! k =
    match v with
    | PyList [a; b] | PyTuple [a; b] =>
        match py_float py a, py_float py b with
        | Ok x, Ok y => Some (PyTuple [PyFloat x; PyFloat y])
        | _, _ => None
        end
    | _ => None
    end.
Proof.
  intros Hmeta Hty Hk Hrun.
  rewrite (coerce_settings_known_key raw out k meta v Hmeta Hk Hrun), Hty. simpl.
  destruct v as [| | | | |[|a [|b [|]]]|[|a [|b [|]]]|]; try done;
    destruct (py_float py a); simpl; try done; by destruct (py_float py b).
Qed.

(** X4.  When [_coerce_settings] returns, a given int or select control is
    stored as [int(value)] and a given float control as [float(value)]; the
    key is absent when the conversion raises. *)
Theorem numeric_controls_convert raw out k meta v :
  CONTROL_META !! k = Some meta →
  raw !! k = Some v →
  _coerce_settings py raw = Ok out →
  (ctl_type meta = T_int ∨ ctl_type meta = T_select →
   out !! k = match py_int py v with
              | Ok n => Some (PyInt n)
              | Raise _ => None
              end) ∧
  (ctl_type meta = T_float →
   out !! k = match py_float py v with
              | Ok x => Some (PyFloat x)
              | Raise _ => None
              end).
Proof.
  intros Hmeta Hk Hrun.
  rewrite (coerce_settings_known_key raw out k meta v Hmeta Hk Hrun).
  split.
  - intros [-> | ->]; simpl; by destruct (py_int py v).
  - intros ->; simpl; by destruct (py_float py v).
Qed.
End CoercionMore.

Lemma bool_controls_never_dropped_witness :
  ({[ "AeEnable" := PyBool true ]} : gmap string PyVal) !! "AeEnable"
  = Some (PyBool (py_bool (PyStr "false"))).
Proof.
  assert (_coerce_settings py_demo {[ "AeEnable" := PyStr "false" ]}
          = Ok {[ "AeEnable" := PyBool true ]}) as Hrun.
  { vm_compute. reflexivity. }
  refine (proj1 (bool_controls_never_dropped py_demo
            {[ "AeEnable" := PyStr "false" ]} {[ "AeEnable" := PyBool true ]}
            "AeEnable" (meta_plain "Auto Exposure" T_bool) (PyStr "false")
            _ eq_refl _ Hrun)).
  - vm_compute. reflexivity.
  - apply lookup_singleton_eq.
Defined.

Lemma tuple2_controls_need_a_pair_witness :
  ({[ "ColourGains" := colour_gains 1.5 2 ]} : gmap string PyVal) !! "ColourGains"
  = Some (PyTuple [PyFloat 1.5; PyFloat 2]).
Proof.
  assert (_coerce_settings py_demo {[ "ColourGains" := PyList [PyStr "1.5"; PyInt 2] ]}
          = Ok {[ "ColourGains" := colour_gains 1.5 2 ]}) as Hrun.
  { vm_compute. reflexivity. }
  refine (tuple2_controls_need_a_pair py_demo
            {[ "ColourGains" := PyList [PyStr "1.5"; PyInt 2] ]}
            {[ "ColourGains" := colour_gains 1.5 2 ]}
            "ColourGains"
            (meta_range "Colour Gains (R, B)" T_tuple2
               (PyFloat 0.0) (PyFloat 32.0) (PyFloat 0.1) None)
            (PyList [PyStr "1.5"; PyInt 2]) _ eq_refl _ Hrun).
  - vm_compute. reflexivity.
  - apply lookup_singleton_eq.
Defined.

Lemma numeric_controls_convert_witness :
  ({[ "ExposureTime" := PyInt 2 ]} : gmap string PyVal) !! "ExposureTime"
  = Some (PyInt 2).
Proof.
  assert (_coerce_settings py_demo {[ "ExposureTime" := PyFloat 2.7 ]}
          = Ok {[ "ExposureTime" := PyInt 2 ]}) as Hrun.
  { vm_compute. reflexivity. }
  refine (proj1 (numeric_controls_convert py_demo
            {[ "ExposureTime" := PyFloat 2.7 ]} {[ "ExposureTime" := PyInt 2 ]}
            "ExposureTime"
            (meta_range "Exposure Time (us)" T_int
               (PyInt 100) (PyInt 200000000) (PyInt 100) (Some "100 us - 200 s"))
            (PyFloat 2.7) _ _ Hrun) (or_introl eq_refl)).
  - vm_compute. reflexivity.
  - apply lookup_singleton_eq.
Defined.

(** ** [RealCamera]: the calls on the library and the preview buffer *)

Section RealCameraMore.
Context (py : PyRuntime) (D : Driver).
Import RealCamera.

Lemma wp_configure_preview_calls s :
  wp (_configure_preview D)
     (λ r s',
        same_session s s' ∧
        (r = Ok tt →
         calls D s' = calls D s ++ preview_calls (_settings D s) ∧
         _streaming_output D s' = Some StreamingOutput.init)) s.
Proof.
  unfold _configure_preview.
  apply wp_bind, wp_gets.
  apply wp_bind, wp_hw. intros [[]|e] cam1; [|done].
  apply wp_bind, wp_hw. intros [[]|e] cam2; [|done].
  apply wp_bind, wp_modify.
  apply wp_hw. intros r cam3. split; [done|]. intros _. simpl.
  by rewrite <- !app_assoc.
Qed.

Lemma wp_start_recording_internal_calls s :
  wp (_start_recording_internal D)
     (λ r s',
        r = Ok tt →
        calls D s' = calls D s ++ recording_calls (_recording_path D s) ∧
        _streaming_output D s' = _streaming_output D s ∧
        same_session s (set_recording D (_recording D s) s')) s.
Proof.
  unfold _start_recording_internal.
  apply wp_bind, wp_hw. intros [[]|e] cam1; [|done].
  apply wp_bind, wp_hw. intros [[]|e] cam2; [|done].
  apply wp_bind, wp_gets.
  apply wp_bind, wp_hw. intros [[]|e] cam3; [|done].
  apply wp_modify. intros _. simpl. split_and!; try done.
  by rewrite <- !app_assoc.
Qed.

Lemma wp_capture_photo_calls timestamp capture_raw s :
  wp (capture_photo D timestamp capture_raw)
     (λ r s', match r with
              | Ok _ => ∃ resolution,
                  calls D s' =
                    calls D s ++
                    capture_calls (capture_dir D s) timestamp capture_raw
                      resolution (_settings D s) (_recording D s)
                      (_recording_path D s) ∧
                  _streaming_output D s' = Some StreamingOutput.init
              | Raise _ => True
              end) s.
Proof.
  unfold capture_photo.
  apply wp_bind, wp_gets.
  apply wp_bind, wp_hw. intros [[]|e] cam1; [|done].
  apply wp_bind, wp_gets.
  apply wp_bind, wp_hw. intros [[]|e] cam2; [|done].
  apply wp_bind, wp_hw. intros [[]|e] cam3; [|done].
  apply wp_bind, wp_hw. intros [[]|e] cam4; [|done].
  apply wp_bind, wp_gets.
  apply wp_bind.
  set (resolution := sensor_resolution D cam1).
  assert (∀ (out : list string) s5,
    same_session s s5 →
    calls D s5 =
      calls D s ++
      [ Stop_recording;
        Create_still_configuration (still_cfg capture_raw resolution);
        Switch_mode (still_cfg capture_raw resolution);
        Start;
        Capture_file (path_join (capture_dir D s) (photo_name timestamp ".jpg"))
          (if capture_raw
           then Some (path_join (capture_dir D s) (photo_name timestamp ".dng"))
           else None) ] →
    wp (_configure_preview D;;
        hw D Start;;
        (if _recording D s return M (t D) unit
         then _start_recording_internal D else ret tt);;
        ret out)
       (λ r s', match r with
                | Ok _ => ∃ resolution,
                    calls D s' =
                      calls D s ++
                      capture_calls (capture_dir D s) timestamp capture_raw
                        resolution (_settings D s) (_recording D s)
                        (_recording_path D s) ∧
                    _streaming_output D s' = Some StreamingOutput.init
                | Raise _ => True
                end) s5) as Hrest.
  { intros out s5 (Hd5 & Hs5 & Hr5 & Hp5) Hc5.
    apply wp_bind.
    eapply wp_mono; [|apply wp_configure_preview_calls].
    intros r6 s6 [(Hd6 & Hs6 & Hr6 & Hp6) Hc6].
    destruct r6 as [[]|e]; [|done].
    destruct (Hc6 eq_refl) as [Hc6' Ho6].
    apply wp_bind, wp_hw. intros [[]|e] cam7; [|done].
    destruct (_recording D s) eqn:Hwas.
    - apply wp_bind.
      eapply wp_mono; [|apply wp_start_recording_internal_calls].
      simpl. intros r8 s8 H8.
      destruct r8 as [[]|e]; [|done].
      destruct (H8 eq_refl) as (Hc8 & Ho8 & _).
      apply wp_ret. exists resolution. split; [|by rewrite Ho8].
      rewrite Hc8. simpl. rewrite Hc6', Hc5, Hs5, Hp6, Hp5. unfold capture_calls.
      by rewrite <- !app_assoc.
    - apply wp_bind, wp_ret, wp_ret. exists resolution. simpl.
      split; [|done].
      rewrite Hc6', Hc5, Hs5. unfold capture_calls.
      rewrite <- !app_assoc. simpl. by rewrite ?app_nil_r. }
  simpl. destruct capture_raw.
  - apply wp_bind, wp_hw. intros [[]|e] cam5; [|done].
    apply wp_ret. apply Hrest; [done|]. simpl. by rewrite <- !app_assoc.
  - apply wp_bind, wp_hw. intros [[]|e] cam5; [|done].
    apply wp_ret. apply Hrest; [done|]. simpl. by rewrite <- !app_assoc.
Qed.

Lemma wp_stop_video_calls s :
  _recording D s = true →
  wp (stop_video D)
     (λ r s', match r with
              | Ok _ =>
                  calls D s' =
                    calls D s ++ Stop_recording :: preview_calls (_settings D s) ∧
                  _streaming_output D s' = Some StreamingOutput.init
              | Raise _ => True
              end) s.
Proof.
  intros Hrec. unfold stop_video.
  apply wp_bind, wp_gets. rewrite Hrec. simpl.
  apply wp_bind, wp_hw. intros [[]|e] cam1; [|done].
  apply wp_bind, wp_modify.
  apply wp_bind, wp_gets.
  apply wp_bind, wp_modify.
  apply wp_bind.
  eapply wp_mono; [|apply wp_configure_preview_calls].
  simpl. intros r s1 [_ Hc]. destruct r as [[]|e]; [|done].
  destruct (Hc eq_refl) as [Hc1 Ho1]. simpl in *.
  apply wp_ret. split; [|done]. rewrite Hc1. by rewrite <- app_assoc.
Qed.

Lemma wp_init_calls dir cam0 :
  match init D dir cam0 with
  | (Ok _, s0) =>
      calls D s0 = preview_calls DEFAULT_SETTINGS ++ [Start] ∧
      _streaming_output D s0 = Some StreamingOutput.init
  | (Raise _, _) => True
  end.
Proof.
  set (s := {| capture_dir := dir; _streaming_output := None; _recording := false;
               _recording_path := None; _settings := DEFAULT_SETTINGS;
               _cam := cam0; calls := [] |}).
  assert (wp (_configure_preview D;; hw D Start)
            (λ r s', match r with
                     | Ok _ =>
                         calls D s' = preview_calls DEFAULT_SETTINGS ++ [Start] ∧
                         _streaming_output D s' = Some StreamingOutput.init
                     | Raise _ => True
                     end) s) as Hwp.
  { apply wp_bind.
    eapply wp_mono; [|apply wp_configure_preview_calls].
    simpl. intros r s1 [_ Hc]. destruct r as [[]|e]; [|done].
    destruct (Hc eq_refl) as [Hc1 Ho1]. simpl in *.
    apply wp_hw. intros [[]|e] cam1; [|done]. simpl. by rewrite Hc1. }
  unfold wp in Hwp. unfold init. fold s.
  by destruct ((_configure_preview D;; hw D Start) s) as [[[]|e] s0].
Qed.


(** X5.  The calls [RealCamera] makes on the camera library, in order.  A
    [capture_photo] that returns made [stop_recording],
    [create_still_configuration], [switch_mode], [start], [capture_file], the
    three calls of [_configure_preview], [start] and, when a recording was on,
    the three calls of [_start_recording_internal] on the stored path; a
    [stop_video] of a recording that returns made [stop_recording] and the
    preview calls; a constructor that returns made the preview calls with the
    default settings, then [start]. *)
Theorem library_call_sequences :
  (∀ timestamp capture_raw s files s',
     capture_photo D timestamp capture_raw s = (Ok files, s') →
     ∃ resolution,
       calls D s' =
         calls D s ++
         capture_calls (capture_dir D s) timestamp capture_raw resolution
           (_settings D s) (_recording D s) (_recording_path D s)) ∧
  (∀ s path s',
     _recording D s = true →
     stop_video D s = (Ok path, s') →
     calls D s' = calls D s ++ Stop_recording :: preview_calls (_settings D s)) ∧
  (∀ dir cam0 s0,
     init D dir cam0 = (Ok tt, s0) →
     calls D s0 = preview_calls DEFAULT_SETTINGS ++ [Start]).
Proof.
  split_and!.
  - intros timestamp capture_raw s files s' Hrun.
    destruct (wp_run _ _ _ _ _ (wp_capture_photo_calls timestamp capture_raw s) Hrun)
      as (resolution & Hc & _).
    by exists resolution.
  - intros s path s' Hrec Hrun.
    by destruct (wp_run _ _ _ _ _ (wp_stop_video_calls s Hrec) Hrun).
  - intros dir cam0 s0 Hrun.
    pose proof (wp_init_calls dir cam0) as H. rewrite Hrun in H. by destruct H.
Qed.

(** X6.  After a [capture_photo], a [stop_video] of a recording or the
    constructor has returned, the preview buffer is a new one: [get_frame]
    returns [None] as long as the encoder has delivered no frame to it. *)
Theorem preview_buffer_starts_empty :
  (∀ timestamp capture_raw s files s',
     capture_photo D timestamp capture_raw s = (Ok files, s') →
     fst (get_frame D [] s') = Ok None) ∧
  (∀ s path s',
     _recording D s = true →
     stop_video D s = (Ok path, s') →
     fst (get_frame D [] s') = Ok None) ∧
  (∀ dir cam0 s0,
     init D dir cam0 = (Ok tt, s0) →
     fst (get_frame D [] s0) = Ok None).
Proof.
  split_and!.
  - intros timestamp capture_raw s files s' Hrun.
    destruct (wp_run _ _ _ _ _ (wp_capture_photo_calls timestamp capture_raw s) Hrun)
      as (resolution & _ & Ho).
    unfold get_frame. by rewrite Ho.
  - intros s path s' Hrec Hrun.
    destruct (wp_run _ _ _ _ _ (wp_stop_video_calls s Hrec) Hrun) as [_ Ho].
    unfold get_frame. by rewrite Ho.
  - intros dir cam0 s0 Hrun.
    pose proof (wp_init_calls dir cam0) as H. rewrite Hrun in H.
    destruct H as [_ Ho]. unfold get_frame. by rewrite Ho.
Qed.

(** X7.  [RealCamera.close] never raises, whatever the camera library does:
    it calls [stop_recording] and [stop], in this order and the second also
    when the first fails, and leaves the fields of the session, the recording
    flag among them, as they were. *)
Theorem close_never_raises s :
  ∃ s', close D s = (Ok tt, s') ∧
        same_session s s' ∧
        calls D s' = calls D s ++ [Stop_recording; Stop].
Proof.
  unfold close. cbv [mbind M_bind bind try_pass hw]. simpl.
  destruct (hw_call D Stop_recording (_cam D s)) as [r1 cam1]. simpl.
  destruct (hw_call D Stop cam1) as [r2 cam2]. simpl.
  eexists. split; [reflexivity|]. split; [done|]. simpl.
  by rewrite <- app_assoc.
Qed.

(** X8.  [RealCamera.apply_settings] stores the coerced settings before it
    hands them to the camera: when [set_controls] raises, the exception
    leaves [apply_settings] and the stored settings are already the merged
    ones. *)
Theorem apply_settings_stores_before_push new coerced e cam' s :
  _coerce_settings py new = Ok coerced →
  hw_call D (Set_controls coerced) (_cam D s) = (Raise e, cam') →
  ∃ s', apply_settings py D new s = (Raise e, s') ∧
        _settings D s' = coerced ∪ _settings D s.
Proof.
  intros Hco Hpush. unfold apply_settings. rewrite Hco.
  cbv [mbind M_bind bind modify hw]. simpl. rewrite Hpush.
  by eexists.
Qed.

(** X9.  When [RealCamera.start_video] raises in a session that is not
    recording (a call of the library failed), the session is still not
    recording, but its recording path is already that of the new file. *)
Theorem failed_start_video_is_not_recording timestamp fps s e s' :
  _recording D s = false →
  start_video D timestamp fps s = (Raise e, s') →
  _recording D s' = false ∧
  _recording_path D s' = Some (path_join (capture_dir D s) (video_name timestamp)).
Proof.
  intros Hidle Hrun.
  refine (wp_run (start_video D timestamp fps)
            (λ r s', match r with
                     | Raise _ =>
                         _recording D s' = false ∧
                         _recording_path D s' =
                           Some (path_join (capture_dir D s) (video_name timestamp))
                     | Ok _ => True
                     end) s (Raise e) s' _ Hrun).
  unfold start_video.
  apply wp_bind, wp_gets.
  apply wp_bind, wp_gets. rewrite Hidle.
  apply wp_bind, wp_modify.
  apply wp_bind.
  eapply wp_mono; [|apply wp_start_recording_internal].
  simpl. intros r s1 (Hd & Hs & Hp & H1).
  destruct r as [[]|e1]; [by apply wp_ret|].
  split; congruence.
Qed.
End RealCameraMore.

Section MockCameraMore.
Context (py : PyRuntime) (O : OS).
Import MockCamera.

Lemma wp_start_video_mock_reliable timestamp fps s :
  reliable_os O →
  _recording O s = false →
  wp (start_video O timestamp fps)
     (λ r s',
        r = Ok (path_join (capture_dir O s) (video_name timestamp)) ∧
        capture_dir O s' = capture_dir O s ∧
        _settings O s' = _settings O s ∧
        _recording O s' = true ∧
        _recording_path O s' =
          Some (path_join (capture_dir O s) (video_name timestamp))) s.
Proof.
  intros Hrel Hidle. unfold start_video.
  apply wp_bind, wp_gets. rewrite Hidle.
  apply wp_bind, wp_gets.
  apply wp_bind, wp_modify.
  apply wp_bind, wp_modify.
  apply wp_bind, wp_os_reliable; [done|]. intros d.
  by apply wp_ret.
Qed.

(** X10.  When [MockCamera.start_video] raises in a session that is not
    recording (the placeholder file could not be made), the session is left
    recording to the new path: every later [start_video] raises [Already
    recording], and [stop_video] returns the path of the file that was not
    made. *)
Theorem mock_failed_start_video_keeps_recording timestamp fps s e s' :
  _recording O s = false →
  start_video O timestamp fps s = (Raise e, s') →
  _recording O s' = true ∧
  _recording_path O s' = Some (path_join (capture_dir O s) (video_name timestamp)) ∧
  (∀ timestamp' fps',
     start_video O timestamp' fps' s' =
       (Raise (Exc RuntimeError "Already recording"), s')) ∧
  fst (stop_video O s') =
    Ok (Some (path_join (capture_dir O s) (video_name timestamp))).
Proof.
  intros Hidle Hrun.
  pose proof (wp_run _ _ _ _ _ (wp_start_video_mock O timestamp fps s Hidle) Hrun)
    as (_ & _ & Hrec & Hpath & _).
  split_and!; [done|done|..].
  - intros. by apply start_video_recording_mock.
  - rewrite stop_video_recording_mock by done. simpl. by rewrite Hpath.
Qed.
End MockCameraMore.

Section CameraMore.
Context (py : PyRuntime) (D : Driver) (O : OS).


(** X12.  [capture_photo], whether it returns or raises, leaves the capture
    directory, the settings, the recording flag and the recording path as
    they were, on both implementations: after a capture that failed half way
    a recording session still says that it records. *)
Theorem capture_photo_preserves_session timestamp capture_raw (c : Camera D O) :
  let c' := snd (camera_capture_photo D O timestamp capture_raw c) in
  camera_capture_dir D O c' = camera_capture_dir D O c ∧
  camera_settings D O c' = camera_settings D O c ∧
  camera_is_recording D O c' = camera_is_recording D O c ∧
  camera_recording_path D O c' = camera_recording_path D O c.
Proof.
  destruct c as [s|s]; cbv zeta; unfold camera_capture_photo, on_camera.
  - pose proof (wp_capture_photo D timestamp capture_raw s) as [Hsame _].
    destruct (RealCamera.capture_photo D timestamp capture_raw s) as [r s'].
    exact Hsame.
  - pose proof (wp_capture_photo_mock O timestamp capture_raw s) as [Hsame _].
    destruct (MockCamera.capture_photo O timestamp capture_raw s) as [r s'].
    exact Hsame.
Qed.

Lemma camera_apply_settings_fields new (c : Camera D O) :
  let c' := snd (camera_apply_settings py D O new c) in
  camera_capture_dir D O c' = camera_capture_dir D O c ∧
  camera_is_recording D O c' = camera_is_recording D O c ∧
  camera_recording_path D O c' = camera_recording_path D O c ∧
  match _coerce_settings py new with
  | Ok coerced =>
      camera_settings D O c' = coerced ∪ camera_settings D O c ∧
      (hardware_ok c →
       fst (camera_apply_settings py D O new c) =
         Ok (coerced ∪ camera_settings D O c))
  | Raise e => camera_apply_settings py D O new c = (Raise e, c)
  end.
Proof.
  destruct c as [s|s]; cbv zeta; unfold camera_apply_settings, on_camera.
  - pose proof (wp_apply_settings py D new s) as (Hd & Hr & Hp & H).
    pose proof (wp_apply_settings_reliable py D new s) as Hrel.
    unfold wp in Hrel.
    destruct (_coerce_settings py new) as [coerced|e] eqn:Hco.
    + destruct (RealCamera.apply_settings py D new s) as [r s'].
      simpl in *. destruct H as [Hs Hres]. split_and!; [done..|].
      intros Hok. by destruct (Hrel Hok) as (_ & _ & _ & -> & _).
    + unfold RealCamera.apply_settings. by rewrite Hco.
  - rewrite apply_settings_mock.
    by destruct (_coerce_settings py new) as [coerced|e].
Qed.

(** X13.  [apply_settings] merges key by key: when the coercion returns, a
    key whose given value is stored by it has the coerced value afterwards
    and every other key keeps the value it had (also when the library then
    refuses the controls); when the coercion raises, the exception leaves
    [apply_settings] and the session is unchanged. *)
Theorem apply_settings_merges_per_key new (c : Camera D O) :
  let c' := snd (camera_apply_settings py D O new c) in
  match _coerce_settings py new with
  | Ok _ =>
      ∀ k, camera_settings D O c' !! k =
             match new !! k ≫= coerce_stored py k with
             | Some w => Some w
             | None => camera_settings D O c !! k
             end
  | Raise e => camera_apply_settings py D O new c = (Raise e, c)
  end.
Proof.
  pose proof (camera_apply_settings_fields new c) as (_ & _ & _ & H).
  cbv zeta in *.
  destruct (_coerce_settings py new) as [coerced|e] eqn:Hco; [|done].
  destruct H as [-> _]. intros k.
  rewrite <- (coerce_settings_lookup py new coerced k Hco).
  rewrite lookup_union. by destruct (coerced !! k), (camera_settings D O c !! k).
Qed.

(** X14.  When no key of the input is a key of [CONTROL_META],
    [apply_settings] leaves the settings as they were and, the library not
    raising, returns them. *)
Theorem apply_settings_ignores_unknown new (c : Camera D O) :
  (∀ k v, new !! k = Some v → CONTROL_META !! k = None) →
  camera_settings D O (snd (camera_apply_settings py D O new c)) =
    camera_settings D O c ∧
  (hardware_ok c →
   fst (camera_apply_settings py D O new c) = Ok (camera_settings D O c)).
Proof.
  intros Hunknown.
  assert (_coerce_settings py new = Ok ∅) as Hco.
  { destruct (coerce_settings_returns py new) as [out Hout].
    - intros k v Hk e. unfold coerce_entry. by rewrite (Hunknown k v Hk).
    - rewrite Hout. f_equal. apply map_eq. intros k.
      rewrite (coerce_settings_lookup py new out k Hout), lookup_empty.
      destruct (new !! k) as [v|] eqn:Hk; [|done]. simpl.
      unfold coerce_stored, coerce_entry. by rewrite (Hunknown k v Hk). }
  pose proof (camera_apply_settings_fields new c) as (_ & _ & _ & H).
  cbv zeta in H. rewrite Hco in H. by rewrite (left_id_L ∅ (∪)) in H.
Qed.

Lemma preset_keys name p :
  PRESETS !! name = Some p →
  preset_settings p !! "AeEnable" = Some (PyBool false) ∧
  preset_settings p !! "AwbEnable" = Some (PyBool false) ∧
  preset_settings p !! "Brightness" = None ∧
  preset_settings p !! "Sharpness" = None.
Proof.
  intros Hp. apply elem_of_list_to_map_2 in Hp.
  unfold PRESETS_items in Hp.
  repeat (apply elem_of_cons in Hp as [[= -> ->]|Hp];
          [unfold mk_preset; cbn [preset_settings];
           vm_compute; split_and!; reflexivity|]).
  by apply elem_of_nil in Hp.
Qed.

(** X15.  [apply_preset] with the name of a preset gives every key of the
    preset the preset's value and keeps every other key: afterwards auto
    exposure and auto white balance are off, [Brightness] and [Sharpness],
    which no preset holds, are as before, and so are the recording flag and
    path; the library not raising, it returns the new settings.  Any other
    name raises [ValueError] with the message [Unknown preset: name] and
    leaves the session unchanged. *)
Theorem apply_preset_overrides name (c : Camera D O) :
  let c' := snd (camera_apply_preset py D O name c) in
  match PRESETS !! name with
  | Some p =>
      (∀ k v, preset_settings p !! k = Some v →
              camera_settings D O c' !! k = Some v) ∧
      (∀ k, preset_settings p !! k = None →
            camera_settings D O c' !! k = camera_settings D O c !! k) ∧
      camera_settings D O c' !! "AeEnable" = Some (PyBool false) ∧
      camera_settings D O c' !! "AwbEnable" = Some (PyBool false) ∧
      camera_settings D O c' !! "Brightness" = camera_settings D O c !! "Brightness" ∧
      camera_settings D O c' !! "Sharpness" = camera_settings D O c !! "Sharpness" ∧
      camera_is_recording D O c' = camera_is_recording D O c ∧
      camera_recording_path D O c' = camera_recording_path D O c ∧
      (hardware_ok c →
       fst (camera_apply_preset py D O name c) = Ok (camera_settings D O c'))
  | None =>
      camera_apply_preset py D O name c =
        (Raise (Exc ValueError ("Unknown preset: " +:+ name)), c)
  end.
Proof.
  cbv zeta.
  destruct (PRESETS !! name) as [p|] eqn:Hp.
  - assert (camera_apply_preset py D O name c =
            camera_apply_settings py D O (preset_settings p) c) as ->.
    { unfold camera_apply_preset, camera_apply_settings, on_camera,
        RealCamera.apply_preset, MockCamera.apply_preset.
      by rewrite Hp. }
    pose proof (camera_apply_settings_fields (preset_settings p) c)
      as (_ & Hr & Hpath & H).
    cbv zeta in *.
    rewrite (coerce_settings_valid py _ (PRESETS_well_typed name p Hp)) in H.
    destruct H as [Hs Hres]. rewrite Hs.
    assert (∀ k v, preset_settings p !! k = Some v →
                   (preset_settings p ∪ camera_settings D O c) !! k = Some v) as Hset.
    { intros k v Hk. by apply lookup_union_Some_l. }
    assert (∀ k, preset_settings p !! k = None →
                 (preset_settings p ∪ camera_settings D O c) !! k =
                   camera_settings D O c !! k) as Hkeep.
    { intros k Hk. by apply lookup_union_r. }
    destruct (preset_keys name p Hp) as (Hae & Hawb & Hb & Hsh).
    split_and!; auto.
  - unfold camera_apply_preset, on_camera,
      RealCamera.apply_preset, MockCamera.apply_preset.
    rewrite Hp. by destruct c.
Qed.

Lemma start_stop_run timestamp fps (c : Camera D O) :
  env_ok c →
  camera_is_recording D O c = false →
  ∃ c1 c2,
    camera_start_video D O timestamp fps c =
      (Ok (path_join (camera_capture_dir D O c) (video_name timestamp)), c1) ∧
    camera_is_recording D O c1 = true ∧
    camera_stop_video D O c1 =
      (Ok (Some (path_join (camera_capture_dir D O c) (video_name timestamp))), c2) ∧
    camera_is_recording D O c2 = false ∧
    camera_recording_path D O c2 = None ∧
    camera_settings D O c2 = camera_settings D O c ∧
    camera_capture_dir D O c2 = camera_capture_dir D O c.
Proof.
  intros Henv Hidle. destruct c as [s|s]; simpl in *;
    unfold camera_start_video, camera_stop_video, on_camera.
  - pose proof (wp_start_video_reliable D timestamp fps s Henv Hidle) as H1.
    unfold wp in H1.
    destruct (RealCamera.start_video D timestamp fps s) as [r1 s1] eqn:Hrun1.
    simpl in H1. destruct H1 as (-> & Hd1 & Hs1 & Hr1 & Hp1).
    pose proof (wp_stop_video_reliable D s1 Henv Hr1) as H2.
    unfold wp in H2.
    destruct (RealCamera.stop_video D s1) as [r2 s2] eqn:Hrun2.
    simpl in H2. destruct H2 as (-> & Hd2 & Hs2 & Hr2 & Hp2).
    exists (Real D O s1), (Real D O s2). simpl.
    rewrite Hrun2, Hp1. unfold RealCamera.is_recording.
    split_and!; congruence.
  - pose proof (wp_start_video_mock_reliable O timestamp fps s Henv Hidle) as H1.
    unfold wp in H1.
    destruct (MockCamera.start_video O timestamp fps s) as [r1 s1] eqn:Hrun1.
    simpl in H1. destruct H1 as (-> & Hd1 & Hs1 & Hr1 & Hp1).
    exists (Mock D O s1), (Mock D O (MockCamera.set_recording_path O None
                                       (MockCamera.set_recording O false s1))).
    simpl. rewrite (stop_video_recording_mock O s1 Hr1), Hp1.
    unfold MockCamera.is_recording.
    split_and!; try reflexivity; congruence.
Qed.
End CameraMore.

(** ** File names and the handlers of [main.py] *)

Lemma append_assoc (a b c : string) : (a +:+ b) +:+ c = a +:+ (b +:+ c).
Proof.
  induction a as [|x a IH]; [done|].
  change (String x ((a +:+ b) +:+ c) = String x (a +:+ (b +:+ c))).
  by f_equal.
Qed.

Lemma no_slash_app a b : no_slash (a +:+ b) = no_slash a && no_slash b.
Proof.
  induction a as [|x a IH]; [done|].
  change (negb (Ascii.eqb x "/") && no_slash (a +:+ b) =
          negb (Ascii.eqb x "/") && no_slash a && no_slash b).
  by rewrite IH, andb_assoc.
Qed.

Lemma split_slash_no_slash s cur :
  no_slash s = true → split_slash s cur = [cur +:+ s].
Proof.
  revert cur. induction s as [|c s IH]; intros cur Hs; simpl in *.
  - f_equal. induction cur as [|x cur IHc]; [done|].
    change (String x cur = String x (cur +:+ "")). by f_equal.
  - apply andb_true_iff in Hs as [Hc Hs].
    destruct (Ascii.eqb c "/"); [done|].
    rewrite IH by done. by rewrite append_assoc.
Qed.

Lemma split_slash_app a b cur :
  ∃ l, split_slash (a +:+ String "/" b) cur = l ++ split_slash b "".
Proof.
  revert cur. induction a as [|c a IH]; intros cur; simpl.
  - by exists [cur].
  - destruct (Ascii.eqb c "/").
    + destruct (IH "") as [l Hl]. exists (cur :: l). by rewrite Hl.
    + apply IH.
Qed.

Lemma ends_with_slash dir :
  ends_with "/" dir = true → ∃ d, dir = d +:+ "/".
Proof.
  induction dir as [|c dir IH]; cbn [ends_with]; [done|].
  intros H. apply orb_true_iff in H as [H|H].
  - apply String.eqb_eq in H as ->. by exists "".
  - destruct (IH H) as [d ->]. by exists (String c d).
Qed.

Lemma name_after_slash a n :
  no_slash n = true → is_component n = true →
  name (Path_of (a +:+ String "/" n)) = n.
Proof.
  intros Hn Hc. unfold name, Path_of. cbn [parts].
  destruct (split_slash_app a n "") as [l ->].
  rewrite (split_slash_no_slash n "" Hn).
  change ("" +:+ n) with n.
  rewrite List.filter_app. cbn [List.filter]. rewrite Hc. apply last_last.
Qed.

(** [Path(str(dir / n)).name] is [n] for a file name [n]. *)
Lemma name_of_path_join dir n :
  no_slash n = true → is_component n = true →
  name (Path_of (path_join dir n)) = n.
Proof.
  intros Hn Hc. unfold path_join.
  destruct (String.eqb dir ".").
  - unfold name, Path_of. cbn [parts].
    rewrite (split_slash_no_slash n "" Hn).
    change ("" +:+ n) with n. cbn [List.filter]. by rewrite Hc.
  - destruct (ends_with "/" dir) eqn:Hend.
    + apply ends_with_slash in Hend as [d ->].
      rewrite append_assoc. simpl. by apply name_after_slash.
    + by apply name_after_slash.
Qed.

Lemma photo_name_component timestamp ext :
  no_slash timestamp = true → no_slash ext = true →
  no_slash (photo_name timestamp ext) = true ∧
  is_component (photo_name timestamp ext) = true.
Proof.
  intros Ht He. unfold photo_name. split; [|done].
  rewrite !no_slash_app, Ht, He. reflexivity.
Qed.

Lemma video_name_component timestamp :
  no_slash timestamp = true →
  no_slash (video_name timestamp) = true ∧
  is_component (video_name timestamp) = true.
Proof.
  intros Ht. unfold video_name. split; [|done].
  rewrite !no_slash_app, Ht. reflexivity.
Qed.

Lemma photo_basenames dir timestamp raw :
  no_slash timestamp = true →
  map (λ f, PyStr (name (Path_of f))) (photo_files dir timestamp raw) =
    photo_names timestamp raw.
Proof.
  intros Ht. unfold photo_files, photo_names.
  destruct (photo_name_component timestamp ".jpg" Ht eq_refl) as [H1 H2].
  destruct (photo_name_component timestamp ".dng" Ht eq_refl) as [H3 H4].
  destruct raw; simpl; by rewrite ?name_of_path_join.
Qed.

Section EndpointFacts.
Context (py : PyRuntime) (D : Driver) (O : OS).

(** X16.  [POST /api/capture] answers with the names of the files, not with
    their paths: when the camera's environment does not fail and an image is
    at hand, the body lists [photo_<timestamp>.jpg] and, for a raw capture,
    [photo_<timestamp>.dng], whatever the capture directory is. *)
Theorem capture_endpoint_lists_file_names timestamp raw (c : Camera D O) :
  env_ok c →
  has_frame c = true →
  no_slash timestamp = true →
  fst (capture_photo_endpoint D O timestamp raw c) =
    JSONResponse [("files", PyList (photo_names timestamp raw))].
Proof.
  intros Henv Hframe Ht.
  unfold capture_photo_endpoint, camera_capture_photo, on_camera.
  destruct c as [s|s]; cbn [env_ok has_frame] in *.
  - pose proof (wp_capture_photo_reliable D timestamp raw s Henv) as H.
    unfold wp in H.
    destruct (RealCamera.capture_photo D timestamp raw s) as [r s'].
    cbn [fst snd] in *. destruct H as [_ ->].
    cbn [capture_photo_handler]. by rewrite photo_basenames.
  - pose proof (wp_capture_photo_mock_reliable O timestamp raw s Henv) as H.
    unfold wp in H.
    destruct (MockCamera.capture_photo O timestamp raw s) as [r s'].
    cbn [fst snd] in *. destruct H as [_ ->].
    cbn [capture_photo_handler]. unfold mock_photo_files.
    destruct (MockCamera.frame_truthy (MockCamera._current_frame O s)); [|done].
    change ([path_join (MockCamera.capture_dir O s) (photo_name timestamp ".jpg")] ++
            (if raw
             then [path_join (MockCamera.capture_dir O s) (photo_name timestamp ".dng")]
             else []))
      with (photo_files (MockCamera.capture_dir O s) timestamp raw).
    by rewrite photo_basenames.
Qed.

(** X17.  [POST /api/video/start] in a session that is not recording (its
    environment not failing) answers with the file name
    [video_<timestamp>.mp4] and [recording: true] and leaves the session
    recording; [POST /api/video/stop] right after answers with the same file
    name and [recording: false] and leaves a session that is not recording,
    has no recording path and the settings and the directory it had. *)
Theorem video_endpoints_round_trip timestamp fps (c : Camera D O) :
  env_ok c →
  camera_is_recording D O c = false →
  no_slash timestamp = true →
  ∃ c1 c2,
    start_video_endpoint D O timestamp fps c =
      (JSONResponse [("file", PyStr (video_name timestamp));
                     ("recording", PyBool true)], c1) ∧
    camera_is_recording D O c1 = true ∧
    stop_video_endpoint D O c1 =
      (JSONResponse [("file", PyStr (video_name timestamp));
                     ("recording", PyBool false)], c2) ∧
    camera_is_recording D O c2 = false ∧
    camera_recording_path D O c2 = None ∧
    camera_settings D O c2 = camera_settings D O c ∧
    camera_capture_dir D O c2 = camera_capture_dir D O c.
Proof.
  intros Henv Hidle Ht.
  destruct (start_stop_run D O timestamp fps c Henv Hidle)
    as (c1 & c2 & Hstart & Hrec1 & Hstop & Hrest).
  destruct (video_name_component timestamp Ht) as [Hn Hc].
  exists c1, c2. unfold start_video_endpoint, stop_video_endpoint.
  rewrite Hstart, Hstop.
  cbn [start_video_handler stop_video_handler].
  rewrite (name_of_path_join _ _ Hn Hc).
  destruct Hrest as (? & ? & ? & ?). by split_and!.
Qed.

(** X18.  [POST /api/video/start] while a recording is on answers 500 with
    the detail [Already recording] and leaves the session as it was. *)
Theorem start_video_endpoint_while_recording timestamp fps (c : Camera D O) :
  camera_is_recording D O c = true →
  start_video_endpoint D O timestamp fps c =
    (HTTPException 500 "Already recording", c).
Proof.
  intros Hrec. unfold start_video_endpoint, camera_start_video, on_camera.
  destruct c as [s|s]; cbn [camera_is_recording] in Hrec.
  - by rewrite (start_video_recording D timestamp fps s Hrec).
  - by rewrite (start_video_recording_mock O timestamp fps s Hrec).
Qed.


End EndpointFacts.

(** ** The stored files *)


Section FileMore.
Context (CAPTURES_DIR : Path) (guess_type : string → option string)
        (fs : FileSystem).





End FileMore.

(** ** The sort of [scan_wifi] *)

Section SortDesc.
Context {A : Type} (key : A → Z).

Lemma insert_desc_perm x l : insert_desc key x l ≡ₚ x :: l.
Proof.
  induction l as [|y l IH]; cbn [insert_desc]; [done|].
  destruct (key x <? key y); [|done].
  rewrite IH. apply Permutation_swap.
Qed.

Lemma sort_desc_perm l : sort_desc key l ≡ₚ l.
Proof.
  induction l as [|x l IH]; [done|].
  unfold sort_desc in *. cbn [foldr]. rewrite insert_desc_perm. by rewrite IH.
Qed.

Lemma insert_desc_sorted x l :
  StronglySorted (desc key) l → StronglySorted (desc key) (insert_desc key x l).
Proof.
  induction 1 as [|y l Hsorted IH Hall]; cbn [insert_desc].
  - repeat constructor.
  - destruct (Z.ltb_spec (key x) (key y)) as [Hlt|Hge].
    + constructor; [done|].
      rewrite insert_desc_perm. constructor; [unfold desc; lia|done].
    + constructor; [by constructor|].
      constructor; [done|].
      eapply Forall_impl; [exact Hall|]. unfold desc. intros z Hz. lia.
Qed.

Lemma insert_desc_filter k x l :
  filter (λ a, key a = k) (insert_desc key x l) =
  filter (λ a, key a = k) (x :: l).
Proof.
  induction l as [|y l IH]; cbn [insert_desc]; [done|].
  destruct (Z.ltb_spec (key x) (key y)) as [Hlt|Hge]; [|done].
  rewrite (filter_cons _ y), IH, !(filter_cons _ x), (filter_cons _ y).
  destruct (decide (key y = k)), (decide (key x = k)); try done. lia.
Qed.

(** The sort gives the one arrangement that is sorted and keeps elements
    of equal key in their order. *)
Lemma sort_desc_stable l :
  sort_desc key l ≡ₚ l ∧
  StronglySorted (desc key) (sort_desc key l) ∧
  ∀ k, filter (λ a, key a = k) (sort_desc key l) = filter (λ a, key a = k) l.
Proof.
  split_and!.
  - apply sort_desc_perm.
  - induction l as [|x l IH]; [constructor|].
    unfold sort_desc in *. cbn [foldr]. by apply insert_desc_sorted.
  - intros k. induction l as [|x l IH]; [done|].
    unfold sort_desc in *. cbn [foldr].
    rewrite insert_desc_filter, !(filter_cons _ x), IH. done.
Qed.
End SortDesc.

(** ** [network.py] *)

Section NetworkFacts.
Context (py : PyRuntime) (tr : TextRuntime) (H : Host).
Context (HOTSPOT_SSID HOTSPOT_PASSWORD WIFI_INTERFACE ETH_INTERFACE : string).
Import Network.

Lemma run_unfold cmd timeout s :
  _run tr H cmd timeout s =
    (Ok (run_result tr cmd (fst (subprocess_run H cmd timeout (_host H s)))),
     {| _host := snd (subprocess_run H cmd timeout (_host H s));
        cmds := cmds H s ++ [(cmd, timeout)] |}).
Proof.
  unfold _run. by destruct (subprocess_run H cmd timeout (_host H s)) as [[]].
Qed.

Lemma wp_run_cmd cmd timeout (Q : Result (Z * string * string) → t H → Prop) s :
  (∀ o h', Q (Ok (run_result tr cmd o))
             {| _host := h'; cmds := cmds H s ++ [(cmd, timeout)] |}) →
  wp (_run tr H cmd timeout) Q s.
Proof. intros HQ. unfold wp. rewrite run_unfold. apply HQ. Qed.


(** *** [get_status] *)

Lemma status_step_flags f iface :
  let f' := status_step HOTSPOT_SSID WIFI_INTERFACE ETH_INTERFACE f iface in
  wifi_connected f' = wifi_connected f || (wifi_line WIFI_INTERFACE iface && negb (hotspot_name HOTSPOT_SSID iface)) ∧
  hotspot_active f' = hotspot_active f || (wifi_line WIFI_INTERFACE iface && hotspot_name HOTSPOT_SSID iface) ∧
  eth_connected f' = eth_connected f || eth_line ETH_INTERFACE iface ∧
  mode f' = (if eth_line ETH_INTERFACE iface then "ethernet"
             else if wifi_line WIFI_INTERFACE iface
                  then if hotspot_name HOTSPOT_SSID iface then "hotspot" else "wifi"
                  else mode f).
Proof.
  cbv zeta. unfold status_step, wifi_line, hotspot_name, eth_line.
  destruct (String.eqb (device iface) WIFI_INTERFACE),
           (String.eqb (state iface) "connected"),
           (contains "Hotspot" (connection iface) ||
            String.eqb (connection iface) HOTSPOT_SSID),
           (String.eqb (device iface) ETH_INTERFACE);
    cbn [andb orb negb mode wifi_connected eth_connected hotspot_active];
    rewrite ?orb_false_r, ?orb_true_r; done.
Qed.

Lemma status_step_inv f iface :
  mode_inv f → mode_inv (status_step HOTSPOT_SSID WIFI_INTERFACE ETH_INTERFACE f iface).
Proof.
  intros Hinv. unfold mode_inv.
  destruct (status_step_flags f iface) as (-> & -> & -> & ->).
  destruct (eth_line ETH_INTERFACE iface), (wifi_line WIFI_INTERFACE iface), (hotspot_name HOTSPOT_SSID iface);
    cbn [andb orb negb]; rewrite ?orb_false_r, ?orb_true_r; try tauto.
Qed.

Lemma fold_status_step interfaces : ∀ f,
  let f' := fold_left (status_step HOTSPOT_SSID WIFI_INTERFACE ETH_INTERFACE)
              interfaces f in
  (mode_inv f → mode_inv f') ∧
  wifi_connected f' =
    wifi_connected f ||
    existsb (λ i, wifi_line WIFI_INTERFACE i && negb (hotspot_name HOTSPOT_SSID i)) interfaces ∧
  hotspot_active f' =
    hotspot_active f || existsb (λ i, wifi_line WIFI_INTERFACE i && hotspot_name HOTSPOT_SSID i) interfaces ∧
  eth_connected f' = eth_connected f || existsb (eth_line ETH_INTERFACE) interfaces.
Proof.
  induction interfaces as [|iface rest IH]; intros f; cbv zeta; cbn [fold_left existsb].
  - by rewrite !orb_false_r.
  - destruct (IH (status_step HOTSPOT_SSID WIFI_INTERFACE ETH_INTERFACE f iface))
      as (Hinv & -> & -> & ->).
    destruct (status_step_flags f iface) as (-> & -> & -> & _).
    rewrite !orb_assoc. split_and!; try done.
    intros Hf. by apply Hinv, status_step_inv.
Qed.

Lemma status_flags_spec interfaces :
  let f := status_flags HOTSPOT_SSID WIFI_INTERFACE ETH_INTERFACE interfaces in
  (mode f = "hotspot" ∨ mode f = "wifi" ∨ mode f = "ethernet" ∨ mode f = "offline") ∧
  (mode f = "offline" ↔
   wifi_connected f = false ∧ eth_connected f = false ∧ hotspot_active f = false) ∧
  (mode f = "hotspot" → hotspot_active f = true) ∧
  (mode f = "wifi" → wifi_connected f = true) ∧
  (mode f = "ethernet" → eth_connected f = true) ∧
  wifi_connected f = existsb (λ i, wifi_line WIFI_INTERFACE i && negb (hotspot_name HOTSPOT_SSID i)) interfaces ∧
  hotspot_active f = existsb (λ i, wifi_line WIFI_INTERFACE i && hotspot_name HOTSPOT_SSID i) interfaces ∧
  eth_connected f = existsb (eth_line ETH_INTERFACE) interfaces.
Proof.
  cbv zeta. unfold status_flags.
  destruct (fold_status_step interfaces
              {| mode := "unknown"; wifi_connected := false;
                 eth_connected := false; hotspot_active := false |})
    as (Hinv & Hw & Hh & He).
  cbv zeta in *. cbn [wifi_connected eth_connected hotspot_active orb] in Hw, Hh, He.
  assert (mode_inv {| mode := "unknown"; wifi_connected := false;
                      eth_connected := false; hotspot_active := false |}) as H0.
  { left. done. }
  specialize (Hinv H0). clear H0.
  set (f := fold_left (status_step HOTSPOT_SSID WIFI_INTERFACE ETH_INTERFACE)
              interfaces _) in *.
  rewrite <- Hw, <- Hh, <- He. clear Hw Hh He.
  unfold mode_inv in Hinv.
  destruct (hotspot_active f) eqn:Hh, (wifi_connected f) eqn:Hw,
           (eth_connected f) eqn:He;
    cbn [negb andb mode wifi_connected eth_connected hotspot_active];
    rewrite ?Hh, ?Hw, ?He;
    destruct Hinv as [(Hm & ? & ? & ?)|[[Hm ?]|[[Hm ?]|[Hm ?]]]];
    try discriminate; try rewrite Hm;
    (split_and!; try done; try tauto;
     try (split; [done|by intros (? & ? & ?)])).
Qed.

Lemma get_status_unfold s :
  let o1 := subprocess_run H ["nmcli"; "-t"; "-f"; "DEVICE,TYPE,STATE,CONNECTION"; "dev"]
              15 (_host H s) in
  let r1 := run_result tr ["nmcli"; "-t"; "-f"; "DEVICE,TYPE,STATE,CONNECTION"; "dev"]
              (fst o1) in
  let interfaces :=
    if Z.eqb (fst (fst r1)) 0
    then omap parse_interface (splitlines tr (snd (fst r1))) else [] in
  let f := status_flags HOTSPOT_SSID WIFI_INTERFACE ETH_INTERFACE interfaces in
  let ip_iface := if eth_connected f then ETH_INTERFACE else WIFI_INTERFACE in
  let o2 := subprocess_run H ["ip"; "-4"; "addr"; "show"; ip_iface] 10 (snd o1) in
  let r2 := run_result tr ["ip"; "-4"; "addr"; "show"; ip_iface] (fst o2) in
  let o3 := subprocess_run H ["hostname"] 10 (snd o2) in
  let r3 := run_result tr ["hostname"] (fst o3) in
  get_status tr H HOTSPOT_SSID WIFI_INTERFACE ETH_INTERFACE s =
    (Ok {| st_mode := mode f; st_interfaces := interfaces;
           st_wifi_connected := wifi_connected f;
           st_eth_connected := eth_connected f;
           st_hotspot_active := hotspot_active f;
           st_ip_address :=
             if Z.eqb (fst (fst r2)) 0 then search_inet tr (snd (fst r2)) else None;
           st_hostname :=
             if Z.eqb (fst (fst r3)) 0 then snd (fst r3) else "hqastrocam";
           st_hotspot_ssid := HOTSPOT_SSID |},
     {| _host := snd o3;
        cmds := cmds H s ++
                [(["nmcli"; "-t"; "-f"; "DEVICE,TYPE,STATE,CONNECTION"; "dev"], 15);
                 (["ip"; "-4"; "addr"; "show"; ip_iface], 10);
                 (["hostname"], 10)] |}).
Proof.
  cbv zeta. unfold get_status, _nmcli.
  cbv [mbind M_bind bind mret M_ret ret].
  rewrite run_unfold.
  destruct (run_result tr _ _) as [[rc out] err]. cbn [fst snd].
  rewrite run_unfold.
  destruct (run_result tr _ _) as [[rc2 out2] err2]. cbn [fst snd _host cmds].
  rewrite run_unfold.
  destruct (run_result tr _ _) as [[rc3 out3] err3]. cbn [fst snd _host cmds].
  by rewrite <- !app_assoc.
Qed.

Lemma run_result_rc cmd o :
  Z.eqb (fst (fst (run_result tr cmd o))) 0 = succeeded o.
Proof. by destruct o as [[|?|?] ? ?| | |]. Qed.

(** X24.  [get_status] never raises.  The mode it reports is one of hotspot,
    wifi, ethernet and offline, never the initial unknown; it is offline
    exactly when none of the three flags is set, and otherwise names a flag
    that is set.  Each flag is set exactly when some listed interface is the
    wireless (the wired) one and connected, the wireless one counting as a
    hotspot when its connection has the name of one. *)
Theorem get_status_mode s :
  ∃ st s',
    get_status tr H HOTSPOT_SSID WIFI_INTERFACE ETH_INTERFACE s = (Ok st, s') ∧
    (st_mode st = "hotspot" ∨ st_mode st = "wifi" ∨ st_mode st = "ethernet" ∨
     st_mode st = "offline") ∧
    (st_mode st = "offline" ↔
     st_wifi_connected st = false ∧ st_eth_connected st = false ∧
     st_hotspot_active st = false) ∧
    (st_mode st = "hotspot" → st_hotspot_active st = true) ∧
    (st_mode st = "wifi" → st_wifi_connected st = true) ∧
    (st_mode st = "ethernet" → st_eth_connected st = true) ∧
    st_wifi_connected st =
      existsb (λ i, wifi_line WIFI_INTERFACE i && negb (hotspot_name HOTSPOT_SSID i))
        (st_interfaces st) ∧
    st_hotspot_active st =
      existsb (λ i, wifi_line WIFI_INTERFACE i && hotspot_name HOTSPOT_SSID i)
        (st_interfaces st) ∧
    st_eth_connected st = existsb (eth_line ETH_INTERFACE) (st_interfaces st) ∧
    st_hotspot_ssid st = HOTSPOT_SSID.
Proof.
  pose proof (get_status_unfold s) as Hrun. cbv zeta in Hrun.
  eexists _, _. split; [exact Hrun|].
  cbn [st_mode st_interfaces st_wifi_connected st_eth_connected st_hotspot_active
       st_hotspot_ssid].
  match goal with
  | |- context [status_flags _ _ _ ?l] =>
      pose proof (status_flags_spec l) as Hspec
  end.
  cbv zeta in Hspec. destruct Hspec as (? & ? & ? & ? & ? & ? & ? & ?).
  by split_and!.
Qed.

(** X25.  [get_status] runs three commands: the listing of the devices, the
    address lookup and [hostname].  The address is looked up on the wired
    interface exactly when that is connected, and on the wireless one
    otherwise.  A failed listing gives no interfaces and the mode offline, a
    failed lookup no address, a failed [hostname] the name hqastrocam. *)
Theorem get_status_commands s :
  let nmcli_dev := ["nmcli"; "-t"; "-f"; "DEVICE,TYPE,STATE,CONNECTION"; "dev"] in
  let o1 := subprocess_run H nmcli_dev 15 (_host H s) in
  ∃ st s',
    get_status tr H HOTSPOT_SSID WIFI_INTERFACE ETH_INTERFACE s = (Ok st, s') ∧
    let ip_iface := if st_eth_connected st then ETH_INTERFACE else WIFI_INTERFACE in
    let o2 := subprocess_run H ["ip"; "-4"; "addr"; "show"; ip_iface] 10 (snd o1) in
    let o3 := subprocess_run H ["hostname"] 10 (snd o2) in
    cmds H s' =
      cmds H s ++ [(nmcli_dev, 15); (["ip"; "-4"; "addr"; "show"; ip_iface], 10);
                   (["hostname"], 10)] ∧
    (succeeded (fst o1) = false →
     st_interfaces st = [] ∧ st_mode st = "offline" ∧ ip_iface = WIFI_INTERFACE) ∧
    (succeeded (fst o2) = false → st_ip_address st = None) ∧
    (succeeded (fst o3) = false → st_hostname st = "hqastrocam").
Proof.
  pose proof (get_status_unfold s) as Hrun. cbv zeta in *.
  eexists _, _. split; [exact Hrun|].
  cbn [st_mode st_interfaces st_wifi_connected st_eth_connected st_hotspot_active
       st_hotspot_ssid st_ip_address st_hostname cmds].
  rewrite !run_result_rc.
  split_and!; [done| | |].
  - intros ->. done.
  - by intros ->.
  - by intros ->.
Qed.

(** *** [scan_wifi] *)

Lemma scan_lines_spec lines : ∀ networks seen out,
  (∀ x, x ∈ seen ↔ x ∈ (ssid <$> networks)) →
  NoDup (ssid <$> networks) →
  "" ∉ (ssid <$> networks) →
  scan_lines py tr lines networks seen = Ok out →
  ∃ more,
    out = networks ++ more ∧
    NoDup (ssid <$> out) ∧
    ("" ∉ (ssid <$> out)) ∧
    (∀ n, n ∈ more →
       ∃ before line after,
         lines = before ++ line :: after ∧
         network_of_line py tr line n ∧
         ∀ l', l' ∈ before → line_ssid l' ≠ Some (ssid n)) ∧
    (∀ line p0, line ∈ lines → line_ssid line = Some p0 → p0 ≠ "" →
                p0 ∈ (ssid <$> out)).
Proof.
  induction lines as [|line rest IH]; intros networks seen out Hseen Hnd Hne Hrun.
  - cbn [scan_lines] in Hrun. injection Hrun as <-. exists [].
    rewrite app_nil_r. split_and!; try done.
    + intros n Hn. by apply elem_of_nil in Hn.
    + intros line p0 Hl. by apply elem_of_nil in Hl.
  - cbn [scan_lines] in Hrun.
    assert (∀ more,
      out = networks ++ more →
      NoDup (ssid <$> out) → "" ∉ (ssid <$> out) →
      (∀ p0, line_ssid line = Some p0 → p0 = "" ∨ p0 ∈ seen) →
      (∀ n, n ∈ more →
         ∃ before line' after,
           rest = before ++ line' :: after ∧
           network_of_line py tr line' n ∧
           ∀ l', l' ∈ before → line_ssid l' ≠ Some (ssid n)) →
      (∀ line' p0, line' ∈ rest → line_ssid line' = Some p0 → p0 ≠ "" →
                   p0 ∈ (ssid <$> out)) →
      ∃ more,
        out = networks ++ more ∧
        NoDup (ssid <$> out) ∧
        ("" ∉ (ssid <$> out)) ∧
        (∀ n, n ∈ more →
           ∃ before line' after,
             line :: rest = before ++ line' :: after ∧
             network_of_line py tr line' n ∧
             ∀ l', l' ∈ before → line_ssid l' ≠ Some (ssid n)) ∧
        (∀ line' p0, line' ∈ line :: rest → line_ssid line' = Some p0 → p0 ≠ "" →
                     p0 ∈ (ssid <$> out))) as Hskip.
    { intros more -> Hnd' Hne' Hhead Hfrom Hall. exists more.
      split_and!; try done.
      - intros n Hn. destruct (Hfrom n Hn) as (before & line' & after & -> & Hof & Hfirst).
        exists (line :: before), line', after. split_and!; try done.
        intros l' Hl'. apply elem_of_cons in Hl' as [->|Hl']; [|by apply Hfirst].
        intros Hp0. destruct (Hhead _ Hp0) as [Hempty|Hin].
        + apply Hne'. rewrite <- Hempty. apply list_elem_of_fmap.
          exists n. split; [done|]. apply elem_of_app. by right.
        + apply Hseen in Hin. rewrite fmap_app in Hnd'.
          apply NoDup_app in Hnd' as (_ & Hdisj & _).
          apply (Hdisj _ Hin). apply list_elem_of_fmap. by exists n.
      - intros line' p0 Hl' Hp0 Hp0ne.
        apply elem_of_cons in Hl' as [->|Hl']; [|by eapply Hall].
        destruct (Hhead _ Hp0) as [?|Hin]; [done|].
        rewrite fmap_app. apply elem_of_app. left. by apply Hseen. }
    unfold line_ssid in Hskip.
    destruct (str_split ":" line "") as [|p0 [|p1 [|p2 [|p3 more_fields]]]] eqn:Hsplit.
    1-4: destruct (IH _ _ _ Hseen Hnd Hne Hrun) as (more & -> & ? & ? & ? & ?);
         by apply (Hskip more).
    destruct (String.eqb p0 "" || bool_decide (p0 ∈ seen)) eqn:Hdup.
    + destruct (IH _ _ _ Hseen Hnd Hne Hrun) as (more & -> & ? & ? & ? & ?).
      apply (Hskip more); try done.
      intros ? [= <-]. apply orb_true_iff in Hdup as [Hd|Hd].
      * left. by apply String.eqb_eq.
      * right. by apply bool_decide_eq_true in Hd.
    + apply orb_false_iff in Hdup as [Hp0ne Hp0new].
      apply String.eqb_neq in Hp0ne. apply bool_decide_eq_false in Hp0new.
      destruct (if isdigit tr p1 then py_int py (PyStr p1) else Ok 0)
        as [sig|e] eqn:Hsig; [|done].
      cbn [rbind] in Hrun.
      set (n0 := {| ssid := p0; signal := sig; security := p2;
                    in_use := String.eqb p3 "*" |}) in *.
      destruct (IH (networks ++ [n0]) ({[p0]} ∪ seen) out) as
        (more & -> & Hnd' & Hne' & Hfrom & Hall); try done.
      * intros x. rewrite fmap_app, elem_of_app, elem_of_union, elem_of_singleton.
        cbn [fmap list_fmap]. rewrite list_elem_of_singleton, <- Hseen.
        cbn [ssid n0]. tauto.
      * rewrite fmap_app. apply NoDup_app. split_and!; [done| |].
        -- intros x Hx. cbn [fmap list_fmap]. rewrite list_elem_of_singleton.
           cbn [ssid n0]. intros ->. by apply Hp0new, Hseen.
        -- apply NoDup_singleton.
      * rewrite fmap_app, elem_of_app. cbn [fmap list_fmap].
        rewrite list_elem_of_singleton. cbn [ssid n0]. intros [?|?]; [done|].
        by apply Hp0ne.
      * exists (n0 :: more). rewrite <- app_assoc in *. cbn [app] in *.
        split_and!; try done.
        -- intros n Hn. apply elem_of_cons in Hn as [->|Hn].
           ++ exists [], line, rest. split_and!; try done.
              ** exists p1, p3, more_fields. cbn [ssid security in_use signal n0].
                 split_and!; try done.
                 destruct (isdigit tr p1); [|by injection Hsig as <-].
                 cbn [py_int] in Hsig.
                 destruct (str_to_int py p1); [|done]. by injection Hsig as <-.
              ** intros l' Hl'. by apply elem_of_nil in Hl'.
           ++ destruct (Hfrom n Hn) as (before & line' & after & -> & Hof & Hfirst).
              exists (line :: before), line', after. split_and!; try done.
              intros l' Hl'. apply elem_of_cons in Hl' as [->|Hl']; [|by apply Hfirst].
              unfold line_ssid. rewrite Hsplit. intros [= Hp0].
              rewrite fmap_app in Hnd'. apply NoDup_app in Hnd' as (_ & _ & Hnd').
              cbn [fmap list_fmap] in Hnd'. apply NoDup_cons in Hnd' as [Hfresh _].
              apply Hfresh. cbn [ssid n0]. rewrite Hp0.
              apply list_elem_of_fmap. by exists n.
        -- intros line' q0 Hl' Hq0 Hq0ne.
           apply elem_of_cons in Hl' as [->|Hl']; [|by eapply Hall].
           unfold line_ssid in Hq0. rewrite Hsplit in Hq0. injection Hq0 as <-.
           rewrite fmap_app, elem_of_app. right. cbn [fmap list_fmap].
           apply list_elem_of_here.
Qed.


Lemma scan_wifi_unfold s :
  let rescan := ["nmcli"; "dev"; "wifi"; "rescan"; "ifname"; WIFI_INTERFACE] in
  let list := ["nmcli"; "-t"; "-f"; "SSID,SIGNAL,SECURITY,IN-USE";
               "dev"; "wifi"; "list"; "ifname"; WIFI_INTERFACE] in
  let o1 := subprocess_run H rescan 5 (_host H s) in
  let o2 := subprocess_run H list 15 (snd o1) in
  let out := snd (fst (run_result tr list (fst o2))) in
  scan_wifi py tr H WIFI_INTERFACE s =
    (if succeeded (fst o2) then
       match scan_lines py tr (splitlines tr out) [] ∅ with
       | Ok networks => Ok (sort_desc signal networks)
       | Raise e => Raise e
       end
     else Ok [],
     {| _host := snd o2; cmds := cmds H s ++ [(rescan, 5); (list, 15)] |}).
Proof.
  cbv zeta. unfold scan_wifi, _nmcli.
  cbv [mbind M_bind bind mret M_ret ret].
  rewrite run_unfold. cbn [fst snd _host cmds].
  rewrite run_unfold.
  pose proof (run_result_rc
    ["nmcli"; "-t"; "-f"; "SSID,SIGNAL,SECURITY,IN-USE";
     "dev"; "wifi"; "list"; "ifname"; WIFI_INTERFACE]
    (fst (subprocess_run H
       ["nmcli"; "-t"; "-f"; "SSID,SIGNAL,SECURITY,IN-USE";
        "dev"; "wifi"; "list"; "ifname"; WIFI_INTERFACE] 15
       (snd (subprocess_run H
          ["nmcli"; "dev"; "wifi"; "rescan"; "ifname"; WIFI_INTERFACE] 5
          (_host H s)))))) as Hrc.
  destruct (run_result tr _ _) as [[rc out] err]. cbn [fst snd] in *.
  rewrite Hrc. cbn [_host cmds]. rewrite <- app_assoc. cbn [app].
  destruct (succeeded _); [|done].
  by destruct (scan_lines py tr (splitlines tr out) [] ∅).
Qed.

(** X26.  A [scan_wifi] that returns ran the rescan and then the listing.
    The networks have distinct SSIDs, none empty, and are sorted by signal,
    strongest first.  Each comes from the first line of the listing that has
    its SSID (with signal 0 when the field is not made of digits), and every
    SSID of the listing that is not empty is among them.  A failed listing
    gives the empty list. *)
Theorem scan_wifi_networks s networks s' :
  scan_wifi py tr H WIFI_INTERFACE s = (Ok networks, s') →
  let rescan := ["nmcli"; "dev"; "wifi"; "rescan"; "ifname"; WIFI_INTERFACE] in
  let list := ["nmcli"; "-t"; "-f"; "SSID,SIGNAL,SECURITY,IN-USE";
               "dev"; "wifi"; "list"; "ifname"; WIFI_INTERFACE] in
  let o2 := subprocess_run H list 15 (snd (subprocess_run H rescan 5 (_host H s))) in
  let lines := splitlines tr (snd (fst (run_result tr list (fst o2)))) in
  cmds H s' = cmds H s ++ [(rescan, 5); (list, 15)] ∧
  NoDup (ssid <$> networks) ∧
  ("" ∉ (ssid <$> networks)) ∧
  StronglySorted (desc signal) networks ∧
  (succeeded (fst o2) = false → networks = []) ∧
  (∀ n, n ∈ networks →
     succeeded (fst o2) = true ∧
     ∃ before line after,
       lines = before ++ line :: after ∧
       network_of_line py tr line n ∧
       ∀ l', l' ∈ before → line_ssid l' ≠ Some (ssid n)) ∧
  (succeeded (fst o2) = true →
   ∀ line p0, line ∈ lines → line_ssid line = Some p0 → p0 ≠ "" →
              p0 ∈ (ssid <$> networks)).
Proof.
  intros Hrun. cbv zeta.
  pose proof (scan_wifi_unfold s) as Hunf. cbv zeta in Hunf.
  rewrite Hunf in Hrun. clear Hunf.
  injection Hrun as Hres <-. cbn [cmds].
  split; [done|].
  destruct (succeeded _) eqn:Hok.
  2:{ injection Hres as <-. split_and!.
      - constructor.
      - apply not_elem_of_nil.
      - constructor.
      - done.
      - by intros n Hn%elem_of_nil.
      - done. }
  destruct (scan_lines py tr _ [] ∅) as [unsorted|e] eqn:Hscan; [|done].
  injection Hres as <-.
  pose proof (λ H1 H2 H3, scan_lines_spec _ [] ∅ unsorted H1 H2 H3 Hscan) as Hspec.
  destruct Hspec as (more & Hmore & Hnd & Hne & Hfrom & Hall).
  { intros x. cbn [fmap list_fmap]. rewrite elem_of_nil. set_solver. }
  { constructor. }
  { cbn [fmap list_fmap]. apply not_elem_of_nil. }
  cbn [app] in Hmore. subst more.
  destruct (sort_desc_stable signal unsorted) as (Hperm & Hsorted & _).
  split_and!; try done.
  - by rewrite Hperm.
  - by rewrite Hperm.
  - intros n Hn. split; [done|]. apply Hfrom. by rewrite <- Hperm.
  - intros _ line p0 Hl Hp0 Hp0ne. rewrite Hperm. by eapply Hall.
Qed.


(** *** The operations and their endpoints *)

Lemma run_then cmd timeout {A : Type} (k : Z * string * string → M (t H) A) s :
  (x ← _run tr H cmd timeout; k x) s =
    k (run_result tr cmd (fst (subprocess_run H cmd timeout (_host H s))))
      {| _host := snd (subprocess_run H cmd timeout (_host H s));
         cmds := cmds H s ++ [(cmd, timeout)] |}.
Proof.
  cbv [mbind M_bind bind]. by rewrite run_unfold.
Qed.

Lemma handler_of_result cmd o (body : list (string * PyVal)) :
  network_handler
    (let '(rc, _, err) := run_result tr cmd o in
     if negb (Z.eqb rc 0) then [("success", PyBool false); ("error", PyStr err)]
     else ("success", PyBool true) :: body) =
  net_answer tr cmd o body.
Proof.
  unfold net_answer. rewrite <- (run_result_rc cmd o).
  destruct (run_result tr cmd o) as [[rc out] err]. cbn [fst snd].
  by destruct (Z.eqb rc 0).
Qed.

(** X28.  The endpoints for connecting, disconnecting and the hotspot run
    the commands of their operation and no other (the hotspot one first
    deletes the old connection and ignores how that went).  They answer with
    success true, the hotspot one also with the SSID and the password,
    when the last command ended with 0, and otherwise 500 whose detail is the
    error text of that command, never the default of the handler. *)
Theorem network_endpoints_answer s :
  (∀ ssid password,
     let cmd := ["nmcli"; "dev"; "wifi"; "connect"; ssid; "password"; password;
                 "ifname"; WIFI_INTERFACE] in
     let o := subprocess_run H cmd 30 (_host H s) in
     network_endpoint H (connect_wifi tr H WIFI_INTERFACE ssid password) s =
       (Ok (net_answer tr cmd (fst o) [("ssid", PyStr ssid)]),
        {| _host := snd o; cmds := cmds H s ++ [(cmd, 30)] |})) ∧
  (let cmd := ["nmcli"; "dev"; "disconnect"; WIFI_INTERFACE] in
   let o := subprocess_run H cmd 15 (_host H s) in
   network_endpoint H (disconnect_wifi tr H WIFI_INTERFACE) s =
     (Ok (net_answer tr cmd (fst o) []),
      {| _host := snd o; cmds := cmds H s ++ [(cmd, 15)] |})) ∧
  (let delete := ["nmcli"; "connection"; "delete"; "Hotspot"] in
   let cmd := ["nmcli"; "dev"; "wifi"; "hotspot"; "ifname"; WIFI_INTERFACE;
               "ssid"; HOTSPOT_SSID; "password"; HOTSPOT_PASSWORD] in
   let o := subprocess_run H cmd 20 (snd (subprocess_run H delete 5 (_host H s))) in
   network_endpoint H
     (enable_hotspot tr H HOTSPOT_SSID HOTSPOT_PASSWORD WIFI_INTERFACE) s =
     (Ok (net_answer tr cmd (fst o)
            [("ssid", PyStr HOTSPOT_SSID); ("password", PyStr HOTSPOT_PASSWORD)]),
      {| _host := snd o; cmds := cmds H s ++ [(delete, 5); (cmd, 20)] |})).
Proof.
  split_and!.
  - intros ssid password. cbv zeta.
    unfold network_endpoint, connect_wifi, _nmcli. rewrite run_then.
    rewrite <- handler_of_result.
    destruct (run_result tr _ _) as [[rc out] err].
    by destruct (Z.eqb rc 0).
  - cbv zeta. unfold network_endpoint, disconnect_wifi, _nmcli. rewrite run_then.
    rewrite <- handler_of_result.
    destruct (run_result tr _ _) as [[rc out] err].
    by destruct (Z.eqb rc 0).
  - cbv zeta. unfold network_endpoint, enable_hotspot, _nmcli.
    rewrite run_then, run_then. cbn [_host cmds].
    rewrite <- handler_of_result, <- app_assoc. cbn [app].
    destruct (run_result tr _ _) as [[rc out] err].
    by destruct (Z.eqb rc 0).
Qed.

Lemma disable_hotspot_unfold s :
  let by_ssid := ["nmcli"; "connection"; "down"; HOTSPOT_SSID] in
  let by_name := ["nmcli"; "connection"; "down"; "Hotspot"] in
  let o1 := subprocess_run H by_ssid 15 (_host H s) in
  let o2 := subprocess_run H by_name 15 (snd o1) in
  disable_hotspot tr H HOTSPOT_SSID s =
    if succeeded (fst o1) then
      (Ok [("success", PyBool true)],
       {| _host := snd o1; cmds := cmds H s ++ [(by_ssid, 15)] |})
    else
      (Ok (if succeeded (fst o2) then [("success", PyBool true)]
           else [("success", PyBool false);
                 ("error", PyStr (snd (run_result tr by_name (fst o2))))]),
       {| _host := snd o2; cmds := cmds H s ++ [(by_ssid, 15); (by_name, 15)] |}).
Proof.
  cbv zeta. unfold disable_hotspot, _nmcli. rewrite run_then.
  rewrite <- (run_result_rc ["nmcli"; "connection"; "down"; HOTSPOT_SSID]).
  destruct (run_result tr ["nmcli"; "connection"; "down"; HOTSPOT_SSID] _)
    as [[rc out] err]. cbn [fst snd].
  destruct (Z.eqb rc 0) eqn:Hrc; cbn [negb].
  - cbv [mbind M_bind bind mret M_ret ret]. by rewrite Hrc.
  - rewrite run_then. cbn [_host cmds].
    rewrite <- (run_result_rc ["nmcli"; "connection"; "down"; "Hotspot"]).
    rewrite <- app_assoc. cbn [app].
    destruct (run_result tr ["nmcli"; "connection"; "down"; "Hotspot"] _)
      as [[rc2 out2] err2]. cbn [fst snd].
    by destruct (Z.eqb rc2 0).
Qed.

(** X29.  [disable_hotspot] never raises.  It takes the connection down by
    the SSID and, only when that fails, by the name Hotspot; it reports
    success when one of the two commands ended with 0, and otherwise the
    error text of the second. *)
Theorem disable_hotspot_falls_back s :
  let by_ssid := ["nmcli"; "connection"; "down"; HOTSPOT_SSID] in
  let by_name := ["nmcli"; "connection"; "down"; "Hotspot"] in
  let o1 := subprocess_run H by_ssid 15 (_host H s) in
  let o2 := subprocess_run H by_name 15 (snd o1) in
  ∃ result s',
    disable_hotspot tr H HOTSPOT_SSID s = (Ok result, s') ∧
    cmds H s' =
      cmds H s ++
      (by_ssid, 15) :: (if succeeded (fst o1) then [] else [(by_name, 15)]) ∧
    dict_get "success" result PyNone =
      PyBool (succeeded (fst o1) || succeeded (fst o2)) ∧
    (succeeded (fst o1) || succeeded (fst o2) = false →
     dict_get "error" result PyNone =
       PyStr (snd (run_result tr by_name (fst o2)))).
Proof.
  cbv zeta. pose proof (disable_hotspot_unfold s) as Hrun. cbv zeta in Hrun.
  rewrite Hrun. clear Hrun.
  destruct (succeeded (fst (subprocess_run H _ 15 (_host H s)))).
  - eexists _, _. split; [reflexivity|]. by split_and!.
  - destruct (succeeded _); eexists _, _; (split; [reflexivity|]); by split_and!.
Qed.
End NetworkFacts.

(** ** Runs in the example environments *)

Example get_status_last_line_wins :
  fst (Network.get_status tr_demo H_demo "HQAstroCam" "wlan0" "eth0"
         (net_start H_demo tt)) =
  Ok {| Network.st_mode := "wifi";
        Network.st_interfaces :=
          [ {| Network.device := "eth0"; Network.type_ := "ethernet";
               Network.state := "connected";
               Network.connection := "Wired connection 1" |};
            {| Network.device := "wlan0"; Network.type_ := "wifi";
               Network.state := "connected"; Network.connection := "HomeNet" |};
            {| Network.device := "lo"; Network.type_ := "loopback";
               Network.state := "unmanaged"; Network.connection := "" |} ];
        Network.st_wifi_connected := true;
        Network.st_eth_connected := true;
        Network.st_hotspot_active := false;
        Network.st_ip_address := Some "192.168.1.20";
        Network.st_hostname := "astro";
        Network.st_hotspot_ssid := "HQAstroCam" |}.
Proof. vm_compute. reflexivity. Qed.

Example scan_wifi_demo :
  fst (Network.scan_wifi py_demo tr_demo H_demo "wlan0" (net_start H_demo tt)) =
  Ok [ {| Network.ssid := "HomeNet"; Network.signal := 70;
          Network.security := "WPA2"; Network.in_use := true |};
       {| Network.ssid := "Shed"; Network.signal := 70;
          Network.security := "WPA1 WPA2"; Network.in_use := false |};
       {| Network.ssid := "Cafe"; Network.signal := 45;
          Network.security := ""; Network.in_use := false |};
       {| Network.ssid := "Attic"; Network.signal := 0;
          Network.security := "WPA2"; Network.in_use := false |} ].
Proof. vm_compute. reflexivity. Qed.

(** ** The properties at concrete inputs *)

Lemma library_call_sequences_witness :
  ∃ resolution,
    RealCamera.calls D_ideal
      (snd (RealCamera.capture_photo D_ideal "20240101_120000" true
              (idle_session D_ideal tt))) =
    RealCamera.calls D_ideal (idle_session D_ideal tt) ++
    capture_calls "/captures" "20240101_120000" true resolution DEFAULT_SETTINGS
      false None.
Proof.
  assert (RealCamera.capture_photo D_ideal "20240101_120000" true
            (idle_session D_ideal tt)
          = (Ok ["/captures/photo_20240101_120000.jpg";
                 "/captures/photo_20240101_120000.dng"],
             snd (RealCamera.capture_photo D_ideal "20240101_120000" true
                    (idle_session D_ideal tt)))) as Hrun.
  { vm_compute. reflexivity. }
  exact (proj1 (library_call_sequences D_ideal) _ _ _ _ _ Hrun).
Defined.

Lemma preview_buffer_starts_empty_witness :
  fst (RealCamera.get_frame D_ideal []
         (snd (RealCamera.stop_video D_ideal
                 (recording_session D_ideal "/captures/video_20240101_115900.mp4" tt))))
  = Ok None.
Proof.
  assert (RealCamera.stop_video D_ideal
            (recording_session D_ideal "/captures/video_20240101_115900.mp4" tt)
          = (Ok (Some "/captures/video_20240101_115900.mp4"),
             snd (RealCamera.stop_video D_ideal
                    (recording_session D_ideal
                       "/captures/video_20240101_115900.mp4" tt)))) as Hrun.
  { vm_compute. reflexivity. }
  exact (proj1 (proj2 (preview_buffer_starts_empty D_ideal))
           (recording_session D_ideal "/captures/video_20240101_115900.mp4" tt)
           _ _ eq_refl Hrun).
Defined.

Lemma apply_settings_stores_before_push_witness :
  ∃ s',
    RealCamera.apply_settings py_demo D_refusing {[ "ExposureTime" := PyInt 5000 ]}
      (idle_session D_refusing tt)
    = (Raise (Exc RuntimeError "control rejected"), s') ∧
    RealCamera._settings D_refusing s' =
      {[ "ExposureTime" := PyInt 5000 ]} ∪ DEFAULT_SETTINGS.
Proof.
  assert (_coerce_settings py_demo {[ "ExposureTime" := PyInt 5000 ]}
          = Ok {[ "ExposureTime" := PyInt 5000 ]}) as Hco.
  { vm_compute. reflexivity. }
  exact (apply_settings_stores_before_push py_demo D_refusing
           {[ "ExposureTime" := PyInt 5000 ]} {[ "ExposureTime" := PyInt 5000 ]}
           (Exc RuntimeError "control rejected") tt (idle_session D_refusing tt)
           Hco eq_refl).
Defined.

Lemma failed_start_video_is_not_recording_witness :
  RealCamera._recording D_refusing
    (snd (RealCamera.start_video D_refusing "20240101_120000" 25
            (idle_session D_refusing tt))) = false ∧
  RealCamera._recording_path D_refusing
    (snd (RealCamera.start_video D_refusing "20240101_120000" 25
            (idle_session D_refusing tt))) =
    Some (path_join "/captures" (video_name "20240101_120000")).
Proof.
  assert (RealCamera.start_video D_refusing "20240101_120000" 25
            (idle_session D_refusing tt)
          = (Raise (Exc RuntimeError "encoder failed to start"),
             snd (RealCamera.start_video D_refusing "20240101_120000" 25
                    (idle_session D_refusing tt)))) as Hrun.
  { vm_compute. reflexivity. }
  exact (failed_start_video_is_not_recording D_refusing "20240101_120000" 25
           (idle_session D_refusing tt) _ _ eq_refl Hrun).
Defined.

Lemma mock_failed_start_video_keeps_recording_witness :
  MockCamera._recording O_full
    (snd (MockCamera.start_video O_full "20240101_120000" 25
            (MockCamera.init O_full "/captures" tt))) = true.
Proof.
  assert (MockCamera.start_video O_full "20240101_120000" 25
            (MockCamera.init O_full "/captures" tt)
          = (Raise (Exc OSError "No space left on device"),
             snd (MockCamera.start_video O_full "20240101_120000" 25
                    (MockCamera.init O_full "/captures" tt)))) as Hrun.
  { vm_compute. reflexivity. }
  exact (proj1 (mock_failed_start_video_keeps_recording O_full "20240101_120000" 25
                  (MockCamera.init O_full "/captures" tt) _ _ eq_refl Hrun)).
Defined.

Lemma apply_settings_ignores_unknown_witness :
  camera_settings D_ideal O_ideal
    (snd (camera_apply_settings py_demo D_ideal O_ideal {[ "UnknownKey" := PyInt 99 ]}
            (Mock D_ideal O_ideal (MockCamera.init O_ideal "/captures" tt)))) =
  camera_settings D_ideal O_ideal
    (Mock D_ideal O_ideal (MockCamera.init O_ideal "/captures" tt)).
Proof.
  refine (proj1 (apply_settings_ignores_unknown py_demo D_ideal O_ideal
                   {[ "UnknownKey" := PyInt 99 ]}
                   (Mock D_ideal O_ideal (MockCamera.init O_ideal "/captures" tt)) _)).
  intros k v Hk. apply lookup_singleton_Some in Hk as [<- _].
  vm_compute. reflexivity.
Defined.

Lemma capture_endpoint_lists_file_names_witness :
  fst (capture_photo_endpoint D_ideal O_ideal "20240101_120000" true
         (Real D_ideal O_ideal (idle_session D_ideal tt))) =
  JSONResponse [("files", PyList (photo_names "20240101_120000" true))].
Proof.
  exact (capture_endpoint_lists_file_names D_ideal O_ideal "20240101_120000" true
           (Real D_ideal O_ideal (idle_session D_ideal tt))
           D_ideal_reliable eq_refl eq_refl).
Defined.

Lemma video_endpoints_round_trip_witness :
  ∃ c1 c2,
    start_video_endpoint D_ideal O_ideal "20240101_120000" 25
      (Mock D_ideal O_ideal (MockCamera.init O_ideal "/captures" tt)) =
      (JSONResponse [("file", PyStr (video_name "20240101_120000"));
                     ("recording", PyBool true)], c1) ∧
    camera_is_recording D_ideal O_ideal c1 = true ∧
    stop_video_endpoint D_ideal O_ideal c1 =
      (JSONResponse [("file", PyStr (video_name "20240101_120000"));
                     ("recording", PyBool false)], c2) ∧
    camera_is_recording D_ideal O_ideal c2 = false.
Proof.
  destruct (video_endpoints_round_trip D_ideal O_ideal "20240101_120000" 25
              (Mock D_ideal O_ideal (MockCamera.init O_ideal "/captures" tt))
              O_ideal_reliable eq_refl eq_refl)
    as (c1 & c2 & H1 & H2 & H3 & H4 & _).
  exists c1, c2. exact (conj H1 (conj H2 (conj H3 H4))).
Defined.

Lemma start_video_endpoint_while_recording_witness :
  start_video_endpoint D_ideal O_ideal "20240101_120000" 25
    (Mock D_ideal O_ideal
       (recording_mock O_ideal "/captures/video_20240101_115900.mp4" tt)) =
  (HTTPException 500 "Already recording",
   Mock D_ideal O_ideal
     (recording_mock O_ideal "/captures/video_20240101_115900.mp4" tt)).
Proof.
  exact (start_video_endpoint_while_recording D_ideal O_ideal "20240101_120000" 25
           (Mock D_ideal O_ideal
              (recording_mock O_ideal "/captures/video_20240101_115900.mp4" tt))
           eq_refl).
Defined.



Lemma scan_wifi_networks_witness :
  NoDup ["HomeNet"; "Shed"; "Cafe"; "Attic"].
Proof.
  assert (Network.scan_wifi py_demo tr_demo H_demo "wlan0" (net_start H_demo tt) =
          (Ok [ {| Network.ssid := "HomeNet"; Network.signal := 70;
                   Network.security := "WPA2"; Network.in_use := true |};
                {| Network.ssid := "Shed"; Network.signal := 70;
                   Network.security := "WPA1 WPA2"; Network.in_use := false |};
                {| Network.ssid := "Cafe"; Network.signal := 45;
                   Network.security := ""; Network.in_use := false |};
                {| Network.ssid := "Attic"; Network.signal := 0;
                   Network.security := "WPA2"; Network.in_use := false |} ],
           snd (Network.scan_wifi py_demo tr_demo H_demo "wlan0"
                  (net_start H_demo tt)))) as Hrun.
  { vm_compute. reflexivity. }
  exact (proj1 (proj2 (scan_wifi_networks py_demo tr_demo H_demo "wlan0" _ _ _ Hrun))).
Defined.
